(** * Dice or Die: the game store (src/stores/game.js), embedded and verified

    The Pinia store of the game is a single mutable object; its actions are
    embedded here as functions on an explicit [State] record.

    Conventions of the embedding.
    - JavaScript numbers that hold integers (positions, money, counters,
      dice values) are [Z]; [moneyMultiplier] and the samples returned by
      [Math.random()] are exact rationals [Q].
    - [Math.random()] reads an oracle [rnd : nat -> Q] at a cursor that every
      randomised function threads through and advances by one per call.
    - An [async] action is run to completion: the [await]s on timers are
      pacing only, and one command is processed at a time.
    - A [TypeError] raised by reading a property of [null]/[undefined] ends
      the action early; [raised] records it and [store] is the state as it
      was mutated up to that point.
    - Presentation-only fields ([gameMessage], the animation speed and
      durations, [assetsLoaded], [highlightedTargetSquare], the timer driven
      flags [bossLastRoll] and [showGeneralRollAnimation], and the boss name
      and image) and console logging are left out.  The offer held in
      [choiceDetails] is kept whole, with its message and the text and the
      visual of every option. *)

From Stdlib Require Import ZArith QArith Qround Lia.
From stdpp Require Import base decidable option list gmap strings pretty.

Local Open Scope Z_scope.

(** ** Data model *)

Inductive DICE_TYPES := NORMAL | FIXED | D20 | REVERSE_FIXED | REVERSE_RANDOM.

(** A die object [{type, value}].  Every die the game creates has one of the
    five types of [DICE_TYPES], and the two fixed kinds carry their value. *)
Inductive Die :=
  | DieNormal
  | DieFixed (value : Z)
  | DieD20
  | DieReverseFixed (value : Z)
  | DieReverseRandom.

Definition die_type (d : Die) : DICE_TYPES :=
  match d with
  | DieNormal => NORMAL
  | DieFixed _ => FIXED
  | DieD20 => D20
  | DieReverseFixed _ => REVERSE_FIXED
  | DieReverseRandom => REVERSE_RANDOM
  end.

Definition die_value (d : Die) : option Z :=
  match d with
  | DieFixed v | DieReverseFixed v => Some v
  | _ => None
  end.

Inductive BaseType := normal | start | corner_bl | corner_br | corner_tr.

Inductive EffectType :=
  | none | temp_bad_lap | huge_money | normal_money
  | choice_dice_money | choice_pick_die.

Inductive EffectDetails := penalty (p : Z) | amount (a : Z).

Record Square := mkSquare {
  id : Z;
  baseType : BaseType;
  currentEffectType : EffectType;
  isTempBad : bool;
  effectDetails : option EffectDetails
}.

Inductive Phase :=
  | rolling | dice_rolling_animation | player_moving_animation | landed
  | awaiting_choice | boss_encounter | boss_encounter_intro
  | game_lost | game_won.

Record BossDefeatCondition := mkBoss {
  diceThrows : Z;
  hp : Z;
  bribeCost : Z
}.

Record StageConfig := mkConfig {
  rows : Z;
  cols : Z;
  moneyMultiplier : Q;
  lapsToComplete : Z;
  minBadSquares : Z;
  maxBadSquares : Z;
  minChoiceDiceMoneySquares : Z;
  maxChoiceDiceMoneySquares : Z;
  minChoicePickDieSquares : Z;
  maxChoicePickDieSquares : Z;
  bossDefeatCondition : BossDefeatCondition
}.

Inductive Direction := forward | backward.

Record DiceRoll := mkDiceRoll {
  value : Z;
  type : DICE_TYPES;
  originalType : DICE_TYPES;
  direction : Direction
}.

Inductive ChoiceType := dice_vs_money | pick_a_die.

(** The [action] of an option of a choice offer with the [value] it
    carries: a number for the money bonus, a die object for the die. *)
Inductive ChoiceAction :=
  | get_money_bonus (v : Z)
  | get_chosen_die (d : Die).

(** The [visual] of an option: [{type: "money"}] or
    [{type: "die", dieData}]. *)
Inductive Visual := visual_money | visual_die (dieData : Die).

(** An option object [{text, action, value, visual}]. *)
Record ChoiceOption := mkOption {
  text : string;
  action : ChoiceAction;
  visual : Visual
}.

Record ChoiceDetails := mkChoice {
  choiceType : ChoiceType;
  message : string;
  options : list ChoiceOption
}.

#[global] Instance DICE_TYPES_eq_dec : EqDecision DICE_TYPES.
Proof. solve_decision. Defined.
#[global] Instance Die_eq_dec : EqDecision Die.
Proof. solve_decision. Defined.
#[global] Instance BaseType_eq_dec : EqDecision BaseType.
Proof. solve_decision. Defined.
#[global] Instance EffectType_eq_dec : EqDecision EffectType.
Proof. solve_decision. Defined.
#[global] Instance Phase_eq_dec : EqDecision Phase.
Proof. solve_decision. Defined.

Record State := mkState {
  boardRows : Z;
  boardCols : Z;
  playerPosition : Z;
  playerMoney : Z;
  playerLap : Z;
  playerStage : Z;
  lastDiceRoll : option DiceRoll;
  reservedDice : list Die;
  maxDiceInBag : Z;
  boardSquares : list Square;
  isGameOver : bool;
  gamePhase : Phase;
  choiceDetails : option ChoiceDetails;
  isAnimating : bool;
  lastPlayerPositionBeforeThisMove : Z;
  lastGeneralRoll : option Z;
  currentBoss : option BossDefeatCondition;
  currentDiceThrows : list Z;
  remainingBossRolls : Z;
  currentBossHP : option Z;
  currentBossMaxHP : option Z;
  totalRolls : Z;
  diceObtained : Z;
  bossesDefeated : Z;
  perfectBossDefeats : Z;
  bribesBosses : Z;
  showSummaryModal : bool;
  currentStageConfig : StageConfig
}.

Definition set_boardRows (v : Z) (s : State) : State :=
  mkState v (boardCols s) (playerPosition s) (playerMoney s) (playerLap s)
    (playerStage s) (lastDiceRoll s) (reservedDice s) (maxDiceInBag s)
    (boardSquares s) (isGameOver s) (gamePhase s) (choiceDetails s)
    (isAnimating s) (lastPlayerPositionBeforeThisMove s) (lastGeneralRoll s)
    (currentBoss s) (currentDiceThrows s) (remainingBossRolls s)
    (currentBossHP s) (currentBossMaxHP s) (totalRolls s) (diceObtained s)
    (bossesDefeated s) (perfectBossDefeats s) (bribesBosses s)
    (showSummaryModal s) (currentStageConfig s).
Definition set_boardCols (v : Z) (s : State) : State :=
  mkState (boardRows s) v (playerPosition s) (playerMoney s) (playerLap s)
    (playerStage s) (lastDiceRoll s) (reservedDice s) (maxDiceInBag s)
    (boardSquares s) (isGameOver s) (gamePhase s) (choiceDetails s)
    (isAnimating s) (lastPlayerPositionBeforeThisMove s) (lastGeneralRoll s)
    (currentBoss s) (currentDiceThrows s) (remainingBossRolls s)
    (currentBossHP s) (currentBossMaxHP s) (totalRolls s) (diceObtained s)
    (bossesDefeated s) (perfectBossDefeats s) (bribesBosses s)
    (showSummaryModal s) (currentStageConfig s).
Definition set_playerPosition (v : Z) (s : State) : State :=
  mkState (boardRows s) (boardCols s) v (playerMoney s) (playerLap s)
    (playerStage s) (lastDiceRoll s) (reservedDice s) (maxDiceInBag s)
    (boardSquares s) (isGameOver s) (gamePhase s) (choiceDetails s)
    (isAnimating s) (lastPlayerPositionBeforeThisMove s) (lastGeneralRoll s)
    (currentBoss s) (currentDiceThrows s) (remainingBossRolls s)
    (currentBossHP s) (currentBossMaxHP s) (totalRolls s) (diceObtained s)
    (bossesDefeated s) (perfectBossDefeats s) (bribesBosses s)
    (showSummaryModal s) (currentStageConfig s).
Definition set_playerMoney (v : Z) (s : State) : State :=
  mkState (boardRows s) (boardCols s) (playerPosition s) v (playerLap s)
    (playerStage s) (lastDiceRoll s) (reservedDice s) (maxDiceInBag s)
    (boardSquares s) (isGameOver s) (gamePhase s) (choiceDetails s)
    (isAnimating s) (lastPlayerPositionBeforeThisMove s) (lastGeneralRoll s)
    (currentBoss s) (currentDiceThrows s) (remainingBossRolls s)
    (currentBossHP s) (currentBossMaxHP s) (totalRolls s) (diceObtained s)
    (bossesDefeated s) (perfectBossDefeats s) (bribesBosses s)
    (showSummaryModal s) (currentStageConfig s).
Definition set_playerLap (v : Z) (s : State) : State :=
  mkState (boardRows s) (boardCols s) (playerPosition s) (playerMoney s) v
    (playerStage s) (lastDiceRoll s) (reservedDice s) (maxDiceInBag s)
    (boardSquares s) (isGameOver s) (gamePhase s) (choiceDetails s)
    (isAnimating s) (lastPlayerPositionBeforeThisMove s) (lastGeneralRoll s)
    (currentBoss s) (currentDiceThrows s) (remainingBossRolls s)
    (currentBossHP s) (currentBossMaxHP s) (totalRolls s) (diceObtained s)
    (bossesDefeated s) (perfectBossDefeats s) (bribesBosses s)
    (showSummaryModal s) (currentStageConfig s).
Definition set_playerStage (v : Z) (s : State) : State :=
  mkState (boardRows s) (boardCols s) (playerPosition s) (playerMoney s)
    (playerLap s) v (lastDiceRoll s) (reservedDice s) (maxDiceInBag s)
    (boardSquares s) (isGameOver s) (gamePhase s) (choiceDetails s)
    (isAnimating s) (lastPlayerPositionBeforeThisMove s) (lastGeneralRoll s)
    (currentBoss s) (currentDiceThrows s) (remainingBossRolls s)
    (currentBossHP s) (currentBossMaxHP s) (totalRolls s) (diceObtained s)
    (bossesDefeated s) (perfectBossDefeats s) (bribesBosses s)
    (showSummaryModal s) (currentStageConfig s).
Definition set_lastDiceRoll (v : option DiceRoll) (s : State) : State :=
  mkState (boardRows s) (boardCols s) (playerPosition s) (playerMoney s)
    (playerLap s) (playerStage s) v (reservedDice s) (maxDiceInBag s)
    (boardSquares s) (isGameOver s) (gamePhase s) (choiceDetails s)
    (isAnimating s) (lastPlayerPositionBeforeThisMove s) (lastGeneralRoll s)
    (currentBoss s) (currentDiceThrows s) (remainingBossRolls s)
    (currentBossHP s) (currentBossMaxHP s) (totalRolls s) (diceObtained s)
    (bossesDefeated s) (perfectBossDefeats s) (bribesBosses s)
    (showSummaryModal s) (currentStageConfig s).
Definition set_reservedDice (v : list Die) (s : State) : State :=
  mkState (boardRows s) (boardCols s) (playerPosition s) (playerMoney s)
    (playerLap s) (playerStage s) (lastDiceRoll s) v (maxDiceInBag s)
    (boardSquares s) (isGameOver s) (gamePhase s) (choiceDetails s)
    (isAnimating s) (lastPlayerPositionBeforeThisMove s) (lastGeneralRoll s)
    (currentBoss s) (currentDiceThrows s) (remainingBossRolls s)
    (currentBossHP s) (currentBossMaxHP s) (totalRolls s) (diceObtained s)
    (bossesDefeated s) (perfectBossDefeats s) (bribesBosses s)
    (showSummaryModal s) (currentStageConfig s).
Definition set_maxDiceInBag (v : Z) (s : State) : State :=
  mkState (boardRows s) (boardCols s) (playerPosition s) (playerMoney s)
    (playerLap s) (playerStage s) (lastDiceRoll s) (reservedDice s) v
    (boardSquares s) (isGameOver s) (gamePhase s) (choiceDetails s)
    (isAnimating s) (lastPlayerPositionBeforeThisMove s) (lastGeneralRoll s)
    (currentBoss s) (currentDiceThrows s) (remainingBossRolls s)
    (currentBossHP s) (currentBossMaxHP s) (totalRolls s) (diceObtained s)
    (bossesDefeated s) (perfectBossDefeats s) (bribesBosses s)
    (showSummaryModal s) (currentStageConfig s).
Definition set_boardSquares (v : list Square) (s : State) : State :=
  mkState (boardRows s) (boardCols s) (playerPosition s) (playerMoney s)
    (playerLap s) (playerStage s) (lastDiceRoll s) (reservedDice s)
    (maxDiceInBag s) v (isGameOver s) (gamePhase s) (choiceDetails s)
    (isAnimating s) (lastPlayerPositionBeforeThisMove s) (lastGeneralRoll s)
    (currentBoss s) (currentDiceThrows s) (remainingBossRolls s)
    (currentBossHP s) (currentBossMaxHP s) (totalRolls s) (diceObtained s)
    (bossesDefeated s) (perfectBossDefeats s) (bribesBosses s)
    (showSummaryModal s) (currentStageConfig s).
Definition set_isGameOver (v : bool) (s : State) : State :=
  mkState (boardRows s) (boardCols s) (playerPosition s) (playerMoney s)
    (playerLap s) (playerStage s) (lastDiceRoll s) (reservedDice s)
    (maxDiceInBag s) (boardSquares s) v (gamePhase s) (choiceDetails s)
    (isAnimating s) (lastPlayerPositionBeforeThisMove s) (lastGeneralRoll s)
    (currentBoss s) (currentDiceThrows s) (remainingBossRolls s)
    (currentBossHP s) (currentBossMaxHP s) (totalRolls s) (diceObtained s)
    (bossesDefeated s) (perfectBossDefeats s) (bribesBosses s)
    (showSummaryModal s) (currentStageConfig s).
Definition set_gamePhase (v : Phase) (s : State) : State :=
  mkState (boardRows s) (boardCols s) (playerPosition s) (playerMoney s)
    (playerLap s) (playerStage s) (lastDiceRoll s) (reservedDice s)
    (maxDiceInBag s) (boardSquares s) (isGameOver s) v (choiceDetails s)
    (isAnimating s) (lastPlayerPositionBeforeThisMove s) (lastGeneralRoll s)
    (currentBoss s) (currentDiceThrows s) (remainingBossRolls s)
    (currentBossHP s) (currentBossMaxHP s) (totalRolls s) (diceObtained s)
    (bossesDefeated s) (perfectBossDefeats s) (bribesBosses s)
    (showSummaryModal s) (currentStageConfig s).
Definition set_choiceDetails (v : option ChoiceDetails) (s : State) : State :=
  mkState (boardRows s) (boardCols s) (playerPosition s) (playerMoney s)
    (playerLap s) (playerStage s) (lastDiceRoll s) (reservedDice s)
    (maxDiceInBag s) (boardSquares s) (isGameOver s) (gamePhase s) v
    (isAnimating s) (lastPlayerPositionBeforeThisMove s) (lastGeneralRoll s)
    (currentBoss s) (currentDiceThrows s) (remainingBossRolls s)
    (currentBossHP s) (currentBossMaxHP s) (totalRolls s) (diceObtained s)
    (bossesDefeated s) (perfectBossDefeats s) (bribesBosses s)
    (showSummaryModal s) (currentStageConfig s).
Definition set_isAnimating (v : bool) (s : State) : State :=
  mkState (boardRows s) (boardCols s) (playerPosition s) (playerMoney s)
    (playerLap s) (playerStage s) (lastDiceRoll s) (reservedDice s)
    (maxDiceInBag s) (boardSquares s) (isGameOver s) (gamePhase s)
    (choiceDetails s) v (lastPlayerPositionBeforeThisMove s)
    (lastGeneralRoll s) (currentBoss s) (currentDiceThrows s)
    (remainingBossRolls s) (currentBossHP s) (currentBossMaxHP s)
    (totalRolls s) (diceObtained s) (bossesDefeated s) (perfectBossDefeats s)
    (bribesBosses s) (showSummaryModal s) (currentStageConfig s).
Definition set_lastPlayerPositionBeforeThisMove (v : Z) (s : State) : State :=
  mkState (boardRows s) (boardCols s) (playerPosition s) (playerMoney s)
    (playerLap s) (playerStage s) (lastDiceRoll s) (reservedDice s)
    (maxDiceInBag s) (boardSquares s) (isGameOver s) (gamePhase s)
    (choiceDetails s) (isAnimating s) v (lastGeneralRoll s) (currentBoss s)
    (currentDiceThrows s) (remainingBossRolls s) (currentBossHP s)
    (currentBossMaxHP s) (totalRolls s) (diceObtained s) (bossesDefeated s)
    (perfectBossDefeats s) (bribesBosses s) (showSummaryModal s)
    (currentStageConfig s).
Definition set_lastGeneralRoll (v : option Z) (s : State) : State :=
  mkState (boardRows s) (boardCols s) (playerPosition s) (playerMoney s)
    (playerLap s) (playerStage s) (lastDiceRoll s) (reservedDice s)
    (maxDiceInBag s) (boardSquares s) (isGameOver s) (gamePhase s)
    (choiceDetails s) (isAnimating s) (lastPlayerPositionBeforeThisMove s) v
    (currentBoss s) (currentDiceThrows s) (remainingBossRolls s)
    (currentBossHP s) (currentBossMaxHP s) (totalRolls s) (diceObtained s)
    (bossesDefeated s) (perfectBossDefeats s) (bribesBosses s)
    (showSummaryModal s) (currentStageConfig s).
Definition set_currentBoss (v : option BossDefeatCondition) (s : State) : State :=
  mkState (boardRows s) (boardCols s) (playerPosition s) (playerMoney s)
    (playerLap s) (playerStage s) (lastDiceRoll s) (reservedDice s)
    (maxDiceInBag s) (boardSquares s) (isGameOver s) (gamePhase s)
    (choiceDetails s) (isAnimating s) (lastPlayerPositionBeforeThisMove s)
    (lastGeneralRoll s) v (currentDiceThrows s) (remainingBossRolls s)
    (currentBossHP s) (currentBossMaxHP s) (totalRolls s) (diceObtained s)
    (bossesDefeated s) (perfectBossDefeats s) (bribesBosses s)
    (showSummaryModal s) (currentStageConfig s).
Definition set_currentDiceThrows (v : list Z) (s : State) : State :=
  mkState (boardRows s) (boardCols s) (playerPosition s) (playerMoney s)
    (playerLap s) (playerStage s) (lastDiceRoll s) (reservedDice s)
    (maxDiceInBag s) (boardSquares s) (isGameOver s) (gamePhase s)
    (choiceDetails s) (isAnimating s) (lastPlayerPositionBeforeThisMove s)
    (lastGeneralRoll s) (currentBoss s) v (remainingBossRolls s)
    (currentBossHP s) (currentBossMaxHP s) (totalRolls s) (diceObtained s)
    (bossesDefeated s) (perfectBossDefeats s) (bribesBosses s)
    (showSummaryModal s) (currentStageConfig s).
Definition set_remainingBossRolls (v : Z) (s : State) : State :=
  mkState (boardRows s) (boardCols s) (playerPosition s) (playerMoney s)
    (playerLap s) (playerStage s) (lastDiceRoll s) (reservedDice s)
    (maxDiceInBag s) (boardSquares s) (isGameOver s) (gamePhase s)
    (choiceDetails s) (isAnimating s) (lastPlayerPositionBeforeThisMove s)
    (lastGeneralRoll s) (currentBoss s) (currentDiceThrows s) v
    (currentBossHP s) (currentBossMaxHP s) (totalRolls s) (diceObtained s)
    (bossesDefeated s) (perfectBossDefeats s) (bribesBosses s)
    (showSummaryModal s) (currentStageConfig s).
Definition set_currentBossHP (v : option Z) (s : State) : State :=
  mkState (boardRows s) (boardCols s) (playerPosition s) (playerMoney s)
    (playerLap s) (playerStage s) (lastDiceRoll s) (reservedDice s)
    (maxDiceInBag s) (boardSquares s) (isGameOver s) (gamePhase s)
    (choiceDetails s) (isAnimating s) (lastPlayerPositionBeforeThisMove s)
    (lastGeneralRoll s) (currentBoss s) (currentDiceThrows s)
    (remainingBossRolls s) v (currentBossMaxHP s) (totalRolls s)
    (diceObtained s) (bossesDefeated s) (perfectBossDefeats s)
    (bribesBosses s) (showSummaryModal s) (currentStageConfig s).
Definition set_currentBossMaxHP (v : option Z) (s : State) : State :=
  mkState (boardRows s) (boardCols s) (playerPosition s) (playerMoney s)
    (playerLap s) (playerStage s) (lastDiceRoll s) (reservedDice s)
    (maxDiceInBag s) (boardSquares s) (isGameOver s) (gamePhase s)
    (choiceDetails s) (isAnimating s) (lastPlayerPositionBeforeThisMove s)
    (lastGeneralRoll s) (currentBoss s) (currentDiceThrows s)
    (remainingBossRolls s) (currentBossHP s) v (totalRolls s) (diceObtained s)
    (bossesDefeated s) (perfectBossDefeats s) (bribesBosses s)
    (showSummaryModal s) (currentStageConfig s).
Definition set_totalRolls (v : Z) (s : State) : State :=
  mkState (boardRows s) (boardCols s) (playerPosition s) (playerMoney s)
    (playerLap s) (playerStage s) (lastDiceRoll s) (reservedDice s)
    (maxDiceInBag s) (boardSquares s) (isGameOver s) (gamePhase s)
    (choiceDetails s) (isAnimating s) (lastPlayerPositionBeforeThisMove s)
    (lastGeneralRoll s) (currentBoss s) (currentDiceThrows s)
    (remainingBossRolls s) (currentBossHP s) (currentBossMaxHP s) v
    (diceObtained s) (bossesDefeated s) (perfectBossDefeats s)
    (bribesBosses s) (showSummaryModal s) (currentStageConfig s).
Definition set_diceObtained (v : Z) (s : State) : State :=
  mkState (boardRows s) (boardCols s) (playerPosition s) (playerMoney s)
    (playerLap s) (playerStage s) (lastDiceRoll s) (reservedDice s)
    (maxDiceInBag s) (boardSquares s) (isGameOver s) (gamePhase s)
    (choiceDetails s) (isAnimating s) (lastPlayerPositionBeforeThisMove s)
    (lastGeneralRoll s) (currentBoss s) (currentDiceThrows s)
    (remainingBossRolls s) (currentBossHP s) (currentBossMaxHP s)
    (totalRolls s) v (bossesDefeated s) (perfectBossDefeats s)
    (bribesBosses s) (showSummaryModal s) (currentStageConfig s).
Definition set_bossesDefeated (v : Z) (s : State) : State :=
  mkState (boardRows s) (boardCols s) (playerPosition s) (playerMoney s)
    (playerLap s) (playerStage s) (lastDiceRoll s) (reservedDice s)
    (maxDiceInBag s) (boardSquares s) (isGameOver s) (gamePhase s)
    (choiceDetails s) (isAnimating s) (lastPlayerPositionBeforeThisMove s)
    (lastGeneralRoll s) (currentBoss s) (currentDiceThrows s)
    (remainingBossRolls s) (currentBossHP s) (currentBossMaxHP s)
    (totalRolls s) (diceObtained s) v (perfectBossDefeats s) (bribesBosses s)
    (showSummaryModal s) (currentStageConfig s).
Definition set_perfectBossDefeats (v : Z) (s : State) : State :=
  mkState (boardRows s) (boardCols s) (playerPosition s) (playerMoney s)
    (playerLap s) (playerStage s) (lastDiceRoll s) (reservedDice s)
    (maxDiceInBag s) (boardSquares s) (isGameOver s) (gamePhase s)
    (choiceDetails s) (isAnimating s) (lastPlayerPositionBeforeThisMove s)
    (lastGeneralRoll s) (currentBoss s) (currentDiceThrows s)
    (remainingBossRolls s) (currentBossHP s) (currentBossMaxHP s)
    (totalRolls s) (diceObtained s) (bossesDefeated s) v (bribesBosses s)
    (showSummaryModal s) (currentStageConfig s).
Definition set_bribesBosses (v : Z) (s : State) : State :=
  mkState (boardRows s) (boardCols s) (playerPosition s) (playerMoney s)
    (playerLap s) (playerStage s) (lastDiceRoll s) (reservedDice s)
    (maxDiceInBag s) (boardSquares s) (isGameOver s) (gamePhase s)
    (choiceDetails s) (isAnimating s) (lastPlayerPositionBeforeThisMove s)
    (lastGeneralRoll s) (currentBoss s) (currentDiceThrows s)
    (remainingBossRolls s) (currentBossHP s) (currentBossMaxHP s)
    (totalRolls s) (diceObtained s) (bossesDefeated s) (perfectBossDefeats s)
    v (showSummaryModal s) (currentStageConfig s).
Definition set_showSummaryModal (v : bool) (s : State) : State :=
  mkState (boardRows s) (boardCols s) (playerPosition s) (playerMoney s)
    (playerLap s) (playerStage s) (lastDiceRoll s) (reservedDice s)
    (maxDiceInBag s) (boardSquares s) (isGameOver s) (gamePhase s)
    (choiceDetails s) (isAnimating s) (lastPlayerPositionBeforeThisMove s)
    (lastGeneralRoll s) (currentBoss s) (currentDiceThrows s)
    (remainingBossRolls s) (currentBossHP s) (currentBossMaxHP s)
    (totalRolls s) (diceObtained s) (bossesDefeated s) (perfectBossDefeats s)
    (bribesBosses s) v (currentStageConfig s).
Definition set_currentStageConfig (v : StageConfig) (s : State) : State :=
  mkState (boardRows s) (boardCols s) (playerPosition s) (playerMoney s)
    (playerLap s) (playerStage s) (lastDiceRoll s) (reservedDice s)
    (maxDiceInBag s) (boardSquares s) (isGameOver s) (gamePhase s)
    (choiceDetails s) (isAnimating s) (lastPlayerPositionBeforeThisMove s)
    (lastGeneralRoll s) (currentBoss s) (currentDiceThrows s)
    (remainingBossRolls s) (currentBossHP s) (currentBossMaxHP s)
    (totalRolls s) (diceObtained s) (bossesDefeated s) (perfectBossDefeats s)
    (bribesBosses s) (showSummaryModal s) v.


(** ** Configuration *)

Definition STAGE_CONFIGS (stage : Z) : option StageConfig :=
  if decide (stage = 1) then
    Some (mkConfig 6 6 1 3 1 2 2 4 2 4 (mkBoss 3 15 40))
  else if decide (stage = 2) then
    Some (mkConfig 9 9 (15 # 10) 3 2 4 4 8 4 8 (mkBoss 3 30 80))
  else if decide (stage = 3) then
    Some (mkConfig 9 9 (175 # 100) 3 2 4 4 8 4 8 (mkBoss 3 40 70))
  else if decide (stage = 4) then
    Some (mkConfig 10 14 2 3 4 8 8 16 8 16 (mkBoss 3 50 100))
  else if decide (stage = 5) then
    Some (mkConfig 10 14 (25 # 10) 3 4 8 8 16 8 16 (mkBoss 3 70 200))
  else None.

Definition MAX_RESERVED_DICE : Z := 15.
Definition MAX_STAGES : Z := 5.
Definition HUGE_MONEY_AMOUNT_BASE : Z := 10.

(** The store as [state: () => ({...})] creates it. *)
Definition initialState : State :=
  {| boardRows := 0; boardCols := 0; playerPosition := 0; playerMoney := 0;
     playerLap := 1; playerStage := 1; lastDiceRoll := None;
     reservedDice := []; maxDiceInBag := MAX_RESERVED_DICE;
     boardSquares := []; isGameOver := false; gamePhase := rolling;
     choiceDetails := None; isAnimating := false;
     lastPlayerPositionBeforeThisMove := 0; lastGeneralRoll := None;
     currentBoss := None; currentDiceThrows := []; remainingBossRolls := 0;
     currentBossHP := None; currentBossMaxHP := None;
     totalRolls := 0; diceObtained := 0; bossesDefeated := 0;
     perfectBossDefeats := 0; bribesBosses := 0; showSummaryModal := false;
     currentStageConfig := mkConfig 6 6 1 3 1 2 2 4 2 4 (mkBoss 3 15 40) |}.

(** ** Getters *)

Definition totalBoardSquares (s : State) : Z :=
  let config := currentStageConfig s in
  if decide (rows config = 0 \/ cols config = 0) then 0
  else
    let R := rows config in
    let C := cols config in
    if decide (R <= 1 \/ C <= 1) then R * C
    else 2 * R + 2 * C - 4.

Definition cornerSquareIds (s : State) : list Z :=
  let config := currentStageConfig s in
  if decide (rows config = 0 \/ cols config = 0 \/
             rows config <= 1 \/ cols config <= 1) then []
  else
    let R := rows config in
    let C := cols config in
    [0; R - 1; R - 1 + (C - 1); R - 1 + (C - 1) + (R - 1)].

Definition bottomRightCornerId (s : State) : Z :=
  let config := currentStageConfig s in
  if decide (rows config = 0 \/ cols config = 0 \/
             rows config <= 1 \/ cols config <= 1) then -1
  else rows config - 1 + (cols config - 1).

Definition candidateSquareIds (s : State) : list Z :=
  if decide (length (boardSquares s) = 0%nat) then []
  else
    let corners := cornerSquareIds s in
    id <$> filter (fun sq => baseType sq = normal /\ id sq ∉ corners)
                  (boardSquares s).

Definition currentHugeMoneyValue (s : State) : Z :=
  HUGE_MONEY_AMOUNT_BASE * playerStage s.

(** [arr[i]] for a numeric index: [undefined] below zero and past the end. *)
Definition at_index {A} (arr : list A) (i : Z) : option A :=
  if decide (i < 0) then None else arr !! Z.to_nat i.

(** ** Board generation *)

Definition generateBoardLayout (s : State) : State :=
  let totalSquares := totalBoardSquares s in
  let corners := cornerSquareIds s in
  let brCornerId := bottomRightCornerId s in
  let newLayout :=
    (fun i : Z =>
       let baseType :=
         if decide (corners !! 0%nat = Some i) then start
         else if decide (corners !! 1%nat = Some i) then corner_bl
         else if decide (i = brCornerId) then corner_br
         else if decide (corners !! 3%nat = Some i) then corner_tr
         else normal in
       mkSquare i baseType none false None) <$> seqZ 0 totalSquares in
  set_boardSquares newLayout s.

Section Engine.

(** [rnd n] is the value of the [n]-th call of [Math.random()]. *)
Variable rnd : nat -> Q.

(** ** Helper functions *)

Definition getRandomInt (min max : Z) (c : nat) : Z * nat :=
  (Qfloor (rnd c * inject_Z (max - min + 1)) + min, S c).

(** [[array[i], array[j]] = [array[j], array[i]]].  For a sample in [0,1)
    the index [j] lies in [0..i]; an index outside the array (which would
    leave a hole in the JavaScript array) is not represented and leaves the
    list as it is. *)
Definition swapEntries {A} (array : list A) (i : nat) (j : Z) : list A :=
  match array !! i, at_index array j with
  | Some x, Some y => <[Z.to_nat j := x]> (<[i := y]> array)
  | _, _ => array
  end.

(** The loop of [shuffleArray], from index [i] down to 1. *)
Fixpoint shuffleFrom {A} (i : nat) (array : list A) (c : nat) : list A * nat :=
  match i with
  | O => (array, c)
  | S i' =>
      let j := Qfloor (rnd c * inject_Z (Z.of_nat i + 1)) in
      shuffleFrom i' (swapEntries array i j) (S c)
  end.

Definition shuffleArray {A} (array : list A) (c : nat) : list A * nat :=
  shuffleFrom (length array - 1) array c.

(** ** Lap effects *)

(** The [forEach] that opens [setupLapEffects]. *)
Definition resetSquare (sq : Square) : Square :=
  if decide (baseType sq = normal)
  then mkSquare (id sq) (baseType sq) none false None
  else mkSquare (id sq) (baseType sq) (currentEffectType sq) false
         (effectDetails sq).

(** [new Map(boardSquares.map((sq, index) => [sq.id, index]))]: a later entry
    with the same key replaces an earlier one. *)
Definition squareIdToIndexMap (board : list Square) : gmap Z nat :=
  list_to_map (reverse (imap (fun index sq => (id sq, index)) board)).

(** [const square = boardSquares[squareIdToIndexMap.get(id)]; if (square) ...]
    with the update of the square given by [assign]. *)
Definition assignSquare (assign : Square -> nat -> Square * nat)
    (idx : gmap Z nat) (sqId : Z) (board : list Square) (c : nat)
  : list Square * nat :=
  match idx !! sqId with
  | Some k =>
      match board !! k with
      | Some square =>
          let '(square', c') := assign square c in (<[k := square']> board, c')
      | None => (board, c)
      end
  | None => (board, c)
  end.

(** One quota loop: [for (i = 0; i < n; i++) { if (avail.length === 0) break;
    const x = avail.pop(); ... }].  The three loops of [setupLapEffects]
    differ only in [assign].  The first component lists the ids popped, in
    the order they were popped. *)
Fixpoint popAssign (assign : Square -> nat -> Square * nat)
    (idx : gmap Z nat) (n : nat) (avail : list Z) (board : list Square)
    (c : nat) : list Z * list Z * list Square * nat :=
  match n with
  | O => ([], avail, board, c)
  | S n' =>
      match last avail with
      | None => ([], avail, board, c)
      | Some x =>
          let '(board', c') := assignSquare assign idx x board c in
          let '(popped, avail', board'', c'') :=
            popAssign assign idx n' (removelast avail) board' c' in
          (x :: popped, avail', board'', c'')
      end
  end.

Definition assignBad (stage : Z) (square : Square) (c : nat) : Square * nat :=
  let '(r, c') := getRandomInt 5 15 c in
  (mkSquare (id square) (baseType square) temp_bad_lap true
     (Some (penalty (r * stage))), c').

Definition assignEffect (e : EffectType) (square : Square) (c : nat)
  : Square * nat :=
  (mkSquare (id square) (baseType square) e (isTempBad square)
     (effectDetails square), c).

Definition Qltb (x y : Q) : bool := negb (Qle_bool y x).

Definition assignMoney (hugeValue : Z) (multiplier : Q) (square : Square)
    (c : nat) : Square * nat :=
  let rand := rnd c in
  if Qltb rand (15 # 100) then
    (mkSquare (id square) (baseType square) huge_money (isTempBad square)
       (Some (amount hugeValue)), S c)
  else
    let '(r, c') := getRandomInt 1 3 (S c) in
    (mkSquare (id square) (baseType square) normal_money (isTempBad square)
       (Some (amount (Qfloor (inject_Z r * multiplier)))), c').

(** The closing [availableCandidateIds.forEach]. *)
Fixpoint assignRest (hugeValue : Z) (multiplier : Q) (idx : gmap Z nat)
    (avail : list Z) (board : list Square) (c : nat) : list Square * nat :=
  match avail with
  | [] => (board, c)
  | x :: avail' =>
      let '(board', c') :=
        assignSquare (assignMoney hugeValue multiplier) idx x board c in
      assignRest hugeValue multiplier idx avail' board' c'
  end.

(** What one run of [setupLapEffects] did: the ids it popped for each of the
    three quotas, the ids left for the money squares, the store and the
    cursor afterwards. *)
Record LapEffects := mkLapEffects {
  badIds : list Z;
  choiceIds : list Z;
  pickIds : list Z;
  moneyIds : list Z;
  lapStore : State;
  lapCursor : nat
}.

Definition setupLapEffects_run (s : State) (c : nat) : LapEffects :=
  let config := currentStageConfig s in
  let s := set_boardSquares (resetSquare <$> boardSquares s) s in
  let idx := squareIdToIndexMap (boardSquares s) in
  let '(availableCandidateIds, c) := shuffleArray (candidateSquareIds s) c in
  let '(numBadSquares, c) :=
    getRandomInt (minBadSquares config) (maxBadSquares config) c in
  let '(bad, availableCandidateIds, board, c) :=
    popAssign (assignBad (playerStage s)) idx (Z.to_nat numBadSquares)
      availableCandidateIds (boardSquares s) c in
  let '(numChoiceDiceMoney, c) :=
    getRandomInt (minChoiceDiceMoneySquares config)
      (maxChoiceDiceMoneySquares config) c in
  let '(choice, availableCandidateIds, board, c) :=
    popAssign (assignEffect choice_dice_money) idx
      (Z.to_nat numChoiceDiceMoney) availableCandidateIds board c in
  let '(numChoicePickDie, c) :=
    getRandomInt (minChoicePickDieSquares config)
      (maxChoicePickDieSquares config) c in
  let '(pick, availableCandidateIds, board, c) :=
    popAssign (assignEffect choice_pick_die) idx
      (Z.to_nat numChoicePickDie) availableCandidateIds board c in
  let '(board, c) :=
    assignRest (currentHugeMoneyValue s) (moneyMultiplier config) idx
      availableCandidateIds board c in
  mkLapEffects bad choice pick availableCandidateIds
    (set_boardSquares board s) c.

Definition setupLapEffects (s : State) (c : nat) : State * nat :=
  let r := setupLapEffects_run s c in (lapStore r, lapCursor r).

(** ** Stage set-up *)

(** [currentStageConfig] always holds a configuration, so the guard
    [if (!config)] of the source never fires. *)
Definition setupStage (s : State) (c : nat) : State * nat :=
  let config := currentStageConfig s in
  let s := set_boardRows (rows config) s in
  let s := set_boardCols (cols config) s in
  let s := set_playerLap 1 s in
  let s := set_playerPosition 0 s in
  let s := set_lastPlayerPositionBeforeThisMove 0 s in
  let s := set_lastDiceRoll None s in
  let s := set_choiceDetails None s in
  let s := generateBoardLayout s in
  let '(s, c) := setupLapEffects s c in
  let s := set_gamePhase rolling s in
  let s := set_isAnimating false s in
  (s, c).

Definition initializeGame (s : State) (c : nat) : State * nat :=
  let s := set_playerStage 1 s in
  let s := set_isGameOver false s in
  let s := set_isAnimating false s in
  let s := set_reservedDice [] s in
  let s := set_playerMoney 0 s in
  let '(s, c) := setupStage s c in
  let s := if decide (gamePhase s <> awaiting_choice)
           then set_gamePhase rolling s else s in
  (s, c).

(** ** Landing on a square *)

(** The strings of [DICE_TYPES]. *)
Definition DICE_TYPES_value (t : DICE_TYPES) : string :=
  match t with
  | NORMAL => "Random"
  | FIXED => "Fixed"
  | D20 => "20"
  | REVERSE_FIXED => "Reverse Fixed"
  | REVERSE_RANDOM => "Reverse Random"
  end.

(** [`${d.type}${d.value ? " (" + d.value + ")" : ""}`]: the value is shown
    when the die has one other than 0. *)
Definition dieLabel (d : Die) : string :=
  DICE_TYPES_value (die_type d)
  +:+ match die_value d with
      | Some v => if decide (v = 0) then "" else " (" +:+ pretty v +:+ ")"
      | None => ""
      end.

(** [`${d.type}${d.value !== undefined ? " (" + d.value + ")" : ""}`] *)
Definition dieLabelDefined (d : Die) : string :=
  DICE_TYPES_value (die_type d)
  +:+ match die_value d with
      | Some v => " (" +:+ pretty v +:+ ")"
      | None => ""
      end.

(** The option of the money bonus, the same in both writings of the
    dice-or-money offer. *)
Definition moneyOption (s : State) : ChoiceOption :=
  mkOption ("Get $" +:+ pretty (10 * playerStage s))
    (get_money_bonus (10 * playerStage s)) visual_money.

(** The option pushed for a die of the pool of the pick-a-die offer. *)
Definition poolOption (d : Die) : ChoiceOption :=
  mkOption ("Die: " +:+ dieLabelDefined d) (get_chosen_die d) (visual_die d).

(** [`Choose a die (${finalOpts.length} options):`] *)
Definition pickMessage (finalOpts : list ChoiceOption) : string :=
  "Choose a die (" +:+ pretty (Z.of_nat (length finalOpts)) +:+ " options):".

Definition dieSignature (d : Die) : DICE_TYPES * option Z :=
  (die_type d, die_value d).

(** The [for (const d of dPool)] loop of the pick-a-die offer; [sigs] is the
    [Set] of signatures already offered. *)
Fixpoint pickOptions (numOffer : Z) (dPool : list Die)
    (finalOpts : list ChoiceOption) (sigs : list (DICE_TYPES * option Z))
  : list ChoiceOption :=
  match dPool with
  | [] => finalOpts
  | d :: dPool' =>
      if decide (Z.of_nat (length finalOpts) >= numOffer) then finalOpts
      else
        let sig := dieSignature d in
        if decide (sig ∈ sigs) then pickOptions numOffer dPool' finalOpts sigs
        else pickOptions numOffer dPool' (finalOpts ++ [poolOption d])
               (sig :: sigs)
  end.

Definition clearSquare (sq : Square) : Square :=
  mkSquare (id sq) (baseType sq) none (isTempBad sq) None.

(** After the two guards the position is an index of the board, so the
    square is found. *)
Definition handleSquareLanding (s : State) (c : nat) : State * nat :=
  if decide (isGameOver s = true \/
             (isAnimating s = true /\ gamePhase s <> landed)) then (s, c)
  else if decide (playerPosition s < 0 \/
                  playerPosition s >= Z.of_nat (length (boardSquares s))) then
    (set_isAnimating false (set_gamePhase rolling s), c)
  else
    match at_index (boardSquares s) (playerPosition s) with
    | None => (s, c)
    | Some square =>
        let s :=
          if decide (baseType square = corner_br)
          then set_playerMoney (playerMoney s - 20) s else s in
        match currentEffectType square with
        | temp_bad_lap =>
            let '(lost, c) :=
              match effectDetails square with
              | Some (penalty p) =>
                  if decide (p = 0) then
                    let '(r, c) := getRandomInt 5 15 c in (r * playerStage s, c)
                  else (p, c)
              | _ => let '(r, c) := getRandomInt 5 15 c in (r * playerStage s, c)
              end in
            (set_playerMoney (playerMoney s - lost) s, c)
        | huge_money =>
            let hugeGain :=
              match effectDetails square with
              | Some (amount a) =>
                  if decide (a = 0) then currentHugeMoneyValue s else a
              | _ => currentHugeMoneyValue s
              end in
            let s := set_playerMoney (playerMoney s + hugeGain) s in
            (set_boardSquares
               (<[Z.to_nat (playerPosition s) := clearSquare square]>
                  (boardSquares s)) s, c)
        | choice_dice_money =>
            let s := set_gamePhase awaiting_choice s in
            let rdc := rnd c in
            let c := S c in
            let '(offeredDieInChoice, c) :=
              if Qltb rdc (6 # 10) then
                let '(v, c) := getRandomInt 2 6 c in (DieFixed v, c)
              else if Qltb rdc (85 # 100) then (DieReverseRandom, c)
              else (DieD20, c) in
            (set_choiceDetails
               (Some (mkChoice dice_vs_money "Choose reward:"
                        [moneyOption s;
                         mkOption
                           ("Get " +:+ dieLabel offeredDieInChoice +:+ " Die")
                           (get_chosen_die offeredDieInChoice)
                           (visual_die offeredDieInChoice)])) s, c)
        | choice_pick_die =>
            let s := set_gamePhase awaiting_choice s in
            let '(v, c) := getRandomInt 1 6 c in
            let '(dPool, c) :=
              shuffleArray
                [DieFixed 1; DieFixed 2; DieFixed 3; DieFixed 4; DieFixed 5;
                 DieFixed 6; DieD20; DieReverseRandom; DieReverseFixed v;
                 DieNormal] c in
            let '(numOffer, c) := getRandomInt 3 4 c in
            let finalOpts := pickOptions numOffer dPool [] [] in
            (set_choiceDetails
               (Some (mkChoice pick_a_die (pickMessage finalOpts) finalOpts))
               s, c)
        | none | normal_money => (s, c)
        end
    end.

(** ** Boss encounter *)

(** How an action ended: [raised] tells whether it ended by a [TypeError];
    [store] and [cursor] are the state and the oracle position it left. *)
Record Result := mkResult {
  raised : bool;
  store : State;
  cursor : nat
}.

Definition returned (s : State) (c : nat) : Result := mkResult false s c.
Definition threw (s : State) (c : nat) : Result := mkResult true s c.

(** [currentDiceThrows.reduce((a, b) => a + b, 0)] *)
Definition totalOf (throws : list Z) : Z := foldl Z.add 0 throws.

Definition handleBossEncounter (s : State) (c : nat) : Result :=
  match STAGE_CONFIGS (playerStage s) with
  | None => threw s c
  | Some stageConfig =>
      let boss := bossDefeatCondition stageConfig in
      let s := set_currentBoss (Some boss) s in
      let s := set_remainingBossRolls (diceThrows boss) s in
      let s := set_currentBossHP (Some (hp boss)) s in
      let s := set_currentBossMaxHP (Some (hp boss)) s in
      let s := set_currentDiceThrows [] s in
      let s := set_gamePhase boss_encounter s in
      let s := set_isAnimating false s in
      returned s c
  end.

Definition applyBossDamage (totalDiceValue : Z) (s : State) : State :=
  match currentBossHP s with
  | None => s
  | Some h => set_currentBossHP (Some (h - totalDiceValue)) s
  end.

Definition failBossFight (s : State) : State :=
  let s := set_isGameOver true s in
  let s := set_gamePhase game_lost s in
  set_showSummaryModal true s.

Definition defeatBoss (wasBribed : bool) (s : State) (c : nat) : Result :=
  let counted :=
    if wasBribed then Some s
    else
      let s := set_bossesDefeated (bossesDefeated s + 1) s in
      let totalDamage := totalOf (currentDiceThrows s) in
      match currentBoss s with
      | None => None
      | Some boss =>
          if decide (totalDamage = hp boss)
          then Some (set_perfectBossDefeats (perfectBossDefeats s + 1) s)
          else Some s
      end in
  match counted with
  | None => threw (set_bossesDefeated (bossesDefeated s + 1) s) c
  | Some s =>
      let s := set_playerStage (playerStage s + 1) s in
      if decide (playerStage s > MAX_STAGES) then
        let s := set_isGameOver true s in
        let s := set_showSummaryModal true s in
        returned s c
      else
        let s := set_playerLap 0 s in
        let s := set_currentDiceThrows [] s in
        let s := set_remainingBossRolls 0 s in
        let s := set_gamePhase rolling s in
        match STAGE_CONFIGS (playerStage s) with
        | None => returned s c
        | Some nextStageConfig =>
            let s := set_currentStageConfig nextStageConfig s in
            let '(s, c) := setupStage s c in
            returned s c
        end
  end.

Definition payToDefeatBoss (s : State) (c : nat) : Result :=
  match currentBoss s with
  | None => returned s c
  | Some boss =>
      let bribe := bribeCost boss in
      let currentMoney := playerMoney s in
      if decide (currentMoney >= bribe) then
        let s := set_playerMoney (playerMoney s - bribe) s in
        let s := set_bribesBosses (bribesBosses s + 1) s in
        defeatBoss true s c
      else returned s c
  end.

(** The argument of [rollDiceForBoss] is an object: either the one held at a
    position of the bag ([reservedDice[index]], as the dice panel passes it),
    or a die that is not in the bag.  The dice of the bag are distinct
    objects, so [indexOf] finds the first at its own position. *)
Inductive DieRef := bagDie (index : nat) | looseDie (d : Die).

Definition rollDiceForBoss (die : DieRef) (s : State) (c : nat) : Result :=
  if decide (gamePhase s <> boss_encounter) then returned s c
  else
    let resolved :=
      match die with
      | bagDie index =>
          match reservedDice s !! index with
          | Some d => Some (d, set_reservedDice (delete index (reservedDice s)) s)
          | None => None
          end
      | looseDie d => Some (d, s)
      end in
    match resolved with
    | None => threw s c
    | Some (d, s) =>
        let '(roll, c) :=
          match d with
          | DieD20 => getRandomInt 1 20 c
          | DieFixed v => (v, c)
          | DieReverseFixed v => (v, c)
          | DieReverseRandom => getRandomInt 1 6 c
          | DieNormal => getRandomInt 1 6 c
          end in
        let s := set_currentDiceThrows (currentDiceThrows s ++ [roll]) s in
        let s := set_totalRolls (totalRolls s + 1) s in
        let s := applyBossDamage roll s in
        let total := totalOf (currentDiceThrows s) in
        match currentBoss s with
        | None => threw s c
        | Some boss =>
            if decide (total >= hp boss) then defeatBoss false s c
            else if decide (gamePhase s = boss_encounter /\
                            remainingBossRolls s = 0 /\
                            length (reservedDice s) = 0%nat)
            then returned (failBossFight s) c
            else returned s c
        end
    end.

(** ** Movement *)

(** How the stepping loop of [movePlayer] ended: by the [return] after the
    boss encounter opened, or by running out of steps or a [break]. *)
Inductive WalkEnd :=
  | walkBoss (r : Result)
  | walkDone (s : State) (c : nat) (passedStartThisTurn : bool).

Definition creditSquare (s : State) : State :=
  match at_index (boardSquares s) (playerPosition s) with
  | Some currentSq =>
      match currentEffectType currentSq, effectDetails currentSq with
      | normal_money, Some (amount a) =>
          if decide (a = 0) then s else set_playerMoney (playerMoney s + a) s
      | _, _ => s
      end
  | None => s
  end.

(** The [for] loop of [movePlayer] with [n] iterations left.  [Z.rem] is the
    [%] of JavaScript for a modulus other than zero (every configured board
    has at least one square). *)
Fixpoint walk (n : nat) (direction : Z) (s : State) (c : nat) : WalkEnd :=
  match n with
  | O => walkDone s c false
  | S n' =>
      if decide (isGameOver s = true) then walkDone s c false
      else if decide (direction > 0) then
        let s :=
          set_playerPosition
            (Z.rem (playerPosition s + 1) (totalBoardSquares s)) s in
        if decide (playerPosition s = 0) then
          let s := set_playerLap (playerLap s + 1) s in
          if decide (playerLap s = lapsToComplete (currentStageConfig s)) then
            let s := set_gamePhase boss_encounter s in
            let s := set_isAnimating false s in
            walkBoss (handleBossEncounter s c)
          else
            let '(s, c) := setupLapEffects s c in
            walkDone s c true
        else walk n' direction (creditSquare s) c
      else
        let s :=
          set_playerPosition
            (Z.rem (playerPosition s - 1 + totalBoardSquares s)
               (totalBoardSquares s)) s in
        walk n' direction s c
  end.

(** The end of [movePlayer], from [this.gamePhase = "landed"] on. *)
Definition landAndFinish (s : State) (c : nat) : Result :=
  let s := set_gamePhase landed s in
  let '(s, c) := handleSquareLanding s c in
  if decide (gamePhase s = awaiting_choice) then
    returned (set_isAnimating false s) c
  else if decide (gamePhase s <> boss_encounter_intro /\ isGameOver s = false)
  then returned (set_isAnimating false (set_gamePhase rolling s)) c
  else if decide (isGameOver s = true)
  then returned (set_isAnimating false s) c
  else returned s c.

Definition movePlayer (steps : Z) (s : State) (c : nat) : Result :=
  let s := set_gamePhase player_moving_animation s in
  let totalStepsToTake := Z.abs steps in
  let direction := if decide (steps > 0) then 1 else -1 in
  let s := set_lastPlayerPositionBeforeThisMove (playerPosition s) s in
  match walk (Z.to_nat totalStepsToTake) direction s c with
  | walkBoss r => r
  | walkDone s c passedStartThisTurn =>
      if passedStartThisTurn then
        if decide (playerLap s = lapsToComplete (currentStageConfig s)) then
          let s := set_gamePhase boss_encounter s in
          let s := set_isAnimating false s in
          handleBossEncounter s c
        else
          let '(s, c) := setupLapEffects s c in
          landAndFinish s c
      else landAndFinish s c
  end.

(** ** Rolling *)

Definition showDieRoll (number : Z) (s : State) : State :=
  set_lastGeneralRoll (Some number) s.

Definition rollDice (reservedDieIndex : Z) (s : State) (c : nat) : Result :=
  if decide (gamePhase s = boss_encounter) then
    if decide (remainingBossRolls s <= 0) then returned s c
    else
      let roll := Qceiling (rnd c * 6) in
      let c := S c in
      let s := set_currentDiceThrows (currentDiceThrows s ++ [roll]) s in
      let s := set_remainingBossRolls (remainingBossRolls s - 1) s in
      let s := set_totalRolls (totalRolls s + 1) s in
      let s := applyBossDamage roll s in
      let total := totalOf (currentDiceThrows s) in
      match currentBoss s with
      | None => threw s c
      | Some boss =>
          if decide (total >= hp boss) then defeatBoss false s c
          else if decide (remainingBossRolls s = 0 /\
                          length (reservedDice s) = 0%nat)
          then returned (failBossFight s) c
          else returned s c
      end
  else if decide (isGameOver s = true \/ gamePhase s <> rolling \/
                  isAnimating s = true) then returned s c
  else
    let s := set_isAnimating true s in
    let s := set_gamePhase dice_rolling_animation s in
    let '(dieToRoll, s) :=
      if decide (reservedDieIndex >= 0 /\
                 reservedDieIndex < Z.of_nat (length (reservedDice s))) then
        match reservedDice s !! Z.to_nat reservedDieIndex with
        | Some d =>
            (d, set_reservedDice
                  (delete (Z.to_nat reservedDieIndex) (reservedDice s)) s)
        | None => (DieNormal, s)
        end
      else (DieNormal, s) in
    let originalTypeForLastRoll := die_type dieToRoll in
    let '(steps, c) :=
      match dieToRoll with
      | DieNormal => getRandomInt 1 6 c
      | DieFixed v => (if decide (v = 0) then 1 else v, c)
      | DieD20 => getRandomInt 1 20 c
      | DieReverseFixed v => (- (if decide (v = 0) then 1 else v), c)
      | DieReverseRandom => let '(r, c) := getRandomInt 1 6 c in (- r, c)
      end in
    let s := showDieRoll (Z.abs steps) s in
    let effectiveTypeForImage :=
      if decide (steps < 0) then
        if decide (originalTypeForLastRoll = NORMAL) then REVERSE_RANDOM
        else if decide (originalTypeForLastRoll = FIXED) then REVERSE_FIXED
        else originalTypeForLastRoll
      else originalTypeForLastRoll in
    let s :=
      set_lastDiceRoll
        (Some (mkDiceRoll (Z.abs steps) effectiveTypeForImage
                 originalTypeForLastRoll
                 (if decide (steps >= 0) then forward else backward))) s in
    movePlayer steps s c.

(** ** Choices, reset, stage advance *)

Definition addReservedDie (dieData : Die) (s : State) : State :=
  if decide (Z.of_nat (length (reservedDice s)) < maxDiceInBag s) then
    let s := set_reservedDice (reservedDice s ++ [dieData]) s in
    set_diceObtained (diceObtained s + 1) s
  else s.

Definition playerMakesChoice (chosenOption : ChoiceOption) (s : State)
  : State :=
  if decide (gamePhase s <> awaiting_choice \/ choiceDetails s = None) then s
  else
    let s := set_isAnimating true s in
    let oSI := playerPosition s in
    let s :=
      match action chosenOption with
      | get_money_bonus v => set_playerMoney (playerMoney s + v) s
      | get_chosen_die d => addReservedDie d s
      end in
    let s :=
      if decide (oSI >= 0 /\ oSI < Z.of_nat (length (boardSquares s))) then
        set_boardSquares (alter clearSquare (Z.to_nat oSI) (boardSquares s)) s
      else s in
    let s := set_choiceDetails None s in
    let s := set_gamePhase rolling s in
    set_isAnimating false s.

Definition resetGame (s : State) (c : nat) : State * nat :=
  let s := set_playerMoney 0 s in
  let s := set_playerLap 0 s in
  let s := set_playerStage 1 s in
  let s := set_totalRolls 0 s in
  let s := set_diceObtained 0 s in
  let s := set_bossesDefeated 0 s in
  let s := set_perfectBossDefeats 0 s in
  let s := set_bribesBosses 0 s in
  let s := set_reservedDice [] s in
  let s := set_lastDiceRoll None s in
  let s := set_currentDiceThrows [] s in
  let s := set_remainingBossRolls 0 s in
  let s := set_currentBoss None s in
  let s := set_gamePhase rolling s in
  let s := set_isGameOver false s in
  let s := set_showSummaryModal false s in
  let s := set_currentStageConfig (mkConfig 6 6 1 3 1 2 2 4 2 4 (mkBoss 3 15 40)) s in
  setupStage s c.

Definition advanceStage (s : State) (c : nat) : State * nat :=
  let s := set_playerStage (playerStage s + 1) s in
  if decide (playerStage s > MAX_STAGES) then
    let s := set_isGameOver true s in
    let s := set_gamePhase game_won s in
    (set_isAnimating false s, c)
  else setupStage s c.

(** ** The commands of the interface *)

Inductive Command :=
  | cmdInitializeGame
  | cmdRollDice (reservedDieIndex : Z)
  | cmdRollDiceForBoss (die : DieRef)
  | cmdPlayerMakesChoice (chosenOption : ChoiceOption)
  | cmdPayToDefeatBoss
  | cmdResetGame.

Definition runCommand (cmd : Command) (s : State) (c : nat) : Result :=
  match cmd with
  | cmdInitializeGame => let '(s, c) := initializeGame s c in returned s c
  | cmdRollDice reservedDieIndex => rollDice reservedDieIndex s c
  | cmdRollDiceForBoss die => rollDiceForBoss die s c
  | cmdPlayerMakesChoice chosenOption =>
      returned (playerMakesChoice chosenOption s) c
  | cmdPayToDefeatBoss => payToDefeatBoss s c
  | cmdResetGame => let '(s, c) := resetGame s c in returned s c
  end.

(** Commands are processed one at a time, each on the store the one before
    left (also when that one ended by an error). *)
Fixpoint runCommands (cmds : list Command) (s : State) (c : nat) : Result :=
  match cmds with
  | [] => returned s c
  | cmd :: cmds' =>
      let r := runCommand cmd s c in
      runCommands cmds' (store r) (cursor r)
  end.

End Engine.


(** * The rest of the store and the components that read it

    The actions of the store that the game loop does not go through, and the
    functions of the components that place the squares, pick the dice
    images, dispatch a click on a die of the bag and word the ending. *)

(** ** Animation speed

    [animationSpeedMultiplier] is the one field [toggleAnimationSpeed]
    decides on; both functions are embedded on its value. *)

Definition toggleAnimationSpeed (animationSpeedMultiplier : Z) : Z :=
  if decide (animationSpeedMultiplier = 1) then 2
  else if decide (animationSpeedMultiplier = 2) then 0
  else 1.

Definition getAnimationDelay (animationSpeedMultiplier : Z) (baseDuration : Q)
  : Q :=
  if decide (animationSpeedMultiplier = 0) then 0%Q
  else (baseDuration / inject_Z animationSpeedMultiplier)%Q.

(** ** Highlighting the square a die of the bag would reach *)

(** [toLowerCase] on the letters A to Z, the only capitals of the strings
    above. *)
Definition lowerAscii (a : Ascii.ascii) : Ascii.ascii :=
  let n := Ascii.nat_of_ascii a in
  if decide (65 <= n <= 90)%nat then Ascii.ascii_of_nat (n + 32) else a.

Fixpoint toLowerCase (str : string) : string :=
  match str with
  | EmptyString => EmptyString
  | String a rest => String (lowerAscii a) (toLowerCase rest)
  end.

(** [str.includes(sub)] *)
Fixpoint includes (str sub : string) : bool :=
  String.prefix sub str
  || match str with
     | EmptyString => false
     | String _ rest => includes rest sub
     end.

(** [highlightSquareForDie] writes one field, [highlightedTargetSquare]; it
    is embedded as the value it stores there, [None] for [null].  The
    argument is [None] for a missing die. *)
Definition highlightSquareForDie (die : option Die) (s : State) : option Z :=
  match die with
  | None => None
  | Some die =>
      if decide (length (boardSquares s) = 0%nat) then None
      else
        let nonPredictableTypes := ["normal"; "d20"; "reverse_random"] in
        let type := toLowerCase (DICE_TYPES_value (die_type die)) in
        match die_value die with
        | None => None
        | Some value =>
            if decide (value = 0 \/ type ∈ nonPredictableTypes) then None
            else
              let steps := if includes type "reverse" then - value else value in
              let total := Z.of_nat (length (boardSquares s)) in
              Some (Z.rem (playerPosition s + steps + total) total)
        end
  end.

Definition clearHighlightedSquare : option Z := None.

(** ** The landing effects as separate actions

    [applySquareEffect] and the four handlers repeat the cases of
    [handleSquareLanding].  Their argument is a square object: the one held
    at a position of the board, or a square that is not on the board. *)

Inductive SquareRef := boardSquare (index : nat) | looseSquare (sq : Square).

Definition squareOf (square : SquareRef) (s : State) : option Square :=
  match square with
  | boardSquare index => boardSquares s !! index
  | looseSquare sq => Some sq
  end.

Section Actions.

Variable rnd : nat -> Q.

Definition handleTempBadLap (square : SquareRef) (s : State) (c : nat)
  : Result :=
  match squareOf square s with
  | None => threw s c
  | Some sq =>
      let '(lost, c) :=
        match effectDetails sq with
        | Some (penalty p) =>
            if decide (p = 0) then
              let '(r, c) := getRandomInt rnd 5 15 c in (r * playerStage s, c)
            else (p, c)
        | _ => let '(r, c) := getRandomInt rnd 5 15 c in (r * playerStage s, c)
        end in
      returned (set_playerMoney (playerMoney s - lost) s) c
  end.

Definition handleHugeMoney (square : SquareRef) (s : State) (c : nat)
  : Result :=
  match squareOf square s with
  | None => threw s c
  | Some sq =>
      let hugeGain :=
        match effectDetails sq with
        | Some (amount a) =>
            if decide (a = 0) then currentHugeMoneyValue s else a
        | _ => currentHugeMoneyValue s
        end in
      let s := set_playerMoney (playerMoney s + hugeGain) s in
      match square with
      | boardSquare index =>
          returned
            (set_boardSquares (<[index := clearSquare sq]> (boardSquares s)) s)
            c
      | looseSquare _ => returned s c
      end
  end.

Definition handleChoiceDiceMoney (s : State) (c : nat) : State * nat :=
  let s := set_gamePhase awaiting_choice s in
  let randDieChoice := rnd c in
  let c := S c in
  let '(offeredDieInChoice, c) :=
    if Qltb randDieChoice (6 # 10) then
      let '(v, c) := getRandomInt rnd 2 6 c in (DieFixed v, c)
    else if Qltb randDieChoice (85 # 100) then (DieReverseRandom, c)
    else (DieD20, c) in
  (set_choiceDetails
     (Some (mkChoice dice_vs_money "Choose your reward:"
              [moneyOption s;
               mkOption ("Get a " +:+ dieLabel offeredDieInChoice +:+ " Die")
                 (get_chosen_die offeredDieInChoice)
                 (visual_die offeredDieInChoice)])) s, c).

Definition handleChoicePickDie (s : State) (c : nat) : State * nat :=
  let s := set_gamePhase awaiting_choice s in
  let '(v, c) := getRandomInt rnd 1 6 c in
  let '(dicePool, c) :=
    shuffleArray rnd
      [DieFixed 1; DieFixed 2; DieFixed 3; DieFixed 4; DieFixed 5;
       DieFixed 6; DieD20; DieReverseRandom; DieReverseFixed v;
       DieNormal] c in
  let '(numDiceToOffer, c) := getRandomInt rnd 3 4 c in
  let finalDiceOptions := pickOptions numDiceToOffer dicePool [] [] in
  (set_choiceDetails
     (Some (mkChoice pick_a_die (pickMessage finalDiceOptions)
              finalDiceOptions)) s, c).

Definition applySquareEffect (square : SquareRef) (s : State) (c : nat)
  : Result :=
  match squareOf square s with
  | None => threw s c
  | Some sq =>
      match currentEffectType sq with
      | temp_bad_lap => handleTempBadLap square s c
      | huge_money => handleHugeMoney square s c
      | choice_dice_money =>
          let '(s, c) := handleChoiceDiceMoney s c in returned s c
      | choice_pick_die =>
          let '(s, c) := handleChoicePickDie s c in returned s c
      | none | normal_money => returned s c
      end
  end.

(** ** Boss fight helpers *)

Definition checkEndOfBossBattle (s : State) (c : nat) : Result :=
  let total := totalOf (currentDiceThrows s) in
  match currentBoss s with
  | None => threw s c
  | Some boss =>
      if decide (total >= hp boss) then defeatBoss rnd false s c
      else if decide (remainingBossRolls s = 0 /\
                      length (reservedDice s) = 0%nat)
      then returned (failBossFight s) c
      else returned s c
  end.

(** The [default] of the [switch] is the die of every turn and the reverse
    fixed die. *)
Definition rollCustomDie (die : Die) (c : nat) : Z * nat :=
  match die with
  | DieFixed v => (if decide (v = 0) then 1 else v, c)
  | DieReverseRandom => getRandomInt rnd 1 6 c
  | DieD20 => getRandomInt rnd 1 20 c
  | DieNormal | DieReverseFixed _ => getRandomInt rnd 1 6 c
  end.

(** ** The dice panel (components/ReservedDiceDisplay.vue) *)

(** A click on the die shown at position [index] of the bag.  The panel
    passes the object [reservedDice[index]] to [rollDiceForBoss]. *)
Definition useReservedDie (index : nat) (s : State) (c : nat) : Result :=
  match reservedDice s !! index with
  | None => returned s c
  | Some _ =>
      if decide (isGameOver s = true) then returned s c
      else if decide (gamePhase s = boss_encounter)
      then rollDiceForBoss rnd (bagDie index) s c
      else if decide (gamePhase s = rolling)
      then rollDice rnd (Z.of_nat index) s c
      else returned s c
  end.

End Actions.

(** ** The dice images (utils/imageUtils.js) *)

(** What [generateDieImageFilename] reads of its argument: a die of the bag
    has a [type] and for the fixed kinds a [value]; the [lastDiceRoll]
    record has a [value] and a [direction] as well. *)
Record DieImageData := mkDieImageData {
  imageType : DICE_TYPES;
  imageValue : option Z;
  imageDirection : option Direction
}.

Definition ofDie (d : Die) : DieImageData :=
  mkDieImageData (die_type d) (die_value d) None.

Definition ofLastDiceRoll (r : DiceRoll) : DieImageData :=
  mkDieImageData (type r) (Some (value r)) (Some (direction r)).

#[global] Instance Direction_eq_dec : EqDecision Direction.
Proof. solve_decision. Defined.

(** [`${value}`] *)
Definition valueText (v : option Z) : string :=
  match v with
  | Some v => pretty v
  | None => "undefined"
  end.

Definition generateDieImageFilename (die : option DieImageData)
    (isFromLastRoll : bool) : option string :=
  match die with
  | None => None
  | Some die =>
      let type := imageType die in
      let value := imageValue die in
      let isReverse :=
        if isFromLastRoll
        then bool_decide (imageDirection die = Some backward)
        else bool_decide (type = REVERSE_FIXED \/ type = REVERSE_RANDOM) in
      let type :=
        if isFromLastRoll && isReverse then
          if decide (type = NORMAL) then REVERSE_RANDOM
          else if decide (type = FIXED) then REVERSE_FIXED
          else type
        else type in
      match type with
      | NORMAL => Some "die_d6.png"
      | FIXED => Some ("die_fixed_" +:+ valueText value +:+ ".png")
      | D20 => Some "die_d20.png"
      | REVERSE_FIXED =>
          Some ("die_fixed_reverse_" +:+ valueText value +:+ ".png")
      | REVERSE_RANDOM => Some "die_d6_reverse.png"
      end
  end.

(** ** The board grid (components/GameBoard.vue) *)

Module GameBoard.

(** A cell of the CSS grid, rows and columns counted from 1. *)
Record GridPosition := mkGridPosition { r : Z; c : Z }.

Definition getSquareGridPosition (s : State) (squareId R_val C_val : Z)
  : GridPosition :=
  let R := R_val in
  let C := C_val in
  if decide (R <= 1 \/ C <= 1) then
    if decide (R = 1) then mkGridPosition 1 (squareId + 1)
    else if decide (C = 1) then mkGridPosition (squareId + 1) 1
    else mkGridPosition 1 1
  else if decide (squareId >= 0 /\ squareId < R) then
    mkGridPosition (squareId + 1) 1
  else if decide (squareId >= R /\ squareId < R + C - 1) then
    mkGridPosition R (squareId - R + 2)
  else if decide (squareId >= R + C - 1 /\ squareId < R + C - 1 + R - 1) then
    mkGridPosition (R - 1 - (squareId - (R + C - 1))) C
  else if decide (squareId >= R + C - 1 + R - 1 /\
                  squareId < totalBoardSquares s) then
    mkGridPosition 1 (C - 1 - (squareId - (R + C - 1 + R - 1)))
  else mkGridPosition 1 1.

End GameBoard.

(** ** The ending of the summary (components/SummaryModal.vue) *)

(** The seven messages of [getEnding], in the order of the source. *)
Inductive Ending :=
  | corrupted_by_money
  | preferred_to_negotiate
  | skilled_warrior
  | brave_but_imprecise
  | legend
  | true_champion
  | journey_is_over.

Definition getEnding (s : State) : Ending :=
  let bosses := bossesDefeated s in
  let perfectBosses := perfectBossDefeats s in
  let bribedBosses := bribesBosses s in
  let totalBosses := MAX_STAGES in
  if decide (bribedBosses = totalBosses) then corrupted_by_money
  else if decide (bribedBosses > bosses) then preferred_to_negotiate
  else if decide (bosses > bribedBosses) then
    if decide (perfectBosses > 0) then skilled_warrior
    else brave_but_imprecise
  else if decide (bosses = totalBosses) then
    if decide (perfectBosses = totalBosses) then legend
    else true_champion
  else journey_is_over.

(** * Concrete stores and a concrete oracle

    Used further down to run the theorems and the counterexamples on
    explicit inputs. *)

(** An oracle with samples 0, 1/7, ..., 6/7, repeating. *)
Definition demoRnd (n : nat) : Q := Z.of_nat (n mod 7) # 7.

(** Stage 1 with its board laid out and no lap effects yet. *)
Definition stage1Board : State := generateBoardLayout initialState.

(** The stage-1 boss met on the last lap, with the given budget left, the
    throws logged so far and the given bag. *)
Definition bossFight (remaining : Z) (throws : list Z) (bag : list Die)
  : State :=
  set_reservedDice bag
    (set_remainingBossRolls remaining
       (set_currentDiceThrows throws
          (set_currentBossHP (Some (15 - foldl Z.add 0 throws))
             (set_currentBossMaxHP (Some 15)
                (set_currentBoss (Some (mkBoss 3 15 40))
                   (set_gamePhase boss_encounter
                      (set_playerLap 3 stage1Board))))))).

(** The boss of the last stage, with the throws logged so far, the given bag
    and the given money. *)
Definition lastBossFight (throws : list Z) (bag : list Die) (money : Z)
  : State :=
  set_playerMoney money
    (set_reservedDice bag
       (set_remainingBossRolls 3
          (set_currentDiceThrows throws
             (set_currentBossHP (Some (70 - foldl Z.add 0 throws))
                (set_currentBossMaxHP (Some 70)
                   (set_currentBoss (Some (mkBoss 3 70 200))
                      (set_gamePhase boss_encounter
                         (set_playerLap 3
                            (set_playerStage 5
                               (generateBoardLayout
                                  (set_currentStageConfig
                                     (mkConfig 10 14 (25 # 10) 3 4 8 8 16 8 16
                                        (mkBoss 3 70 200))
                                     initialState))))))))))).

(** Stage 1, first lap, one square before the start square, with a fixed
    die of three in the bag. *)
Definition beforeStart : State :=
  set_reservedDice [DieFixed 3] (set_playerPosition 19 stage1Board).

(** Stage 1 with money squares of 2, 1 and 3 on the squares 1, 2 and 3. *)
Definition moneyLane : State :=
  set_boardSquares
    (<[3%nat := mkSquare 3 normal normal_money false (Some (amount 3))]>
       (<[2%nat := mkSquare 2 normal normal_money false (Some (amount 1))]>
          (<[1%nat := mkSquare 1 normal normal_money false (Some (amount 2))]>
             (boardSquares stage1Board))))
    stage1Board.

(** The commands of [n] turns: a roll of the die of every turn, then the
    money option in case the roll ended on a choice. *)
Fixpoint turns (n : nat) : list Command :=
  match n with
  | O => []
  | S n' =>
      cmdRollDice (-1)
        :: cmdPlayerMakesChoice
             (mkOption "Get $10" (get_money_bonus 10) visual_money)
        :: turns n'
  end.

(** Stage 1 with the player on square 3, and [sq] as that square. *)
Definition standingOn (sq : Square) : State :=
  set_playerPosition 3
    (set_boardSquares (<[3%nat := sq]> (boardSquares stage1Board))
       stage1Board).

Definition hugeSquare : Square :=
  mkSquare 3 normal huge_money false (Some (amount 10)).
Definition trapSquare : Square :=
  mkSquare 3 normal temp_bad_lap true (Some (penalty 7)).
Definition cornerSquare : Square := mkSquare 3 corner_br none false None.
Definition choiceSquare : Square :=
  mkSquare 3 normal choice_dice_money false None.
Definition pickSquare : Square :=
  mkSquare 3 normal choice_pick_die false None.

(** Stage 1 on the start square with the given bag. *)
Definition withBag (bag : list Die) : State :=
  set_reservedDice bag stage1Board.

(** The store while the offer of [choiceSquare] is open. *)
Definition awaitingChoice : State :=
  fst (handleSquareLanding demoRnd (standingOn choiceSquare) 0).


(** * Tactics for the store record *)


(** Reduce the field reads of a state built by setters, and nothing else. *)
Ltac state_simpl :=
  cbn beta iota zeta delta [
    boardRows boardCols playerPosition playerMoney playerLap playerStage
    lastDiceRoll reservedDice maxDiceInBag boardSquares isGameOver
    gamePhase choiceDetails isAnimating lastPlayerPositionBeforeThisMove
    lastGeneralRoll currentBoss currentDiceThrows remainingBossRolls
    currentBossHP currentBossMaxHP totalRolls diceObtained bossesDefeated
    perfectBossDefeats bribesBosses showSummaryModal currentStageConfig
    set_boardRows set_boardCols set_playerPosition set_playerMoney
    set_playerLap set_playerStage set_lastDiceRoll set_reservedDice
    set_maxDiceInBag set_boardSquares set_isGameOver set_gamePhase
    set_choiceDetails set_isAnimating set_lastPlayerPositionBeforeThisMove
    set_lastGeneralRoll set_currentBoss set_currentDiceThrows
    set_remainingBossRolls set_currentBossHP set_currentBossMaxHP
    set_totalRolls set_diceObtained set_bossesDefeated
    set_perfectBossDefeats set_bribesBosses set_showSummaryModal
    set_currentStageConfig store raised cursor returned threw fst snd
    lapStore lapCursor
  ] in *.

(** The same, unfolding the setters down to the record constructor. *)
Ltac state_unfold :=
  cbv beta iota zeta delta [
    boardRows boardCols playerPosition playerMoney playerLap playerStage
    lastDiceRoll reservedDice maxDiceInBag boardSquares isGameOver
    gamePhase choiceDetails isAnimating lastPlayerPositionBeforeThisMove
    lastGeneralRoll currentBoss currentDiceThrows remainingBossRolls
    currentBossHP currentBossMaxHP totalRolls diceObtained bossesDefeated
    perfectBossDefeats bribesBosses showSummaryModal currentStageConfig
    set_boardRows set_boardCols set_playerPosition set_playerMoney
    set_playerLap set_playerStage set_lastDiceRoll set_reservedDice
    set_maxDiceInBag set_boardSquares set_isGameOver set_gamePhase
    set_choiceDetails set_isAnimating set_lastPlayerPositionBeforeThisMove
    set_lastGeneralRoll set_currentBoss set_currentDiceThrows
    set_remainingBossRolls set_currentBossHP set_currentBossMaxHP
    set_totalRolls set_diceObtained set_bossesDefeated
    set_perfectBossDefeats set_bribesBosses set_showSummaryModal
    set_currentStageConfig store raised cursor returned threw fst snd
    lapStore lapCursor
  ] in *.

(** Split the equalities between two records into those of their fields. *)
Ltac state_inj :=
  repeat match goal with
         | H : ?l = ?r |- _ =>
             match type of l with
             | State => injection H; clear H; intros; subst
             end
         end.

(** * Specification vocabulary and properties *)

Section Properties.

Variable rnd : nat -> Q.

(** ** Vocabulary of the statements *)

(** The bookkeeping fields that [defeatBoss] shares between its two ways of
    being called. *)
Definition bossFrame (s s' : State) : Prop :=
  playerMoney s' = playerMoney s /\
  bribesBosses s' = bribesBosses s /\
  totalRolls s' = totalRolls s /\
  reservedDice s' = reservedDice s /\
  currentBoss s' = currentBoss s /\
  currentBossHP s' = currentBossHP s /\
  currentBossMaxHP s' = currentBossMaxHP s /\
  playerStage s' = playerStage s + 1.

(** Counting a victory by damage: what [defeatBoss] does first when the boss
    was not bribed. *)
Definition countVictory (boss : BossDefeatCondition) (s : State) : State :=
  let s := set_bossesDefeated (bossesDefeated s + 1) s in
  if decide (totalOf (currentDiceThrows s) = hp boss)
  then set_perfectBossDefeats (perfectBossDefeats s + 1) s else s.

(** The state right after a throw of the free die is logged. *)
Definition afterFreeThrow (s : State) (c : nat) : State :=
  let roll := Qceiling (rnd c * 6) in
  applyBossDamage roll
    (set_totalRolls (totalRolls s + 1)
       (set_remainingBossRolls (remainingBossRolls s - 1)
          (set_currentDiceThrows (currentDiceThrows s ++ [roll]) s))).

(** The value a die deals to the boss, as [rollDiceForBoss] computes it. *)
Definition bossRoll (d : Die) (c : nat) : Z * nat :=
  match d with
  | DieD20 => getRandomInt rnd 1 20 c
  | DieFixed v => (v, c)
  | DieReverseFixed v => (v, c)
  | DieReverseRandom => getRandomInt rnd 1 6 c
  | DieNormal => getRandomInt rnd 1 6 c
  end.

(** The die a reference stands for, and the bag once it is taken out. *)
Definition dieOf (die : DieRef) (s : State) : option Die :=
  match die with
  | bagDie index => reservedDice s !! index
  | looseDie d => Some d
  end.

Definition bagWithout (die : DieRef) (s : State) : list Die :=
  match die with
  | bagDie index => delete index (reservedDice s)
  | looseDie _ => reservedDice s
  end.

(** The state right after a throw of the die [d] is logged. *)
Definition afterBagThrow (die : DieRef) (d : Die) (s : State) (c : nat)
  : State :=
  applyBossDamage (fst (bossRoll d c))
    (set_totalRolls (totalRolls s + 1)
       (set_currentDiceThrows (currentDiceThrows s ++ [fst (bossRoll d c)])
          (set_reservedDice (bagWithout die s) s))).

(** A throw resolved as a victory by damage: the boss is counted as
    defeated, not bribed, and the stage advances; the phase is the one
    [defeatBoss] leaves. *)
Definition wonByDamage (s : State) (r : Result) : Prop :=
  raised r = false /\
  bossesDefeated (store r) = bossesDefeated s + 1 /\
  bribesBosses (store r) = bribesBosses s /\
  playerStage (store r) = playerStage s + 1 /\
  gamePhase (store r)
  = (if decide (playerStage s + 1 > MAX_STAGES) then boss_encounter
     else rolling).

(** The shape of the state the stepping loop leaves: only the position, the
    money, the lap and the board differ from the state it started from. *)
Definition movedFrom (s s' : State) : Prop :=
  s' = set_boardSquares (boardSquares s')
         (set_playerLap (playerLap s')
            (set_playerMoney (playerMoney s')
               (set_playerPosition (playerPosition s') s))).

(** The shape of the state a landing leaves. *)
Definition landedFrom (s s' : State) : Prop :=
  s' = set_isAnimating (isAnimating s')
         (set_choiceDetails (choiceDetails s')
            (set_gamePhase (gamePhase s')
               (set_boardSquares (boardSquares s')
                  (set_playerMoney (playerMoney s') s)))).

(** The shape of the state a whole move leaves. *)
Definition turnedFrom (s s' : State) : Prop :=
  s' = set_isAnimating (isAnimating s')
         (set_choiceDetails (choiceDetails s')
            (set_gamePhase (gamePhase s')
               (set_boardSquares (boardSquares s')
                  (set_playerMoney (playerMoney s')
                     (set_playerLap (playerLap s')
                        (set_playerPosition (playerPosition s')
                           (set_lastPlayerPositionBeforeThisMove
                              (lastPlayerPositionBeforeThisMove s') s))))))).

(** The state [rollDice] hands to [movePlayer] when it rolls the die of
    every turn, the one that is not taken from the bag. *)
Definition normalRollState (steps : Z) (s : State) : State :=
  set_lastDiceRoll
    (Some (mkDiceRoll (Z.abs steps)
             (if decide (steps < 0) then REVERSE_RANDOM else NORMAL) NORMAL
             (if decide (steps >= 0) then forward else backward)))
    (showDieRoll (Z.abs steps)
       (set_gamePhase dice_rolling_animation (set_isAnimating true s))).

(** What stepping forward onto a square pays: the amount of a
    [normal_money] square, nothing otherwise. *)
Definition passCredit (sq : option Square) : Z :=
  match sq with
  | Some sq =>
      match currentEffectType sq, effectDetails sq with
      | normal_money, Some (amount a) => a
      | _, _ => 0
      end
  | None => 0
  end.

(** The sum of [passCredit] over the [n] squares after position [p]. *)
Fixpoint creditsAlong (board : list Square) (p : Z) (n : nat) : Z :=
  match n with
  | O => 0
  | S n' => passCredit (at_index board (p + 1)) + creditsAlong board (p + 1) n'
  end.

(** [n] forward steps of the loop that do not reach the start square. *)
Fixpoint paceForward (n : nat) (s : State) : State :=
  match n with
  | O => s
  | S n' =>
      paceForward n'
        (creditSquare
           (set_playerPosition
              (Z.rem (playerPosition s + 1) (totalBoardSquares s)) s))
  end.

(** The state at the moment a forward move steps onto the start square:
    the squares up to it are credited, the position is 0 and the lap is
    counted. *)
Definition atRollover (s : State) : State :=
  let s0 :=
    set_lastPlayerPositionBeforeThisMove (playerPosition s)
      (set_gamePhase player_moving_animation s) in
  let s1 :=
    paceForward (Z.to_nat (totalBoardSquares s - playerPosition s - 1)) s0 in
  set_playerLap (playerLap s1 + 1) (set_playerPosition 0 s1).

(** The displayed hp is the full hp less the sum of the logged throws. *)
Definition bossHpInSync (s : State) : Prop :=
  exists (boss : BossDefeatCondition) (m : Z),
    currentBoss s = Some boss /\
    currentBossMaxHP s = Some m /\
    currentBossHP s = Some (m - totalOf (currentDiceThrows s)).

(** What holds of every store the commands can reach. *)
Definition reachableInv (s : State) : Prop :=
  (gamePhase s = boss_encounter -> bossHpInSync s) /\
  1 <= playerStage s /\
  (isGameOver s = false -> playerStage s <= MAX_STAGES).

(** The shape of the state [rollDice] hands to [movePlayer]. *)
Definition rolledFrom (s s' : State) : Prop :=
  s' = set_lastDiceRoll (lastDiceRoll s')
         (set_lastGeneralRoll (lastGeneralRoll s')
            (set_reservedDice (reservedDice s')
               (set_gamePhase dice_rolling_animation
                  (set_isAnimating true s)))).

Definition unitSamples : Prop := forall n : nat, (0 <= rnd n)%Q /\ (rnd n < 1)%Q.

Definition indexed (board : list Square) : Prop :=
  forall (k : nat) (sq : Square), board !! k = Some sq -> id sq = Z.of_nat k.

(** [board'] comes from [board] by giving the squares whose id is in [ids]
    an effect that satisfies [E], and leaving the others as they are. *)
Definition assigned (E : EffectType -> Prop) (ids : list Z)
    (board board' : list Square) : Prop :=
  length board' = length board /\
  forall (k : nat) (sq : Square),
    board !! k = Some sq ->
    exists sq', board' !! k = Some sq' /\
                id sq' = id sq /\ baseType sq' = baseType sq /\
                (id sq ∈ ids -> E (currentEffectType sq')) /\
                (id sq ∉ ids -> sq' = sq).

(** The ids of [avail] are found by the index map, on the board. *)
Definition placed (idx : gmap Z nat) (board : list Square) (avail : list Z)
  : Prop :=
  forall x : Z, x ∈ avail ->
    exists (k : nat) (sq : Square),
      idx !! x = Some k /\ board !! k = Some sq /\ id sq = x.

Definition assignOK (assign : Square -> nat -> Square * nat)
    (E : EffectType -> Prop) : Prop :=
  forall (sq : Square) (c : nat),
    id (assign sq c).1 = id sq /\
    baseType (assign sq c).1 = baseType sq /\
    E (currentEffectType (assign sq c).1).

Definition countEffect (e : EffectType) (board : list Square) : nat :=
  length (filter (fun sq => currentEffectType sq = e) board).

(** The squares of the board that carry money, huge or normal. *)
Definition countMoney (board : list Square) : nat :=
  length (filter (fun sq => currentEffectType sq = huge_money \/
                            currentEffectType sq = normal_money) board).

(** The squares that can take a lap effect, counted on the board itself:
    those of base type [normal] that do not sit at a corner id. *)
Definition freeSquares (s : State) : nat :=
  length (filter (fun sq => baseType sq = normal /\
                            id sq ∉ cornerSquareIds s) (boardSquares s)).

(** Squares that are not [normal] carry no dynamic effect; true of a board
    as [generateBoardLayout] makes it, and kept by every action. *)
Definition plainFixed (board : list Square) : Prop :=
  forall sq : Square,
    sq ∈ board -> baseType sq <> normal -> currentEffectType sq = none.

Definition quotasOK (config : StageConfig) : Prop :=
  0 <= minBadSquares config <= maxBadSquares config /\
  0 <= minChoiceDiceMoneySquares config <= maxChoiceDiceMoneySquares config /\
  0 <= minChoicePickDieSquares config <= maxChoicePickDieSquares config.


(** The conditions on the board and on the quotas under which the lap
    effects are assigned. *)
Definition boardReady (s : State) : Prop :=
  indexed (boardSquares s) /\ plainFixed (boardSquares s) /\
  quotasOK (currentStageConfig s).

(** ** Vocabulary for the landing, the rolls and the invariants of a run *)

(** The guards of [handleSquareLanding] pass and the player stands on
    [square]. *)
Definition landsOn (s : State) (square : Square) : Prop :=
  isGameOver s = false /\
  (isAnimating s = true -> gamePhase s = landed) /\
  at_index (boardSquares s) (playerPosition s) = Some square.

(** The charge of the bottom right corner. *)
Definition cornerCharge (square : Square) (s : State) : State :=
  if decide (baseType square = corner_br)
  then set_playerMoney (playerMoney s - 20) s else s.

(** What a huge money square pays, and what a trap takes when it carries
    its penalty. *)
Definition hugeGainOf (square : Square) (s : State) : Z :=
  match effectDetails square with
  | Some (amount a) => if decide (a = 0) then currentHugeMoneyValue s else a
  | _ => currentHugeMoneyValue s
  end.

(** The die of a dice-or-money offer made at cursor [c]. *)
Definition offeredDie (c : nat) : Die :=
  if Qltb (rnd c) (6 # 10) then DieFixed (fst (getRandomInt rnd 2 6 (S c)))
  else if Qltb (rnd c) (85 # 100) then DieReverseRandom
  else DieD20.

(** The ten dice the pick-a-die offer draws from. *)
Definition dicePoolOf (v : Z) : list Die :=
  [DieFixed 1; DieFixed 2; DieFixed 3; DieFixed 4; DieFixed 5; DieFixed 6;
   DieD20; DieReverseRandom; DieReverseFixed v; DieNormal].

(** The steps [rollDice] takes for a die. *)
Definition dieSteps (d : Die) (c : nat) : Z * nat :=
  match d with
  | DieNormal => getRandomInt rnd 1 6 c
  | DieFixed v => (if decide (v = 0) then 1 else v, c)
  | DieD20 => getRandomInt rnd 1 20 c
  | DieReverseFixed v => (- (if decide (v = 0) then 1 else v), c)
  | DieReverseRandom => let '(r, c) := getRandomInt rnd 1 6 c in (- r, c)
  end.

(** The record of the last roll [rollDice] writes. *)
Definition rollRecord (d : Die) (steps : Z) : DiceRoll :=
  mkDiceRoll (Z.abs steps)
    (if decide (steps < 0) then
       if decide (die_type d = NORMAL) then REVERSE_RANDOM
       else if decide (die_type d = FIXED) then REVERSE_FIXED
       else die_type d
     else die_type d)
    (die_type d)
    (if decide (steps >= 0) then forward else backward).

(** The state [rollDice] hands to [movePlayer] when the die [d] at position
    [index] of the bag is rolled. *)
Definition bagRollState (index : nat) (d : Die) (steps : Z) (s : State)
  : State :=
  set_lastDiceRoll (Some (rollRecord d steps))
    (showDieRoll (Z.abs steps)
       (set_reservedDice (delete index (reservedDice s))
          (set_gamePhase dice_rolling_animation (set_isAnimating true s)))).

(** The fields a move of the player leaves alone. *)
Definition keptByMove (s s' : State) : Prop :=
  reservedDice s' = reservedDice s /\
  maxDiceInBag s' = maxDiceInBag s /\
  lastDiceRoll s' = lastDiceRoll s /\
  playerStage s' = playerStage s /\
  currentStageConfig s' = currentStageConfig s /\
  isGameOver s' = isGameOver s /\
  totalRolls s' = totalRolls s /\
  diceObtained s' = diceObtained s /\
  bossesDefeated s' = bossesDefeated s /\
  perfectBossDefeats s' = perfectBossDefeats s /\
  bribesBosses s' = bribesBosses s.

(** The bag holds no more dice than its capacity, and no more than were
    obtained. *)
Definition bagInv (s : State) : Prop :=
  maxDiceInBag s = MAX_RESERVED_DICE /\
  Z.of_nat (length (reservedDice s)) <= maxDiceInBag s /\
  Z.of_nat (length (reservedDice s)) <= diceObtained s.


(** The configuration is one of the table, the board has its squares and
    the player is on one of them. *)
Definition onBoard (s : State) : Prop :=
  (exists stage : Z, STAGE_CONFIGS stage = Some (currentStageConfig s)) /\
  Z.of_nat (length (boardSquares s)) = totalBoardSquares s /\
  0 <= playerPosition s < totalBoardSquares s.

(** The state [rollDice] hands to [movePlayer], with what became of the
    bag: it is as it was, or a die that was in it is taken out. *)
Definition rolledWithBag (s s' : State) : Prop :=
  rolledFrom s s' /\
  (reservedDice s' = reservedDice s \/
   exists index : nat,
     is_Some (reservedDice s !! index) /\
     reservedDice s' = delete index (reservedDice s)).

(** ** What the stage set-up leaves alone *)

Lemma setupLapEffects_run_store (s : State) (c : nat) :
  lapStore (setupLapEffects_run rnd s c)
  = set_boardSquares (boardSquares (lapStore (setupLapEffects_run rnd s c))) s.
Proof.
  unfold setupLapEffects_run.
  repeat (match goal with
          | |- context [let '(_, _) := ?e in _] => destruct e
          end).
  reflexivity.
Qed.

Lemma setupLapEffects_store (s : State) (c : nat) :
  fst (setupLapEffects rnd s c)
  = set_boardSquares (boardSquares (fst (setupLapEffects rnd s c))) s.
Proof. unfold setupLapEffects; simpl. apply setupLapEffects_run_store. Qed.

Lemma setupStage_store (s : State) (c : nat) :
  fst (setupStage rnd s c)
  = set_isAnimating false
      (set_gamePhase rolling
         (set_boardSquares (boardSquares (fst (setupStage rnd s c)))
            (set_choiceDetails None
               (set_lastDiceRoll None
                  (set_lastPlayerPositionBeforeThisMove 0
                     (set_playerPosition 0
                        (set_playerLap 1
                           (set_boardCols (cols (currentStageConfig s))
                              (set_boardRows (rows (currentStageConfig s))
                                 s))))))))).
Proof.
  unfold setupStage.
  match goal with
  | |- context [setupLapEffects rnd ?s0 ?c0] =>
      pose proof (setupLapEffects_store s0 c0) as E;
      destruct (setupLapEffects rnd s0 c0) as [s1 c1]
  end.
  simpl in *. rewrite E. reflexivity.
Qed.

Lemma totalOf_snoc (throws : list Z) (roll : Z) :
  totalOf (throws ++ [roll]) = totalOf throws + roll.
Proof. unfold totalOf. rewrite foldl_app. reflexivity. Qed.

(** ** Resolution of a boss *)

Lemma defeatBoss_tail (s : State) (c : nat) :
  let r := defeatBoss rnd true s c in
  raised r = false /\ bossFrame s (store r) /\
  bossesDefeated (store r) = bossesDefeated s /\
  perfectBossDefeats (store r) = perfectBossDefeats s /\
  (playerStage s + 1 > MAX_STAGES ->
     gamePhase (store r) = gamePhase s /\
     isGameOver (store r) = true /\ showSummaryModal (store r) = true /\
     currentDiceThrows (store r) = currentDiceThrows s /\
     remainingBossRolls (store r) = remainingBossRolls s) /\
  (playerStage s + 1 <= MAX_STAGES ->
     gamePhase (store r) = rolling /\
     isGameOver (store r) = isGameOver s /\
     currentDiceThrows (store r) = [] /\
     remainingBossRolls (store r) = 0).
Proof.
  unfold defeatBoss, bossFrame. state_simpl.
  destruct (decide (playerStage s + 1 > MAX_STAGES)) as [Hlast | Hmore].
  - state_simpl. repeat split; try reflexivity; intros; lia.
  - destruct (STAGE_CONFIGS (playerStage s + 1)) as [cfg |].
    + match goal with
      | |- context [setupStage rnd ?s0 ?c0] =>
          pose proof (setupStage_store s0 c0) as E;
          destruct (setupStage rnd s0 c0) as [s1 c1]
      end.
      state_simpl. rewrite E. state_simpl. repeat split; try reflexivity; intros; lia.
    + state_simpl. repeat split; try reflexivity; intros; lia.
Qed.

Lemma defeatBoss_fought (s : State) (c : nat) (boss : BossDefeatCondition) :
  currentBoss s = Some boss ->
  defeatBoss rnd false s c = defeatBoss rnd true (countVictory boss s) c.
Proof.
  intros Hboss. unfold defeatBoss, countVictory. state_simpl. rewrite Hboss.
  destruct (decide (totalOf (currentDiceThrows s) = hp boss)); reflexivity.
Qed.

Lemma rollDice_boss (reservedDieIndex : Z) (s : State) (c : nat)
    (boss : BossDefeatCondition) :
  gamePhase s = boss_encounter ->
  0 < remainingBossRolls s ->
  currentBoss s = Some boss ->
  rollDice rnd reservedDieIndex s c
  = let s' := afterFreeThrow s c in
    if decide (totalOf (currentDiceThrows s) + Qceiling (rnd c * 6) >= hp boss)
    then defeatBoss rnd false s' (S c)
    else if decide (remainingBossRolls s - 1 = 0 /\
                    length (reservedDice s) = 0%nat)
    then returned (failBossFight s') (S c)
    else returned s' (S c).
Proof.
  intros Hphase Hleft Hboss. unfold rollDice, afterFreeThrow.
  rewrite decide_True by assumption.
  rewrite decide_False by lia.
  unfold applyBossDamage. state_simpl.
  destruct (currentBossHP s); state_simpl;
    rewrite Hboss, totalOf_snoc; reflexivity.
Qed.

Lemma if_phase_and {A} (P : Prop) `{Decision P} (x y : A) :
  (if decide (boss_encounter = boss_encounter /\ P) then x else y)
  = (if decide P then x else y).
Proof.
  destruct (decide P) as [HP | HP].
  - rewrite decide_True by (split; [reflexivity | exact HP]). reflexivity.
  - rewrite decide_False by (intros [_ HP']; exact (HP HP')). reflexivity.
Qed.

Lemma rollDiceForBoss_boss (die : DieRef) (d : Die) (s : State) (c : nat)
    (boss : BossDefeatCondition) :
  gamePhase s = boss_encounter ->
  dieOf die s = Some d ->
  currentBoss s = Some boss ->
  rollDiceForBoss rnd die s c
  = let s' := afterBagThrow die d s c in
    let c' := snd (bossRoll d c) in
    if decide (totalOf (currentDiceThrows s) + fst (bossRoll d c) >= hp boss)
    then defeatBoss rnd false s' c'
    else if decide (remainingBossRolls s = 0 /\
                    length (bagWithout die s) = 0%nat)
    then returned (failBossFight s') c'
    else returned s' c'.
Proof.
  intros Hphase Hdie Hboss. unfold rollDiceForBoss, afterBagThrow.
  rewrite decide_False by (rewrite Hphase; intros H; apply H; reflexivity).
  assert (Hroll : forall s0 : State,
    match d with
    | DieD20 => getRandomInt rnd 1 20 c
    | DieFixed v => (v, c)
    | DieReverseFixed v => (v, c)
    | DieReverseRandom => getRandomInt rnd 1 6 c
    | DieNormal => getRandomInt rnd 1 6 c
    end = (fst (bossRoll d c), snd (bossRoll d c))).
  { intros _. unfold bossRoll. destruct d; reflexivity. }
  destruct die as [index | d0]; simpl in Hdie.
  - rewrite Hdie. rewrite (Hroll s). unfold applyBossDamage. state_simpl.
    cbn [bagWithout].
    destruct (currentBossHP s); state_simpl;
      rewrite Hboss, totalOf_snoc, Hphase, if_phase_and; reflexivity.
  - injection Hdie as ->. rewrite (Hroll s). unfold applyBossDamage.
    state_simpl. cbn [bagWithout].
    destruct (currentBossHP s); state_simpl;
      rewrite Hboss, totalOf_snoc, Hphase, if_phase_and; reflexivity.
Qed.

(** Unfold a logged throw down to reads of the fields of the state before. *)
Ltac thrown_simpl s :=
  unfold afterFreeThrow, afterBagThrow, countVictory, applyBossDamage,
    failBossFight in *;
  state_simpl;
  destruct (currentBossHP s); state_simpl.

Lemma defeatBoss_won (s s' : State) (c : nat) (boss : BossDefeatCondition) :
  currentBoss s' = Some boss ->
  gamePhase s' = boss_encounter ->
  bossesDefeated s' = bossesDefeated s ->
  bribesBosses s' = bribesBosses s ->
  playerStage s' = playerStage s ->
  wonByDamage s (defeatBoss rnd false s' c).
Proof.
  intros Hboss Hphase Hdef Hbribe Hstage.
  rewrite (defeatBoss_fought _ _ _ Hboss).
  pose proof (defeatBoss_tail (countVictory boss s') c) as T.
  cbv zeta in T.
  destruct T as (Hr & (_ & Hb & _ & _ & _ & _ & _ & Hst) & Hd & _ & Hlast & Hmore).
  assert (Hfield : forall s0, bossesDefeated (countVictory boss s0)
                              = bossesDefeated s0 + 1
                              /\ bribesBosses (countVictory boss s0)
                                 = bribesBosses s0
                              /\ playerStage (countVictory boss s0)
                                 = playerStage s0
                              /\ gamePhase (countVictory boss s0)
                                 = gamePhase s0).
  { intros s0. unfold countVictory. state_simpl.
    destruct (decide (totalOf (currentDiceThrows s0) = hp boss));
      repeat split; reflexivity. }
  destruct (Hfield s') as (F1 & F2 & F3 & F4).
  unfold wonByDamage. rewrite Hd, Hb, Hst, F1, F2, F3, Hdef, Hbribe, Hstage.
  repeat split; try assumption.
  rewrite F3, Hstage in Hlast, Hmore.
  destruct (decide (playerStage s + 1 > MAX_STAGES)) as [H | H].
  - destruct (Hlast H) as (-> & _). rewrite F4. exact Hphase.
  - destruct Hmore as (-> & _); [lia | reflexivity].
Qed.

(** C1. A throw taken during a boss encounter, with the free die or with a
    die of the bag, that brings the sum of the logged throws to the boss's
    hp or above is resolved as a victory by damage at that very throw; the
    check comes before the one for having no throws left, so it holds
    whatever remains of the budget and of the bag. *)
Theorem boss_victory_at_throw (s : State) (c : nat)
    (boss : BossDefeatCondition) :
  gamePhase s = boss_encounter ->
  currentBoss s = Some boss ->
  (forall reservedDieIndex : Z,
     0 < remainingBossRolls s ->
     hp boss <= totalOf (currentDiceThrows s) + Qceiling (rnd c * 6) ->
     wonByDamage s (rollDice rnd reservedDieIndex s c)) /\
  (forall (die : DieRef) (d : Die),
     dieOf die s = Some d ->
     hp boss <= totalOf (currentDiceThrows s) + fst (bossRoll d c) ->
     wonByDamage s (rollDiceForBoss rnd die s c)).
Proof.
  intros Hphase Hboss. split.
  - intros idx Hleft Hsum.
    rewrite (rollDice_boss idx s c boss Hphase Hleft Hboss). cbv zeta.
    rewrite decide_True by lia.
    apply (defeatBoss_won s _ _ boss); thrown_simpl s; assumption || reflexivity.
  - intros die d Hdie Hsum.
    rewrite (rollDiceForBoss_boss die d s c boss Hphase Hdie Hboss). cbv zeta.
    rewrite decide_True by lia.
    apply (defeatBoss_won s _ _ boss); thrown_simpl s; assumption || reflexivity.
Qed.

Lemma defeatBoss_fought_fields (s' : State) (c : nat)
    (boss : BossDefeatCondition) :
  currentBoss s' = Some boss ->
  let r := defeatBoss rnd false s' c in
  bossesDefeated (store r) = bossesDefeated s' + 1 /\
  perfectBossDefeats (store r)
  = perfectBossDefeats s'
    + (if decide (totalOf (currentDiceThrows s') = hp boss) then 1 else 0) /\
  remainingBossRolls (store r)
  = (if decide (playerStage s' + 1 <= MAX_STAGES) then 0
     else remainingBossRolls s') /\
  totalRolls (store r) = totalRolls s'.
Proof.
  intros Hboss. cbv zeta. rewrite (defeatBoss_fought _ _ _ Hboss).
  pose proof (defeatBoss_tail (countVictory boss s') c) as T.
  cbv zeta in T.
  destruct T as (_ & (_ & _ & Ht & _) & Hd & Hp & Hlast & Hmore).
  rewrite Hd, Hp, Ht. unfold countVictory in *. state_simpl.
  destruct (decide (totalOf (currentDiceThrows s') = hp boss));
    state_simpl;
    (split; [reflexivity | split; [lia | split; [| reflexivity]]]).
  all: destruct (decide (playerStage s' + 1 <= MAX_STAGES)) as [H | H];
    [ apply Hmore; exact H | apply Hlast; lia ].
Qed.

(** C2, as the code has it. The free die ([rollDice] during a boss encounter)
    is refused without any change when the budget is zero or less, and
    otherwise its throw takes one unit of the budget; a die of the bag
    ([rollDiceForBoss]) is thrown whatever the budget is and leaves the
    budget as it was.  In both cases a victory that opens a further stage
    then resets the budget to zero. *)
Theorem boss_throw_budget (s : State) (c : nat) (boss : BossDefeatCondition) :
  gamePhase s = boss_encounter ->
  currentBoss s = Some boss ->
  (forall reservedDieIndex : Z,
     remainingBossRolls s <= 0 ->
     rollDice rnd reservedDieIndex s c = returned s c) /\
  (forall reservedDieIndex : Z,
     0 < remainingBossRolls s ->
     let r := rollDice rnd reservedDieIndex s c in
     let total := totalOf (currentDiceThrows s) + Qceiling (rnd c * 6) in
     remainingBossRolls (afterFreeThrow s c) = remainingBossRolls s - 1 /\
     totalRolls (store r) = totalRolls s + 1 /\
     remainingBossRolls (store r)
     = (if decide (hp boss <= total /\ playerStage s + 1 <= MAX_STAGES)
        then 0 else remainingBossRolls s - 1)) /\
  (forall (die : DieRef) (d : Die),
     dieOf die s = Some d ->
     let r := rollDiceForBoss rnd die s c in
     let total := totalOf (currentDiceThrows s) + fst (bossRoll d c) in
     remainingBossRolls (afterBagThrow die d s c) = remainingBossRolls s /\
     totalRolls (store r) = totalRolls s + 1 /\
     remainingBossRolls (store r)
     = (if decide (hp boss <= total /\ playerStage s + 1 <= MAX_STAGES)
        then 0 else remainingBossRolls s)).
Proof.
  intros Hphase Hboss. split; [| split].
  - intros idx Hnone. unfold rollDice.
    rewrite decide_True by assumption.
    rewrite decide_True by assumption. reflexivity.
  - intros idx Hleft. cbv zeta.
    rewrite (rollDice_boss idx s c boss Hphase Hleft Hboss). cbv zeta.
    split; [thrown_simpl s; reflexivity |].
    destruct (decide (totalOf (currentDiceThrows s) + Qceiling (rnd c * 6)
                      >= hp boss)) as [Hwin | Hnot].
    + assert (Hb : currentBoss (afterFreeThrow s c) = Some boss)
        by (thrown_simpl s; assumption).
      destruct (defeatBoss_fought_fields _ (S c) _ Hb) as (_ & _ & Hrem & Htot).
      rewrite Hrem, Htot.
      assert (E1 : playerStage (afterFreeThrow s c) = playerStage s)
        by (thrown_simpl s; reflexivity).
      assert (E2 : remainingBossRolls (afterFreeThrow s c)
                   = remainingBossRolls s - 1)
        by (thrown_simpl s; reflexivity).
      assert (E3 : totalRolls (afterFreeThrow s c) = totalRolls s + 1)
        by (thrown_simpl s; reflexivity).
      rewrite E1, E2, E3. split; [reflexivity |].
      destruct (decide (playerStage s + 1 <= MAX_STAGES));
        [rewrite decide_True by lia | rewrite decide_False by lia];
        reflexivity.
    + match goal with
      | |- context [decide (hp boss <= ?t /\ ?q)] =>
          destruct (decide (hp boss <= t /\ q)) as [[? ?] | _]; [lia |]
      end.
      destruct (decide (remainingBossRolls s - 1 = 0 /\
                        length (reservedDice s) = 0%nat));
        thrown_simpl s; split; reflexivity.
  - intros die d Hdie. cbv zeta.
    rewrite (rollDiceForBoss_boss die d s c boss Hphase Hdie Hboss). cbv zeta.
    split; [thrown_simpl s; reflexivity |].
    destruct (decide (totalOf (currentDiceThrows s) + fst (bossRoll d c)
                      >= hp boss)) as [Hwin | Hnot].
    + assert (Hb : currentBoss (afterBagThrow die d s c) = Some boss)
        by (thrown_simpl s; assumption).
      destruct (defeatBoss_fought_fields _ (snd (bossRoll d c)) _ Hb)
        as (_ & _ & Hrem & Htot).
      rewrite Hrem, Htot.
      assert (E1 : playerStage (afterBagThrow die d s c) = playerStage s)
        by (thrown_simpl s; reflexivity).
      assert (E2 : remainingBossRolls (afterBagThrow die d s c)
                   = remainingBossRolls s)
        by (thrown_simpl s; reflexivity).
      assert (E3 : totalRolls (afterBagThrow die d s c) = totalRolls s + 1)
        by (thrown_simpl s; reflexivity).
      rewrite E1, E2, E3. split; [reflexivity |].
      destruct (decide (playerStage s + 1 <= MAX_STAGES));
        [rewrite decide_True by lia | rewrite decide_False by lia];
        reflexivity.
    + match goal with
      | |- context [decide (hp boss <= ?t /\ ?q)] =>
          destruct (decide (hp boss <= t /\ q)) as [[? ?] | _]; [lia |]
      end.
      destruct (decide (remainingBossRolls s = 0 /\
                        length (bagWithout die s) = 0%nat));
        thrown_simpl s; split; reflexivity.
Qed.

(** C7. Bribing goes through only with money for the bribe: it then takes
    exactly [bribeCost] and counts one bribed boss, never a defeated or a
    perfectly defeated one; without the money, or without a boss, the store
    is left as it was. *)
Theorem bribe_resolution (s : State) (c : nat) :
  let r := payToDefeatBoss rnd s c in
  match currentBoss s with
  | None => r = returned s c
  | Some boss =>
      (playerMoney s < bribeCost boss -> r = returned s c) /\
      (bribeCost boss <= playerMoney s ->
         raised r = false /\
         playerMoney (store r) = playerMoney s - bribeCost boss /\
         bribesBosses (store r) = bribesBosses s + 1 /\
         bossesDefeated (store r) = bossesDefeated s /\
         perfectBossDefeats (store r) = perfectBossDefeats s /\
         playerStage (store r) = playerStage s + 1)
  end.
Proof.
  cbv zeta. unfold payToDefeatBoss.
  destruct (currentBoss s) as [boss |]; [| reflexivity].
  split.
  - intros Hpoor. rewrite decide_False by lia. reflexivity.
  - intros Hrich. rewrite decide_True by lia.
    match goal with
    | |- context [defeatBoss rnd true ?s0 c] =>
        pose proof (defeatBoss_tail s0 c) as T
    end.
    cbv zeta in T.
    destruct T as (Hr & (Hm & Hb & _ & _ & _ & _ & _ & Hst) & Hd & Hp & _).
    rewrite Hr, Hm, Hb, Hd, Hp, Hst. state_simpl.
    repeat split; reflexivity.
Qed.

(** C8. A victory by damage counts one more defeated boss, and one more
    perfect defeat exactly when the sum of the logged throws equals the
    boss's hp: for [defeatBoss] called without bribe, and so for the throw of
    either kind that wins. *)
Theorem damage_victory_counters (s : State) (c : nat)
    (boss : BossDefeatCondition) :
  currentBoss s = Some boss ->
  (let r := defeatBoss rnd false s c in
   bossesDefeated (store r) = bossesDefeated s + 1 /\
   perfectBossDefeats (store r)
   = perfectBossDefeats s
     + (if decide (totalOf (currentDiceThrows s) = hp boss) then 1 else 0)) /\
  (gamePhase s = boss_encounter ->
   forall reservedDieIndex : Z,
     0 < remainingBossRolls s ->
     let total := totalOf (currentDiceThrows s) + Qceiling (rnd c * 6) in
     hp boss <= total ->
     let r := rollDice rnd reservedDieIndex s c in
     bossesDefeated (store r) = bossesDefeated s + 1 /\
     perfectBossDefeats (store r)
     = perfectBossDefeats s + (if decide (total = hp boss) then 1 else 0)) /\
  (gamePhase s = boss_encounter ->
   forall (die : DieRef) (d : Die),
     dieOf die s = Some d ->
     let total := totalOf (currentDiceThrows s) + fst (bossRoll d c) in
     hp boss <= total ->
     let r := rollDiceForBoss rnd die s c in
     bossesDefeated (store r) = bossesDefeated s + 1 /\
     perfectBossDefeats (store r)
     = perfectBossDefeats s + (if decide (total = hp boss) then 1 else 0)).
Proof.
  intros Hboss. split; [| split].
  - destruct (defeatBoss_fought_fields s c boss Hboss) as (H1 & H2 & _).
    split; assumption.
  - intros Hphase idx Hleft. cbv zeta. intros Hsum.
    rewrite (rollDice_boss idx s c boss Hphase Hleft Hboss). cbv zeta.
    rewrite decide_True by lia.
    assert (Hb : currentBoss (afterFreeThrow s c) = Some boss)
      by (thrown_simpl s; assumption).
    destruct (defeatBoss_fought_fields _ (S c) _ Hb) as (H1 & H2 & _).
    rewrite H1, H2.
    assert (E : totalOf (currentDiceThrows (afterFreeThrow s c))
                = totalOf (currentDiceThrows s) + Qceiling (rnd c * 6))
      by (thrown_simpl s; apply totalOf_snoc).
    rewrite E. thrown_simpl s; split; reflexivity.
  - intros Hphase die d Hdie. cbv zeta. intros Hsum.
    rewrite (rollDiceForBoss_boss die d s c boss Hphase Hdie Hboss). cbv zeta.
    rewrite decide_True by lia.
    assert (Hb : currentBoss (afterBagThrow die d s c) = Some boss)
      by (thrown_simpl s; assumption).
    destruct (defeatBoss_fought_fields _ (snd (bossRoll d c)) _ Hb)
      as (H1 & H2 & _).
    rewrite H1, H2.
    assert (E : totalOf (currentDiceThrows (afterBagThrow die d s c))
                = totalOf (currentDiceThrows s) + fst (bossRoll d c))
      by (thrown_simpl s; apply totalOf_snoc).
    rewrite E. thrown_simpl s; split; reflexivity.
Qed.

(** ** What movement leaves alone *)

Lemma handleSquareLanding_store (s : State) (c : nat) :
  let s' := fst (handleSquareLanding rnd s c) in
  s' = set_isAnimating (isAnimating s')
         (set_choiceDetails (choiceDetails s')
            (set_gamePhase (gamePhase s')
               (set_boardSquares (boardSquares s')
                  (set_playerMoney (playerMoney s') s)))).
Proof.
  cbv zeta. destruct s. unfold handleSquareLanding. state_simpl.
  repeat (match goal with
          | |- context [decide ?P] => destruct (decide P)
          | |- context [match ?x with _ => _ end] => destruct x
          end; state_simpl; try reflexivity).
Qed.

Lemma creditSquare_store (s : State) :
  creditSquare s = set_playerMoney (playerMoney (creditSquare s)) s.
Proof.
  destruct s. unfold creditSquare. state_simpl.
  repeat (match goal with
          | |- context [decide ?P] => destruct (decide P)
          | |- context [match ?x with _ => _ end] => destruct x
          end; state_simpl; try reflexivity).
Qed.

Lemma movedFrom_refl (s : State) : movedFrom s s.
Proof. destruct s. reflexivity. Qed.

Lemma movedFrom_trans (s1 s2 s3 : State) :
  movedFrom s1 s2 -> movedFrom s2 s3 -> movedFrom s1 s3.
Proof.
  unfold movedFrom. intros H12 H23. destruct s1, s2, s3.
  state_unfold. state_inj. reflexivity.
Qed.

Lemma walk_store (n : nat) (direction : Z) (s : State) (c : nat) :
  match walk rnd n direction s c with
  | walkDone s' c' _ => movedFrom s s'
  | walkBoss r =>
      exists s1 c1,
        r = handleBossEncounter
              (set_isAnimating false (set_gamePhase boss_encounter s1)) c1 /\
        movedFrom s s1
  end.
Proof.
  revert s c. induction n as [| n IH]; intros s c;
    cbn beta iota zeta delta [walk].
  - apply movedFrom_refl.
  - destruct (decide (isGameOver s = true)); [apply movedFrom_refl |].
    destruct (decide (direction > 0)).
    + state_simpl.
      destruct (decide (Z.rem (playerPosition s + 1) (totalBoardSquares s) = 0)).
      * destruct (decide (playerLap s + 1 = lapsToComplete (currentStageConfig s))).
        -- eexists _, c. split; [reflexivity |].
           unfold movedFrom. destruct s. reflexivity.
        -- match goal with
           | |- context [setupLapEffects rnd ?s0 ?c0] =>
               pose proof (setupLapEffects_store s0 c0) as E;
               destruct (setupLapEffects rnd s0 c0) as [s1 c1]
           end.
           state_simpl. rewrite E. unfold movedFrom. destruct s. reflexivity.
      * match goal with
        | |- context [walk rnd n direction ?s0 c] =>
            specialize (IH s0 c);
            assert (M : movedFrom s s0)
              by (rewrite creditSquare_store; unfold movedFrom; destruct s;
                  reflexivity);
            destruct (walk rnd n direction s0 c) as [r | s' c' b]
        end.
        -- destruct IH as (s1 & c1 & -> & M1). exists s1, c1.
           split; [reflexivity | exact (movedFrom_trans _ _ _ M M1)].
        -- exact (movedFrom_trans _ _ _ M IH).
    + match goal with
      | |- context [walk rnd n direction ?s0 c] =>
          specialize (IH s0 c);
          assert (M : movedFrom s s0)
            by (unfold movedFrom; destruct s; reflexivity);
          destruct (walk rnd n direction s0 c) as [r | s' c' b]
      end.
      * destruct IH as (s1 & c1 & -> & M1). exists s1, c1.
        split; [reflexivity | exact (movedFrom_trans _ _ _ M M1)].
      * exact (movedFrom_trans _ _ _ M IH).
Qed.

(** Close a goal that relates two states through a chain of such shapes. *)
Ltac frame_solve :=
  unfold movedFrom, landedFrom, turnedFrom in *;
  repeat match goal with s : State |- _ => destruct s end;
  state_unfold; state_inj; reflexivity.

Lemma handleSquareLanding_phase (s : State) (c : nat) :
  let s' := fst (handleSquareLanding rnd s c) in
  gamePhase s' = gamePhase s \/ gamePhase s' = rolling \/
  gamePhase s' = awaiting_choice.
Proof.
  cbv zeta. unfold handleSquareLanding.
  repeat (match goal with
          | |- context [decide ?P] => destruct (decide P)
          | |- context [match ?x with _ => _ end] => destruct x
          end; state_simpl; try tauto).
Qed.

Lemma landAndFinish_store (s : State) (c : nat) :
  let r := landAndFinish rnd s c in
  raised r = false /\
  landedFrom s (store r) /\
  (isGameOver s = false ->
   gamePhase (store r) = rolling \/ gamePhase (store r) = awaiting_choice).
Proof.
  cbv zeta. unfold landAndFinish.
  pose proof (handleSquareLanding_store (set_gamePhase landed s) c) as E.
  pose proof (handleSquareLanding_phase (set_gamePhase landed s) c) as P.
  cbv zeta in E, P.
  destruct (handleSquareLanding rnd (set_gamePhase landed s) c) as [s1 c1].
  state_simpl.
  assert (G : isGameOver s1 = isGameOver s) by (rewrite E; reflexivity).
  destruct (decide (gamePhase s1 = awaiting_choice)) as [Hc | Hc].
  { state_simpl. split; [reflexivity |]. split; [frame_solve |].
    intros _. right. exact Hc. }
  destruct (decide (gamePhase s1 <> boss_encounter_intro /\
                    isGameOver s1 = false)) as [Hr | Hr].
  { state_simpl. split; [reflexivity |]. split; [frame_solve |].
    intros _. left. reflexivity. }
  destruct (decide (isGameOver s1 = true)) as [Ho | Ho].
  { state_simpl. split; [reflexivity |]. split; [frame_solve |].
    intros Hs. congruence. }
  state_simpl. split; [reflexivity |]. split; [frame_solve |].
  intros Hs. exfalso. apply Hr. split; [| congruence].
  destruct P as [P | [P | P]]; rewrite P; discriminate.
Qed.

Lemma handleBossEncounter_store (s : State) (c : nat) :
  let r := handleBossEncounter s c in
  cursor r = c /\
  match STAGE_CONFIGS (playerStage s) with
  | None => r = threw s c
  | Some stageConfig =>
      let boss := bossDefeatCondition stageConfig in
      r = returned
            (set_isAnimating false
               (set_gamePhase boss_encounter
                  (set_currentDiceThrows []
                     (set_currentBossMaxHP (Some (hp boss))
                        (set_currentBossHP (Some (hp boss))
                           (set_remainingBossRolls (diceThrows boss)
                              (set_currentBoss (Some boss) s))))))) c
  end.
Proof.
  cbv zeta. unfold handleBossEncounter.
  destruct (STAGE_CONFIGS (playerStage s)); split; reflexivity.
Qed.

(** A move ends either in the boss encounter it opened or in a landing. *)
Lemma movePlayer_outcome (steps : Z) (s : State) (c : nat) :
  let r := movePlayer rnd steps s c in
  (exists s1 c1,
     r = handleBossEncounter
           (set_isAnimating false (set_gamePhase boss_encounter s1)) c1 /\
     turnedFrom s s1) \/
  (raised r = false /\ turnedFrom s (store r) /\
   (isGameOver s = false ->
    gamePhase (store r) = rolling \/ gamePhase (store r) = awaiting_choice)).
Proof.
  cbv zeta. unfold movePlayer.
  match goal with
  | |- context [walk rnd ?n ?d ?s0 c] =>
      pose proof (walk_store n d s0 c) as W;
      destruct (walk rnd n d s0 c) as [r | s1 c1 passed]
  end.
  - left. destruct W as (s1 & c1 & -> & M). exists s1, c1.
    split; [reflexivity | frame_solve].
  - destruct passed.
    + destruct (decide (playerLap s1 = lapsToComplete (currentStageConfig s1))).
      * left. exists s1, c1. split; [reflexivity | frame_solve].
      * right.
        pose proof (setupLapEffects_store s1 c1) as E.
        destruct (setupLapEffects rnd s1 c1) as [s2 c2]. state_simpl.
        destruct (landAndFinish_store s2 c2) as (Hr & L & Hp).
        split; [exact Hr |].
        assert (G : isGameOver s2 = isGameOver s)
          by (rewrite E; state_simpl; rewrite W; reflexivity).
        split; [| intros Hs; apply Hp; congruence].
        destruct (landAndFinish rnd s2 c2) as [b s3 c3]. state_simpl.
        frame_solve.
    + right. destruct (landAndFinish_store s1 c1) as (Hr & L & Hp).
      assert (G : isGameOver s1 = isGameOver s) by (rewrite W; reflexivity).
      split; [exact Hr |].
      split; [| intros Hs; apply Hp; congruence].
      destruct (landAndFinish rnd s1 c1) as [b s3 c3]. state_simpl.
      frame_solve.
Qed.

Lemma rollDice_normal (reservedDieIndex : Z) (s : State) (c : nat) :
  gamePhase s = rolling ->
  isGameOver s = false ->
  isAnimating s = false ->
  reservedDieIndex < 0 \/
  Z.of_nat (length (reservedDice s)) <= reservedDieIndex ->
  rollDice rnd reservedDieIndex s c
  = movePlayer rnd (fst (getRandomInt rnd 1 6 c))
      (normalRollState (fst (getRandomInt rnd 1 6 c)) s) (S c).
Proof.
  intros Hphase Hover Hanim Hidx. unfold rollDice.
  rewrite decide_False by (rewrite Hphase; discriminate).
  rewrite decide_False
    by (rewrite Hphase, Hover, Hanim; intros [H | [H | H]];
        [discriminate | apply H; reflexivity | discriminate]).
  state_simpl. rewrite decide_False by lia.
  unfold normalRollState, showDieRoll. state_simpl.
  cbn [die_type getRandomInt fst].
  rewrite (decide_True (P := NORMAL = NORMAL)) by reflexivity.
  reflexivity.
Qed.

(** C5, as the code has it. In the rolling phase a bag index that is out of
    range takes no die from the bag: the call does what a call without index
    does, it rolls the die of every turn and moves the player, and the bag
    comes out as it went in. *)
Theorem rollDice_out_of_range (reservedDieIndex : Z) (s : State) (c : nat) :
  gamePhase s = rolling ->
  reservedDieIndex < 0 \/
  Z.of_nat (length (reservedDice s)) <= reservedDieIndex ->
  let r := rollDice rnd reservedDieIndex s c in
  r = rollDice rnd (-1) s c /\
  reservedDice (store r) = reservedDice s /\
  (isGameOver s = false -> isAnimating s = false ->
   r = movePlayer rnd (fst (getRandomInt rnd 1 6 c))
         (normalRollState (fst (getRandomInt rnd 1 6 c)) s) (S c)).
Proof.
  intros Hphase Hidx. cbv zeta.
  destruct (decide (isGameOver s = true \/ gamePhase s <> rolling \/
                    isAnimating s = true)) as [Hbusy | Hfree].
  - assert (E : forall i, rollDice rnd i s c = returned s c).
    { intros i. unfold rollDice.
      rewrite decide_False by (rewrite Hphase; discriminate).
      rewrite decide_True by exact Hbusy. reflexivity. }
    rewrite !E. split; [reflexivity |]. split; [reflexivity |].
    intros Hover Hanim. exfalso.
    destruct Hbusy as [H | [H | H]]; congruence.
  - assert (Hover : isGameOver s = false)
      by (destruct (isGameOver s); [exfalso; apply Hfree; left |]; reflexivity).
    assert (Hanim : isAnimating s = false)
      by (destruct (isAnimating s);
          [exfalso; apply Hfree; right; right |]; reflexivity).
    rewrite (rollDice_normal reservedDieIndex s c Hphase Hover Hanim Hidx).
    rewrite (rollDice_normal (-1) s c Hphase Hover Hanim) by (left; lia).
    split; [reflexivity |]. split; [| intros _ _; reflexivity].
    destruct (movePlayer_outcome (fst (getRandomInt rnd 1 6 c))
                (normalRollState (fst (getRandomInt rnd 1 6 c)) s) (S c))
      as [(s1 & c1 & -> & T) | (_ & T & _)].
    + destruct (handleBossEncounter_store
                  (set_isAnimating false (set_gamePhase boss_encounter s1)) c1)
        as (_ & B).
      destruct (STAGE_CONFIGS _); cbv zeta in B; rewrite B; state_simpl;
        rewrite T; reflexivity.
    + rewrite T. reflexivity.
Qed.

(** The last boss: [defeatBoss] ends the run and shows the summary, and
    leaves the phase as it found it. *)
Lemma defeatBoss_last_stage (wasBribed : bool) (s : State) (c : nat) :
  MAX_STAGES < playerStage s + 1 ->
  wasBribed = true \/ is_Some (currentBoss s) ->
  let r := defeatBoss rnd wasBribed s c in
  isGameOver (store r) = true /\
  showSummaryModal (store r) = true /\
  gamePhase (store r) = gamePhase s.
Proof.
  intros Hlast Hboss. cbv zeta.
  assert (T : forall s0, playerStage s0 = playerStage s ->
              let r := defeatBoss rnd true s0 c in
              isGameOver (store r) = true /\
              showSummaryModal (store r) = true /\
              gamePhase (store r) = gamePhase s0).
  { intros s0 E. destruct (defeatBoss_tail s0 c) as (_ & _ & _ & _ & L & _).
    destruct L as (H1 & H2 & H3 & _); [lia |]. cbv zeta. tauto. }
  destruct wasBribed.
  - apply T. reflexivity.
  - destruct Hboss as [H | [boss Hboss]]; [discriminate |].
    rewrite (defeatBoss_fought _ _ _ Hboss).
    destruct (T (countVictory boss s)) as (H1 & H2 & H3).
    { unfold countVictory. state_simpl.
      destruct (decide (totalOf (currentDiceThrows s) = hp boss)); reflexivity. }
    rewrite H1, H2, H3. split; [reflexivity |]. split; [reflexivity |].
    unfold countVictory. state_simpl.
    destruct (decide (totalOf (currentDiceThrows s) = hp boss)); reflexivity.
Qed.

(** ** Money while moving *)

Lemma creditSquare_eq (s : State) :
  creditSquare s
  = set_playerMoney
      (playerMoney s
       + passCredit (at_index (boardSquares s) (playerPosition s))) s.
Proof.
  unfold creditSquare, passCredit.
  destruct (at_index (boardSquares s) (playerPosition s)) as [sq |].
  - destruct (currentEffectType sq), (effectDetails sq) as [[p | a] |];
      try (rewrite Z.add_0_r; destruct s; reflexivity).
    destruct (decide (a = 0)) as [-> | _]; [| reflexivity].
    rewrite Z.add_0_r; destruct s; reflexivity.
  - rewrite Z.add_0_r; destruct s; reflexivity.
Qed.

Lemma rem_next (p total : Z) : 0 <= p -> p + 1 < total -> Z.rem (p + 1) total = p + 1.
Proof. intros. apply Z.rem_small. lia. Qed.

Lemma paceForward_eq (n : nat) (s : State) :
  0 <= playerPosition s ->
  playerPosition s + Z.of_nat n < totalBoardSquares s ->
  paceForward n s
  = set_playerMoney
      (playerMoney s
       + creditsAlong (boardSquares s) (playerPosition s) n)
      (set_playerPosition (playerPosition s + Z.of_nat n) s).
Proof.
  revert s. induction n as [| n IH]; intros s Hlo Hhi.
  - cbn [paceForward creditsAlong Z.of_nat]. rewrite !Z.add_0_r.
    destruct s; reflexivity.
  - cbn [paceForward creditsAlong].
    rewrite rem_next by lia. rewrite creditSquare_eq. state_simpl.
    rewrite IH.
    + state_simpl. destruct s. state_unfold. f_equal; lia.
    + state_simpl. lia.
    + state_simpl. unfold totalBoardSquares in *. state_simpl. lia.
Qed.

Lemma walk_forward (a b : nat) (s : State) (c : nat) :
  isGameOver s = false ->
  0 <= playerPosition s ->
  playerPosition s + Z.of_nat a < totalBoardSquares s ->
  walk rnd (a + b) 1 s c = walk rnd b 1 (paceForward a s) c.
Proof.
  revert s. induction a as [| a IH]; intros s Hover Hlo Hhi.
  - reflexivity.
  - cbn [Nat.add paceForward]. cbn beta iota zeta delta [walk].
    rewrite decide_False by (rewrite Hover; discriminate).
    rewrite decide_True by lia. state_simpl.
    rewrite rem_next by lia.
    rewrite decide_False by lia.
    apply IH.
    + rewrite creditSquare_eq. state_simpl. exact Hover.
    + rewrite creditSquare_eq. state_simpl. lia.
    + rewrite creditSquare_eq. state_simpl.
      unfold totalBoardSquares in *. state_simpl. lia.
Qed.

Lemma walk_backward (n : nat) (direction : Z) (s : State) (c : nat) :
  direction <= 0 ->
  exists s', walk rnd n direction s c = walkDone s' c false /\
             s' = set_playerPosition (playerPosition s') s.
Proof.
  intros Hdir. revert s. induction n as [| n IH]; intros s.
  - exists s. split; [reflexivity | destruct s; reflexivity].
  - cbn beta iota zeta delta [walk].
    destruct (decide (isGameOver s = true)).
    { exists s. split; [reflexivity | destruct s; reflexivity]. }
    rewrite decide_False by lia.
    match goal with
    | |- context [walk rnd n direction ?s0 c] =>
        destruct (IH s0) as (s' & -> & E)
    end.
    exists s'. split; [reflexivity |].
    rewrite E. destruct s. reflexivity.
Qed.

Lemma handleSquareLanding_normal_money (s : State) (c : nat) (square : Square) :
  at_index (boardSquares s) (playerPosition s) = Some square ->
  currentEffectType square = normal_money ->
  baseType square <> corner_br ->
  handleSquareLanding rnd s c = (s, c).
Proof.
  intros Hsq Heff Hbase. unfold handleSquareLanding.
  destruct (decide (isGameOver s = true \/
                    isAnimating s = true /\ gamePhase s <> landed));
    [reflexivity |].
  destruct (decide (playerPosition s < 0 \/
                    playerPosition s >= Z.of_nat (length (boardSquares s))))
    as [Hout | _].
  { exfalso. unfold at_index in Hsq.
    destruct (decide (playerPosition s < 0)); [discriminate |].
    apply lookup_lt_Some in Hsq. lia. }
  rewrite Hsq. rewrite decide_False by exact Hbase.
  rewrite Heff. reflexivity.
Qed.

Lemma walk_forward_done (n : nat) (s : State) (c : nat) :
  isGameOver s = false ->
  0 <= playerPosition s ->
  playerPosition s + Z.of_nat n < totalBoardSquares s ->
  walk rnd n 1 s c
  = walkDone
      (set_playerMoney
         (playerMoney s + creditsAlong (boardSquares s) (playerPosition s) n)
         (set_playerPosition (playerPosition s + Z.of_nat n) s)) c false.
Proof.
  intros Hover Hlo Hhi.
  rewrite <- (Nat.add_0_r n) at 1.
  rewrite (walk_forward n 0 s c Hover Hlo Hhi).
  rewrite (paceForward_eq n s Hlo Hhi). reflexivity.
Qed.

(** C6. A [normal_money] square pays its amount at each forward step onto
    it, whether the player passes or stops there; steps backwards pay
    nothing; and landing on it pays nothing more, so a forward move that
    stays within the lap earns exactly the sum of the amounts stepped on. *)
Theorem normal_money_credited_per_step (s : State) (c : nat) :
  (forall (sq : Square) (a : Z),
     currentEffectType sq = normal_money ->
     effectDetails sq = Some (amount a) ->
     passCredit (Some sq) = a) /\
  (forall n : nat,
     isGameOver s = false ->
     0 <= playerPosition s ->
     playerPosition s + Z.of_nat n < totalBoardSquares s ->
     walk rnd n 1 s c
     = walkDone
         (set_playerMoney
            (playerMoney s
             + creditsAlong (boardSquares s) (playerPosition s) n)
            (set_playerPosition (playerPosition s + Z.of_nat n) s)) c false) /\
  (forall (n : nat) (direction : Z),
     direction <= 0 ->
     exists s', walk rnd n direction s c = walkDone s' c false /\
                playerMoney s' = playerMoney s) /\
  (forall square : Square,
     at_index (boardSquares s) (playerPosition s) = Some square ->
     currentEffectType square = normal_money ->
     baseType square <> corner_br ->
     handleSquareLanding rnd s c = (s, c)) /\
  (forall (steps : Z) (square : Square),
     isGameOver s = false ->
     0 < steps ->
     0 <= playerPosition s ->
     playerPosition s + steps < totalBoardSquares s ->
     at_index (boardSquares s) (playerPosition s + steps) = Some square ->
     currentEffectType square = normal_money ->
     baseType square <> corner_br ->
     let r := movePlayer rnd steps s c in
     playerMoney (store r)
     = playerMoney s
       + creditsAlong (boardSquares s) (playerPosition s) (Z.to_nat steps) /\
     playerPosition (store r) = playerPosition s + steps /\
     gamePhase (store r) = rolling).
Proof.
  split; [| split; [| split; [| split]]].
  - intros sq a Heff Hdet. unfold passCredit. rewrite Heff, Hdet. reflexivity.
  - intros n. apply walk_forward_done.
  - intros n direction Hdir.
    destruct (walk_backward n direction s c Hdir) as (s' & Hw & E).
    exists s'. split; [exact Hw |]. rewrite E. reflexivity.
  - intros square. apply handleSquareLanding_normal_money.
  - intros steps square Hover Hpos Hlo Hhi Hsq Heff Hbase. cbv zeta.
    unfold movePlayer.
    rewrite (decide_True (P := steps > 0)) by lia.
    rewrite walk_forward_done.
    2: state_simpl; exact Hover.
    2: state_simpl; exact Hlo.
    2: { state_simpl. unfold totalBoardSquares in *. state_simpl. lia. }
    state_simpl. rewrite Z.abs_eq, Z2Nat.id by lia.
    unfold landAndFinish.
    rewrite (handleSquareLanding_normal_money _ c square).
    + state_simpl.
      rewrite decide_False by discriminate.
      rewrite decide_True by (split; [discriminate | exact Hover]).
      state_simpl. repeat split; reflexivity.
    + state_simpl. exact Hsq.
    + exact Heff.
    + exact Hbase.
Qed.

(** ** Completing a lap *)

Lemma walk_rollover (n : nat) (s : State) (c : nat) :
  isGameOver s = false ->
  playerPosition s + 1 = totalBoardSquares s ->
  0 < totalBoardSquares s ->
  walk rnd (S n) 1 s c
  = let s1 := set_playerLap (playerLap s + 1) (set_playerPosition 0 s) in
    if decide (playerLap s + 1 = lapsToComplete (currentStageConfig s)) then
      walkBoss
        (handleBossEncounter
           (set_isAnimating false (set_gamePhase boss_encounter s1)) c)
    else
      let '(s2, c2) := setupLapEffects rnd s1 c in walkDone s2 c2 true.
Proof.
  intros Hover Hlast Htotal. cbn beta iota zeta delta [walk].
  rewrite decide_False by (rewrite Hover; discriminate).
  rewrite decide_True by lia. state_simpl.
  rewrite Hlast, Z.rem_same by lia.
  rewrite decide_True by reflexivity. reflexivity.
Qed.

Lemma atRollover_eq (s : State) :
  0 <= playerPosition s ->
  playerPosition s < totalBoardSquares s ->
  let a := Z.to_nat (totalBoardSquares s - playerPosition s - 1) in
  let s0 :=
    set_lastPlayerPositionBeforeThisMove (playerPosition s)
      (set_gamePhase player_moving_animation s) in
  paceForward a s0
  = set_playerMoney
      (playerMoney s + creditsAlong (boardSquares s) (playerPosition s) a)
      (set_playerPosition (totalBoardSquares s - 1) s0).
Proof.
  intros Hlo Hhi. cbv zeta. rewrite paceForward_eq.
  - state_simpl. rewrite Z2Nat.id by lia. f_equal. f_equal. lia.
  - state_simpl. exact Hlo.
  - state_simpl. unfold totalBoardSquares in *. state_simpl. lia.
Qed.

(** C3, as the code has it. A forward move that reaches the start square
    counts one more lap there and goes no further: when the lap count then
    equals [lapsToComplete] the phase turns to the boss encounter at once,
    and otherwise the lap effects are assigned anew (by the loop and once
    more after it) and the player lands on the start square; in both cases
    the steps left of the roll are dropped. *)
Theorem lap_completed_stops_at_start (steps : Z) (s : State) (c : nat) :
  isGameOver s = false ->
  0 <= playerPosition s ->
  playerPosition s < totalBoardSquares s ->
  totalBoardSquares s - playerPosition s <= steps ->
  let r := movePlayer rnd steps s c in
  let s1 := atRollover s in
  (playerPosition s1 = 0 /\ playerLap s1 = playerLap s + 1) /\
  (playerLap s + 1 = lapsToComplete (currentStageConfig s) ->
   r = handleBossEncounter
         (set_isAnimating false (set_gamePhase boss_encounter s1)) c /\
   gamePhase (store r) = boss_encounter) /\
  (playerLap s + 1 <> lapsToComplete (currentStageConfig s) ->
   r = (let '(s2, c2) := setupLapEffects rnd s1 c in
        let '(s3, c3) := setupLapEffects rnd s2 c2 in
        landAndFinish rnd s3 c3)) /\
  playerLap (store r) = playerLap s + 1 /\
  playerPosition (store r) = 0.
Proof.
  intros Hover Hlo Hhi Hreach. cbv zeta.
  pose proof (atRollover_eq s Hlo Hhi) as P. cbv zeta in P.
  assert (Hs1 : playerPosition (atRollover s) = 0 /\
                playerLap (atRollover s) = playerLap s + 1).
  { unfold atRollover. cbv zeta. rewrite P. state_simpl. split; reflexivity. }
  assert (Hcfg : currentStageConfig (atRollover s) = currentStageConfig s).
  { unfold atRollover. cbv zeta. rewrite P. reflexivity. }
  set (a := Z.to_nat (totalBoardSquares s - playerPosition s - 1)) in *.
  set (s0 := set_lastPlayerPositionBeforeThisMove (playerPosition s)
               (set_gamePhase player_moving_animation s)) in *.
  assert (Hmove :
    movePlayer rnd steps s c
    = if decide (playerLap s + 1 = lapsToComplete (currentStageConfig s)) then
        handleBossEncounter
          (set_isAnimating false (set_gamePhase boss_encounter (atRollover s)))
          c
      else
        let '(s2, c2) := setupLapEffects rnd (atRollover s) c in
        let '(s3, c3) := setupLapEffects rnd s2 c2 in
        landAndFinish rnd s3 c3).
  { unfold movePlayer.
    change (set_lastPlayerPositionBeforeThisMove
              (playerPosition (set_gamePhase player_moving_animation s))
              (set_gamePhase player_moving_animation s)) with s0.
    rewrite (decide_True (P := steps > 0)) by lia.
    assert (Hn : Z.to_nat (Z.abs steps)
                 = (a + S (Z.to_nat steps - a - 1))%nat) by (unfold a; lia).
    rewrite Hn.
    rewrite walk_forward.
    2: exact Hover.
    2: exact Hlo.
    2: { unfold a. change (totalBoardSquares s0) with (totalBoardSquares s).
         change (playerPosition s0) with (playerPosition s). lia. }
    rewrite walk_rollover.
    2: rewrite P; exact Hover.
    2: { rewrite P. state_simpl.
         change (totalBoardSquares _) with (totalBoardSquares s). lia. }
    2: { rewrite P. change (totalBoardSquares _) with (totalBoardSquares s).
         lia. }
    cbv zeta.
    assert (Hlap0 : playerLap (paceForward a s0) = playerLap s)
      by (rewrite P; reflexivity).
    assert (Hcfg0 : currentStageConfig (paceForward a s0)
                    = currentStageConfig s) by (rewrite P; reflexivity).
    change (set_playerLap (playerLap (paceForward a s0) + 1)
              (set_playerPosition 0 (paceForward a s0)))
      with (atRollover s).
    rewrite Hcfg0.
    destruct (decide (playerLap (paceForward a s0) + 1
                      = lapsToComplete (currentStageConfig s))) as [Hb | Hl];
      destruct (decide (playerLap s + 1
                        = lapsToComplete (currentStageConfig s)))
        as [Hboss | Hlap]; try (exfalso; lia); [reflexivity |].
    pose proof (setupLapEffects_store (atRollover s) c) as E.
    destruct (setupLapEffects rnd (atRollover s) c) as [s2 c2].
    state_simpl.
    rewrite decide_False; [reflexivity |].
    rewrite E. state_simpl. rewrite Hcfg. destruct Hs1 as [_ ->]. exact Hlap. }
  split; [exact Hs1 |].
  rewrite Hmove. destruct Hs1 as [Hp Hl].
  destruct (decide (playerLap s + 1 = lapsToComplete (currentStageConfig s)))
    as [Hboss | Hlap].
  - destruct (handleBossEncounter_store
                (set_isAnimating false
                   (set_gamePhase boss_encounter (atRollover s))) c) as (_ & B).
    split; [| split; [intros H; contradiction |]].
    + intros _. split; [reflexivity |].
      destruct (STAGE_CONFIGS _); cbv zeta in B; rewrite B; reflexivity.
    + destruct (STAGE_CONFIGS _); cbv zeta in B; rewrite B; state_simpl;
        split; assumption.
  - split; [intros H; contradiction |]. split; [intros _; reflexivity |].
    pose proof (setupLapEffects_store (atRollover s) c) as E2.
    destruct (setupLapEffects rnd (atRollover s) c) as [s2 c2].
    pose proof (setupLapEffects_store s2 c2) as E3.
    destruct (setupLapEffects rnd s2 c2) as [s3 c3].
    destruct (landAndFinish_store s3 c3) as (_ & L & _).
    state_simpl. unfold landedFrom in L. rewrite L. state_simpl.
    rewrite E3. state_simpl. rewrite E2. state_simpl. split; assumption.
Qed.

(** ** The boss's hp and the logged throws *)

Lemma STAGE_CONFIGS_known (stage : Z) :
  1 <= stage <= MAX_STAGES -> is_Some (STAGE_CONFIGS stage).
Proof.
  unfold MAX_STAGES, STAGE_CONFIGS. intros H.
  repeat (match goal with
          | |- context [decide ?P] => destruct (decide P); [eexists; reflexivity |]
          end).
  lia.
Qed.

Lemma defeatBoss_inv (wasBribed : bool) (s : State) (c : nat) :
  reachableInv s ->
  gamePhase s = boss_encounter \/ wasBribed = true ->
  reachableInv (store (defeatBoss rnd wasBribed s c)).
Proof.
  intros (Hsync & Hlo & Hhi) Hcall.
  assert (T : forall s0,
            (gamePhase s0 = boss_encounter -> bossHpInSync s0) ->
            1 <= playerStage s0 ->
            reachableInv (store (defeatBoss rnd true s0 c))).
  { intros s0 Hs Hl.
    destruct (defeatBoss_tail s0 c)
      as (_ & (_ & _ & _ & _ & Hb & Hh & Hm & Hst) & _ & _ & Hlast & Hmore).
    unfold reachableInv. rewrite Hst.
    destruct (decide (playerStage s0 + 1 > MAX_STAGES)) as [H | H].
    - destruct (Hlast H) as (Hp & Ho & _ & Ht & _).
      split; [| split; [lia | rewrite Ho; discriminate]].
      rewrite Hp. intros Hphase.
      destruct (Hs Hphase) as (boss & m & B1 & B2 & B3).
      exists boss, m. rewrite Hb, Hh, Hm, Ht. tauto.
    - destruct Hmore as (Hp & _); [lia |].
      split; [rewrite Hp; discriminate | split; [lia | intros _; lia]]. }
  destruct wasBribed.
  - apply T; assumption.
  - destruct Hcall as [Hphase | H]; [| discriminate].
    destruct (Hsync Hphase) as (boss & m & B1 & B2 & B3).
    rewrite (defeatBoss_fought _ _ _ B1). apply T.
    + intros _. exists boss, m. unfold countVictory. state_simpl.
      destruct (decide (totalOf (currentDiceThrows s) = hp boss));
        state_simpl; tauto.
    + unfold countVictory. state_simpl.
      destruct (decide (totalOf (currentDiceThrows s) = hp boss)); exact Hlo.
Qed.

Lemma afterFreeThrow_inv (s : State) (c : nat) :
  reachableInv s -> gamePhase s = boss_encounter ->
  reachableInv (afterFreeThrow s c) /\
  gamePhase (afterFreeThrow s c) = boss_encounter.
Proof.
  intros (Hsync & Hlo & Hhi) Hphase.
  destruct (Hsync Hphase) as (boss & m & B1 & B2 & B3).
  unfold afterFreeThrow, applyBossDamage. state_simpl. rewrite B3.
  unfold reachableInv, bossHpInSync. state_simpl.
  split; [| exact Hphase]. split; [| split; assumption].
  intros _. exists boss, m. rewrite totalOf_snoc.
  repeat split; try assumption. f_equal. lia.
Qed.

Lemma afterBagThrow_inv (die : DieRef) (d : Die) (s : State) (c : nat) :
  reachableInv s -> gamePhase s = boss_encounter ->
  reachableInv (afterBagThrow die d s c) /\
  gamePhase (afterBagThrow die d s c) = boss_encounter.
Proof.
  intros (Hsync & Hlo & Hhi) Hphase.
  destruct (Hsync Hphase) as (boss & m & B1 & B2 & B3).
  unfold afterBagThrow, applyBossDamage. state_simpl. rewrite B3.
  unfold reachableInv, bossHpInSync. state_simpl.
  split; [| exact Hphase]. split; [| split; assumption].
  intros _. exists boss, m. rewrite totalOf_snoc.
  repeat split; try assumption. f_equal. lia.
Qed.

Lemma failBossFight_inv (s : State) :
  reachableInv s -> reachableInv (failBossFight s).
Proof.
  intros (Hsync & Hlo & Hhi). unfold failBossFight, reachableInv.
  state_simpl. split; [discriminate | split; [exact Hlo | discriminate]].
Qed.

Lemma rollDiceForBoss_inv (die : DieRef) (s : State) (c : nat) :
  reachableInv s -> reachableInv (store (rollDiceForBoss rnd die s c)).
Proof.
  intros Hinv.
  destruct (decide (gamePhase s = boss_encounter)) as [Hphase | Hphase].
  - destruct (dieOf die s) as [d |] eqn:Hdie.
    + destruct Hinv as (Hsync & Hlo & Hhi).
      destruct (Hsync Hphase) as (boss & m & B1 & B2 & B3).
      rewrite (rollDiceForBoss_boss die d s c boss Hphase Hdie B1). cbv zeta.
      destruct (afterBagThrow_inv die d s c) as [Hi Hp];
        [split; [| split]; assumption | exact Hphase |].
      repeat match goal with
             | |- context [decide ?P] => destruct (decide P)
             end.
      * apply defeatBoss_inv; [exact Hi | left; exact Hp].
      * apply failBossFight_inv. exact Hi.
      * exact Hi.
    + unfold rollDiceForBoss.
      rewrite decide_False by (intros H; apply H; exact Hphase).
      destruct die as [index | d]; simpl in Hdie; [| discriminate].
      rewrite Hdie. exact Hinv.
  - unfold rollDiceForBoss. rewrite decide_True by exact Hphase. exact Hinv.
Qed.

Lemma rollDice_rolling (reservedDieIndex : Z) (s : State) (c : nat) :
  gamePhase s <> boss_encounter ->
  rollDice rnd reservedDieIndex s c = returned s c \/
  isGameOver s = false /\
  exists steps s0 c0,
    rollDice rnd reservedDieIndex s c = movePlayer rnd steps s0 c0 /\
    rolledFrom s s0.
Proof.
  intros Hphase. unfold rollDice.
  rewrite decide_False by exact Hphase.
  destruct (decide (isGameOver s = true \/ gamePhase s <> rolling \/
                    isAnimating s = true)) as [Hbusy | Hfree];
    [left; reflexivity | right].
  split; [destruct (isGameOver s); [exfalso; apply Hfree; left |]; reflexivity |].
  state_simpl.
  match goal with
  | |- context [if ?b then match ?o with _ => _ end else (DieNormal, ?t)] =>
      assert (D : exists d bag,
                (if b then match o with
                           | Some d =>
                               (d, set_reservedDice
                                     (delete (Z.to_nat reservedDieIndex)
                                        (reservedDice s))
                                     (set_gamePhase dice_rolling_animation
                                        (set_isAnimating true s)))
                           | None => (DieNormal, t)
                           end
                 else (DieNormal, t))
                = (d, set_reservedDice bag
                        (set_gamePhase dice_rolling_animation
                           (set_isAnimating true s))))
  end.
  { destruct (decide _); [destruct (_ !! _) |];
      eexists _, _; try reflexivity; destruct s; reflexivity. }
  destruct D as (d & bag & ->).
  destruct d; unfold getRandomInt; cbn beta iota zeta;
    eexists _, _, _; (split; [reflexivity |]);
    unfold rolledFrom, showDieRoll; destruct s; reflexivity.
Qed.

Lemma rollDice_inv (reservedDieIndex : Z) (s : State) (c : nat) :
  reachableInv s ->
  reachableInv (store (rollDice rnd reservedDieIndex s c)).
Proof.
  intros Hinv.
  destruct (decide (gamePhase s = boss_encounter)) as [Hphase | Hphase].
  - destruct (decide (remainingBossRolls s <= 0)) as [Hnone | Hleft].
    + unfold rollDice. rewrite !decide_True by assumption. exact Hinv.
    + pose proof Hinv as (Hsync & Hlo & Hhi).
      destruct (Hsync Hphase) as (boss & m & B1 & B2 & B3).
      rewrite (rollDice_boss reservedDieIndex s c boss Hphase) by (lia || assumption).
      cbv zeta.
      destruct (afterFreeThrow_inv s c Hinv Hphase) as [Hi Hp].
      repeat match goal with
             | |- context [decide ?P] => destruct (decide P)
             end.
      * apply defeatBoss_inv; [exact Hi | left; exact Hp].
      * apply failBossFight_inv. exact Hi.
      * exact Hi.
  - destruct (rollDice_rolling reservedDieIndex s c Hphase)
      as [-> | (Hover & steps & s0 & c0 & -> & R)]; [exact Hinv |].
    destruct Hinv as (Hsync & Hlo & Hhi).
    assert (Hover0 : isGameOver s0 = false) by (rewrite R; exact Hover).
    assert (Hstage0 : playerStage s0 = playerStage s) by (rewrite R; reflexivity).
    destruct (movePlayer_outcome steps s0 c0)
      as [(s1 & c1 & -> & T) | (_ & T & Hp)].
    + assert (Hstage1 : playerStage s1 = playerStage s)
        by (rewrite T; state_simpl; exact Hstage0).
      assert (Hover1 : isGameOver s1 = false)
        by (rewrite T; state_simpl; exact Hover0).
      destruct (handleBossEncounter_store
                  (set_isAnimating false (set_gamePhase boss_encounter s1)) c1)
        as (_ & B).
      state_simpl.
      destruct (STAGE_CONFIGS_known (playerStage s1)) as [cfg Hcfg];
        [rewrite Hstage1; split; [exact Hlo | exact (Hhi Hover)] |].
      rewrite Hcfg in B. cbv zeta in B. rewrite B.
      unfold reachableInv, bossHpInSync. state_simpl.
      rewrite Hstage1, Hover1.
      split; [| split; [exact Hlo | intros _; exact (Hhi Hover)]].
      intros _. eexists _, _. repeat split.
      unfold totalOf. cbn. f_equal. lia.
    + assert (Hstage1 : playerStage (store (movePlayer rnd steps s0 c0))
                        = playerStage s)
        by (rewrite T; state_simpl; exact Hstage0).
      assert (Hover1 : isGameOver (store (movePlayer rnd steps s0 c0)) = false)
        by (rewrite T; state_simpl; exact Hover0).
      unfold reachableInv. rewrite Hstage1, Hover1.
      split; [| split; [exact Hlo | intros _; exact (Hhi Hover)]].
      intros Hb. destruct (Hp Hover0) as [H | H]; rewrite H in Hb; discriminate.
Qed.

Lemma payToDefeatBoss_inv (s : State) (c : nat) :
  reachableInv s -> reachableInv (store (payToDefeatBoss rnd s c)).
Proof.
  intros Hinv. unfold payToDefeatBoss.
  destruct (currentBoss s) as [boss |] eqn:Hboss; [| exact Hinv].
  destruct (decide (playerMoney s >= bribeCost boss)); [| exact Hinv].
  apply defeatBoss_inv; [| right; reflexivity].
  destruct Hinv as (Hsync & Hlo & Hhi).
  unfold reachableInv, bossHpInSync in *. state_simpl.
  split; [| split]; assumption.
Qed.

Lemma playerMakesChoice_inv (chosenOption : ChoiceOption) (s : State) :
  reachableInv s -> reachableInv (playerMakesChoice chosenOption s).
Proof.
  intros (Hsync & Hlo & Hhi). unfold playerMakesChoice.
  destruct (decide (gamePhase s <> awaiting_choice \/ choiceDetails s = None));
    [split; [| split]; assumption |].
  unfold reachableInv, addReservedDie.
  destruct (action chosenOption); state_simpl;
    repeat (match goal with
            | |- context [decide ?P] => destruct (decide P)
            end; state_simpl);
    (split; [discriminate | split; assumption]).
Qed.

Lemma setupStage_inv (s : State) (c : nat) :
  1 <= playerStage s ->
  (isGameOver s = false -> playerStage s <= MAX_STAGES) ->
  reachableInv (fst (setupStage rnd s c)) /\
  gamePhase (fst (setupStage rnd s c)) = rolling.
Proof.
  intros Hlo Hhi. rewrite setupStage_store. unfold reachableInv. state_simpl.
  split; [| reflexivity].
  split; [discriminate | split; assumption].
Qed.

Lemma initializeGame_inv (s : State) (c : nat) :
  reachableInv (fst (initializeGame rnd s c)).
Proof.
  unfold initializeGame.
  match goal with
  | |- context [setupStage rnd ?s0 c] =>
      destruct (setupStage_inv s0 c) as [Hi Hp];
      [state_simpl; lia | state_simpl; intros _; unfold MAX_STAGES; lia |];
      destruct (setupStage rnd s0 c) as [s1 c1]
  end.
  cbn [fst] in *.
  destruct (decide (gamePhase s1 <> awaiting_choice)); [| exact Hi].
  destruct Hi as (_ & Hlo & Hhi). unfold reachableInv. state_simpl.
  split; [discriminate | split; assumption].
Qed.

Lemma resetGame_inv (s : State) (c : nat) :
  reachableInv (fst (resetGame rnd s c)).
Proof.
  unfold resetGame.
  match goal with
  | |- context [setupStage rnd ?s0 c] =>
      destruct (setupStage_inv s0 c) as [Hi Hp];
      [state_simpl; lia | state_simpl; intros _; unfold MAX_STAGES; lia |]
  end.
  exact Hi.
Qed.

Lemma runCommand_inv (cmd : Command) (s : State) (c : nat) :
  reachableInv s -> reachableInv (store (runCommand rnd cmd s c)).
Proof.
  intros Hinv. destruct cmd; cbn [runCommand].
  - pose proof (initializeGame_inv s c) as H.
    destruct (initializeGame rnd s c). exact H.
  - apply rollDice_inv. exact Hinv.
  - apply rollDiceForBoss_inv. exact Hinv.
  - apply playerMakesChoice_inv. exact Hinv.
  - apply payToDefeatBoss_inv. exact Hinv.
  - pose proof (resetGame_inv s c) as H.
    destruct (resetGame rnd s c). exact H.
Qed.

Lemma runCommands_inv (cmds : list Command) (s : State) (c : nat) :
  reachableInv s -> reachableInv (store (runCommands rnd cmds s c)).
Proof.
  revert s c. induction cmds as [| cmd cmds IH]; intros s c Hinv.
  - exact Hinv.
  - cbn [runCommands]. apply IH. apply runCommand_inv. exact Hinv.
Qed.

Lemma initialState_inv : reachableInv initialState.
Proof.
  unfold reachableInv, initialState, MAX_STAGES. cbn.
  split; [discriminate | split; [lia | intros _; lia]].
Qed.

(** C10. Through a boss encounter the displayed hp keeps to the logged
    throws: after any sequence of commands on the store as it is created,
    whenever the phase is the boss encounter the current hp is the maximal
    hp less the sum of the throws (below zero after a last hit that
    overshoots). *)
Theorem boss_hp_in_sync (cmds : list Command) (c : nat) :
  let s := store (runCommands rnd cmds initialState c) in
  gamePhase s = boss_encounter ->
  exists m : Z,
    currentBossMaxHP s = Some m /\
    currentBossHP s = Some (m - totalOf (currentDiceThrows s)).
Proof.
  cbv zeta. intros Hphase.
  destruct (runCommands_inv cmds initialState c initialState_inv)
    as (Hsync & _).
  destruct (Hsync Hphase) as (boss & m & _ & Hm & Hh).
  exists m. split; assumption.
Qed.

(** ** The oracle and [getRandomInt] *)

Lemma Qfloor_scaled (x : Q) (n : Z) :
  (0 <= x)%Q -> (x < 1)%Q -> 0 < n ->
  0 <= Qfloor (x * inject_Z n) < n.
Proof.
  intros Hlo Hhi Hn.
  assert (Hn' : (0 < inject_Z n)%Q)
    by (change (inject_Z 0 < inject_Z n)%Q; rewrite <- Zlt_Qlt; exact Hn).
  split.
  - change 0 with (Qfloor (inject_Z 0)). apply Qfloor_resp_le.
    apply Qmult_le_0_compat; [exact Hlo | apply Qlt_le_weak; exact Hn'].
  - rewrite Zlt_Qlt.
    apply Qle_lt_trans with (x * inject_Z n)%Q; [apply Qfloor_le |].
    rewrite <- (Qmult_1_l (inject_Z n)) at 2.
    apply Qmult_lt_compat_r; assumption.
Qed.

Lemma getRandomInt_range (min max : Z) (c : nat) :
  unitSamples -> min <= max ->
  min <= fst (getRandomInt rnd min max c) <= max.
Proof.
  intros Hu Hmm. unfold getRandomInt. cbn [fst].
  destruct (Hu c) as [Hlo Hhi].
  pose proof (Qfloor_scaled (rnd c) (max - min + 1) Hlo Hhi) as H.
  lia.
Qed.

(** ** Shuffling permutes *)

Lemma swapEntries_perm {A} (array : list A) (i : nat) (j : Z) :
  swapEntries array i j ≡ₚ array.
Proof.
  unfold swapEntries, at_index.
  destruct (array !! i) as [x |] eqn:Hi; [| reflexivity].
  destruct (decide (j < 0)) as [| Hj0]; [reflexivity |].
  destruct (array !! Z.to_nat j) as [y |] eqn:Hj; [| reflexivity].
  set (k := Z.to_nat j) in *.
  apply Permutation_inj. split.
  - rewrite !length_insert. reflexivity.
  - exists (fun n => if decide (n = i) then k else if decide (n = k) then i else n).
    split.
    + intros a b. repeat case_decide; intros; subst; congruence.
    + intros n. cbv beta.
      pose proof (lookup_lt_Some _ _ _ Hi). pose proof (lookup_lt_Some _ _ _ Hj).
      destruct (decide (n = k)) as [-> | Hnk].
      * rewrite list_lookup_insert_eq by (rewrite length_insert; lia).
        destruct (decide (k = i)) as [Hki | Hki]; cbn; congruence.
      * rewrite list_lookup_insert_ne by congruence.
        destruct (decide (n = i)) as [-> | Hni].
        -- rewrite list_lookup_insert_eq by lia. congruence.
        -- rewrite list_lookup_insert_ne by congruence. reflexivity.
Qed.

Lemma shuffleFrom_perm {A} (i : nat) (array : list A) (c : nat) :
  fst (shuffleFrom rnd i array c) ≡ₚ array /\
  snd (shuffleFrom rnd i array c) = (c + i)%nat.
Proof.
  revert array c. induction i as [| i IH]; intros array c.
  - cbn. split; [reflexivity | lia].
  - cbn beta iota zeta delta [shuffleFrom].
    destruct (IH (swapEntries array (S i)
                    (Qfloor (rnd c * inject_Z (Z.of_nat (S i) + 1)))) (S c))
      as [Hp Hc].
    split; [rewrite Hp; apply swapEntries_perm | rewrite Hc; lia].
Qed.

Lemma shuffleArray_perm {A} (array : list A) (c : nat) :
  fst (shuffleArray rnd array c) ≡ₚ array.
Proof. unfold shuffleArray. apply shuffleFrom_perm. Qed.

(** ** Boards whose squares sit at their own index *)

Lemma indexed_NoDup (board : list Square) :
  indexed board -> NoDup (id <$> board).
Proof.
  intros Hix. apply NoDup_alt. intros i j x Hi Hj.
  rewrite list_lookup_fmap in Hi, Hj.
  destruct (board !! i) as [si |] eqn:Ei; [| discriminate].
  destruct (board !! j) as [sj |] eqn:Ej; [| discriminate].
  apply Hix in Ei, Ej. cbn in Hi, Hj. simplify_eq. lia.
Qed.

Lemma squareIdToIndexMap_lookup (board : list Square) (k : nat) (sq : Square) :
  indexed board -> board !! k = Some sq ->
  squareIdToIndexMap board !! id sq = Some k.
Proof.
  intros Hix Hk. unfold squareIdToIndexMap.
  apply elem_of_list_to_map.
  - rewrite fmap_reverse, reverse_Permutation, fmap_imap.
    rewrite (imap_ext _ (const id)) by reflexivity.
    rewrite imap_const. apply indexed_NoDup. exact Hix.
  - rewrite elem_of_reverse. apply list_elem_of_lookup. exists k.
    rewrite list_lookup_imap, Hk. reflexivity.
Qed.

(** ** One pass of assignments *)

Lemma assigned_refl (E : EffectType -> Prop) (board : list Square) :
  assigned E [] board board.
Proof.
  split; [reflexivity |]. intros k sq Hk. exists sq.
  split; [exact Hk |]. split; [reflexivity |]. split; [reflexivity |].
  split; [| intros _; reflexivity].
  intros H. inversion H.
Qed.

Lemma assigned_indexed (E : EffectType -> Prop) (ids : list Z)
    (board board' : list Square) :
  indexed board -> assigned E ids board board' -> indexed board'.
Proof.
  intros Hix [Hlen Hrel] k sq' Hk.
  destruct (board !! k) as [sq |] eqn:Ek.
  - destruct (Hrel k sq Ek) as (sq'' & Hk' & Hid & _).
    rewrite Hk in Hk'. injection Hk' as <-. rewrite Hid. apply Hix. exact Ek.
  - apply lookup_ge_None in Ek. apply lookup_lt_Some in Hk. lia.
Qed.

Lemma assigned_placed (E : EffectType -> Prop) (ids : list Z)
    (idx : gmap Z nat) (board board' : list Square) (avail : list Z) :
  assigned E ids board board' -> placed idx board avail ->
  placed idx board' avail.
Proof.
  intros [_ Hrel] Hpl x Hx.
  destruct (Hpl x Hx) as (k & sq & Hi & Hk & Hid).
  destruct (Hrel k sq Hk) as (sq' & Hk' & Hid' & _).
  exists k, sq'. repeat split; congruence.
Qed.

Lemma assigned_compose (E : EffectType -> Prop) (l1 l2 : list Z)
    (b0 b1 b2 : list Square) :
  assigned E l1 b0 b1 -> assigned E l2 b1 b2 -> assigned E (l1 ++ l2) b0 b2.
Proof.
  intros [Hlen1 H1] [Hlen2 H2]. split; [congruence |].
  intros k sq0 Hk.
  destruct (H1 k sq0 Hk) as (sq1 & Hk1 & Hid1 & Hb1 & Hin1 & Hout1).
  destruct (H2 k sq1 Hk1) as (sq2 & Hk2 & Hid2 & Hb2 & Hin2 & Hout2).
  exists sq2. split; [exact Hk2 |].
  split; [congruence |]. split; [congruence |]. split.
  - intros Hin. rewrite Hid1 in Hin2, Hout2.
    destruct (decide (id sq0 ∈ l2)) as [Hl2 | Hl2]; [exact (Hin2 Hl2) |].
    rewrite (Hout2 Hl2). apply Hin1.
    apply elem_of_app in Hin. tauto.
  - intros Hout. rewrite Hid1 in Hout2.
    rewrite Hout2, Hout1; [reflexivity | |];
      intros H; apply Hout; apply elem_of_app; tauto.
Qed.

Lemma assignSquare_assigned (assign : Square -> nat -> Square * nat)
    (E : EffectType -> Prop) (idx : gmap Z nat) (x : Z)
    (board : list Square) (c : nat) :
  indexed board -> placed idx board [x] -> assignOK assign E ->
  assigned E [x] board (assignSquare assign idx x board c).1.
Proof.
  intros Hix Hpl Hok.
  destruct (Hpl x) as (k & sq & Hi & Hk & Hid); [apply list_elem_of_singleton; reflexivity |].
  unfold assignSquare. rewrite Hi, Hk.
  destruct (Hok sq c) as (Oid & Obase & Oeff).
  destruct (assign sq c) as [sq1 c1]. cbn [fst] in *.
  split; [apply length_insert |].
  intros k0 sq0 Hk0.
  destruct (decide (k0 = k)) as [-> | Hne].
  - rewrite Hk in Hk0. injection Hk0 as <-.
    exists sq1. rewrite list_lookup_insert_eq by (eapply lookup_lt_Some; eassumption).
    split; [reflexivity |]. split; [exact Oid |]. split; [exact Obase |].
    split; [intros _; exact Oeff |].
    intros Hout. exfalso. apply Hout. rewrite Hid.
    apply list_elem_of_singleton. reflexivity.
  - exists sq0. rewrite list_lookup_insert_ne by congruence.
    split; [exact Hk0 |]. split; [reflexivity |]. split; [reflexivity |].
    split; [| intros _; reflexivity].
    intros Hin. exfalso. apply list_elem_of_singleton in Hin.
    apply Hne. apply Hix in Hk0, Hk. lia.
Qed.

Lemma popAssign_spec (assign : Square -> nat -> Square * nat)
    (E : EffectType -> Prop) (idx : gmap Z nat) (n : nat) (avail : list Z)
    (board : list Square) (c : nat) :
  indexed board -> placed idx board avail -> assignOK assign E ->
  match popAssign assign idx n avail board c with
  | (popped, avail', board', _) =>
      avail = avail' ++ reverse popped /\
      length popped = Nat.min n (length avail) /\
      assigned E popped board board'
  end.
Proof.
  intros Hix Hpl Hok. revert avail board c Hix Hpl.
  induction n as [| n IH]; intros avail board c Hix Hpl.
  - cbn. rewrite app_nil_r. repeat split. apply assigned_refl.
  - cbn beta iota zeta delta [popAssign].
    destruct (last avail) as [x |] eqn:Hlast.
    + apply last_Some in Hlast. destruct Hlast as [l ->].
      rewrite removelast_last.
      assert (Hx : placed idx board [x]).
      { intros y Hy. apply list_elem_of_singleton in Hy. subst y.
        apply Hpl. apply elem_of_app. right.
        apply list_elem_of_singleton. reflexivity. }
      pose proof (assignSquare_assigned assign E idx x board c Hix Hx Hok) as A1.
      destruct (assignSquare assign idx x board c) as [board1 c1].
      cbn [fst] in A1.
      assert (Hl : placed idx board1 l).
      { apply (assigned_placed E [x] idx board); [exact A1 |].
        intros y Hy. apply Hpl. apply elem_of_app. left. exact Hy. }
      specialize (IH l board1 c1 (assigned_indexed _ _ _ _ Hix A1) Hl).
      destruct (popAssign assign idx n l board1 c1)
        as [[[popped avail'] board'] c'].
      destruct IH as (Hsplit & Hlen & A2).
      split; [| split].
      * rewrite reverse_cons, Hsplit, <- app_assoc. reflexivity.
      * cbn [length]. rewrite Hlen, length_app. cbn [length]. lia.
      * exact (assigned_compose E [x] popped _ _ _ A1 A2).
    + apply last_None in Hlast. subst avail. cbn.
      repeat split. apply assigned_refl.
Qed.

Lemma assignRest_spec (hugeValue : Z) (multiplier : Q) (idx : gmap Z nat)
    (E : EffectType -> Prop) (avail : list Z) (board : list Square) (c : nat) :
  indexed board -> placed idx board avail ->
  assignOK (assignMoney rnd hugeValue multiplier) E ->
  assigned E avail board
    (assignRest rnd hugeValue multiplier idx avail board c).1.
Proof.
  intros Hix Hpl Hok. revert board c Hix Hpl.
  induction avail as [| x avail IH]; intros board c Hix Hpl.
  - apply assigned_refl.
  - cbn beta iota zeta delta [assignRest].
    assert (Hx : placed idx board [x]).
    { intros y Hy. apply list_elem_of_singleton in Hy. subst y.
      apply Hpl. left. }
    pose proof (assignSquare_assigned _ E idx x board c Hix Hx Hok) as A1.
    destruct (assignSquare (assignMoney rnd hugeValue multiplier) idx x board c)
      as [board1 c1].
    cbn [fst] in A1.
    assert (Hl : placed idx board1 avail).
    { apply (assigned_placed E [x] idx board); [exact A1 |].
      intros y Hy. apply Hpl. right. exact Hy. }
    specialize (IH board1 c1 (assigned_indexed _ _ _ _ Hix A1) Hl).
    exact (assigned_compose E [x] avail _ _ _ A1 IH).
Qed.

(** ** The four passes together *)

Lemma four_passes (E1 E2 E3 E4 : EffectType -> Prop) (l1 l2 l3 l4 : list Z)
    (b0 b1 b2 b3 b4 : list Square) :
  assigned E1 l1 b0 b1 -> assigned E2 l2 b1 b2 ->
  assigned E3 l3 b2 b3 -> assigned E4 l4 b3 b4 ->
  NoDup (l1 ++ l2 ++ l3 ++ l4) ->
  length b4 = length b0 /\
  forall (k : nat) (sq0 : Square),
    b0 !! k = Some sq0 ->
    exists sq4, b4 !! k = Some sq4 /\ id sq4 = id sq0 /\
                baseType sq4 = baseType sq0 /\
                (id sq0 ∈ l1 -> E1 (currentEffectType sq4)) /\
                (id sq0 ∈ l2 -> E2 (currentEffectType sq4)) /\
                (id sq0 ∈ l3 -> E3 (currentEffectType sq4)) /\
                (id sq0 ∈ l4 -> E4 (currentEffectType sq4)) /\
                (id sq0 ∉ l1 ++ l2 ++ l3 ++ l4 -> sq4 = sq0).
Proof.
  intros [L1 A1] [L2 A2] [L3 A3] [L4 A4] Hnd.
  apply NoDup_app in Hnd. destruct Hnd as (_ & D1 & Hnd).
  apply NoDup_app in Hnd. destruct Hnd as (_ & D2 & Hnd).
  apply NoDup_app in Hnd. destruct Hnd as (_ & D3 & _).
  split; [congruence |].
  intros k sq0 Hk.
  destruct (A1 k sq0 Hk) as (sq1 & K1 & I1 & T1 & In1 & Out1).
  destruct (A2 k sq1 K1) as (sq2 & K2 & I2 & T2 & In2 & Out2).
  destruct (A3 k sq2 K2) as (sq3 & K3 & I3 & T3 & In3 & Out3).
  destruct (A4 k sq3 K3) as (sq4 & K4 & I4 & T4 & In4 & Out4).
  rewrite I1 in In2, Out2. rewrite I2, I1 in In3, Out3.
  rewrite I3, I2, I1 in In4, Out4.
  exists sq4. split; [exact K4 |]. split; [congruence |].
  split; [congruence |].
  split; [| split; [| split; [| split]]].
  - intros H. specialize (D1 _ H).
    rewrite Out4, Out3, Out2; [exact (In1 H) | | |];
      intros H'; apply D1; set_solver.
  - intros H. specialize (D2 _ H).
    rewrite Out4, Out3; [exact (In2 H) | |];
      intros H'; apply D2; set_solver.
  - intros H. specialize (D3 _ H).
    rewrite Out4; [exact (In3 H) |]. exact D3.
  - exact In4.
  - intros H.
    rewrite Out4, Out3, Out2, Out1; [reflexivity | | | |];
      intros H'; apply H; set_solver.
Qed.

(** ** Candidates *)

Lemma resetSquare_id (sq : Square) : id (resetSquare sq) = id sq.
Proof. unfold resetSquare. destruct (decide _); reflexivity. Qed.

Lemma resetSquare_baseType (sq : Square) :
  baseType (resetSquare sq) = baseType sq.
Proof. unfold resetSquare. destruct (decide _); reflexivity. Qed.

Lemma candidateSquareIds_reset (s : State) :
  candidateSquareIds (set_boardSquares (resetSquare <$> boardSquares s) s)
  = candidateSquareIds s.
Proof.
  unfold candidateSquareIds. state_simpl. rewrite length_fmap.
  destruct (decide (length (boardSquares s) = 0%nat)) as [| _];
    [reflexivity |].
  change (cornerSquareIds (set_boardSquares _ s)) with (cornerSquareIds s).
  induction (boardSquares s) as [| sq board IH]; [reflexivity |].
  cbn [fmap list_fmap].
  rewrite !filter_cons.
  rewrite resetSquare_id, resetSquare_baseType.
  destruct (decide (baseType sq = normal /\ id sq ∉ cornerSquareIds s));
    [cbn [fmap list_fmap]; rewrite resetSquare_id; f_equal |]; exact IH.
Qed.

Lemma candidate_elem (s : State) (x : Z) :
  x ∈ candidateSquareIds s ->
  (x ∉ cornerSquareIds s) /\
  exists (k : nat) (sq : Square),
    boardSquares s !! k = Some sq /\ id sq = x /\ baseType sq = normal.
Proof.
  unfold candidateSquareIds.
  destruct (decide (length (boardSquares s) = 0%nat));
    [intros H; inversion H |].
  intros H. apply list_elem_of_fmap in H. destruct H as (sq & -> & H).
  apply list_elem_of_filter in H. destruct H as [[Hb Hc] Hin].
  split; [exact Hc |].
  apply list_elem_of_lookup in Hin. destruct Hin as [k Hk].
  exists k, sq. repeat split; assumption.
Qed.

Lemma candidate_NoDup (s : State) :
  indexed (boardSquares s) -> NoDup (candidateSquareIds s).
Proof.
  intros Hix. unfold candidateSquareIds.
  destruct (decide (length (boardSquares s) = 0%nat)) as [| _];
    [constructor |].
  apply indexed_NoDup in Hix.
  induction (boardSquares s) as [| sq board IH]; [constructor |].
  cbn [fmap list_fmap] in Hix. apply NoDup_cons in Hix.
  destruct Hix as [Hnot Hnd].
  rewrite filter_cons.
  destruct (decide (baseType sq = normal /\ id sq ∉ cornerSquareIds s)).
  - cbn [fmap list_fmap]. apply NoDup_cons. split; [| exact (IH Hnd)].
    intros H. apply Hnot. apply list_elem_of_fmap in H.
    destruct H as (sq' & E & H). apply list_elem_of_filter in H.
    apply list_elem_of_fmap. exists sq'. tauto.
  - exact (IH Hnd).
Qed.

Lemma candidate_count (s : State) :
  length (candidateSquareIds s) = freeSquares s.
Proof.
  unfold candidateSquareIds, freeSquares.
  destruct (decide (length (boardSquares s) = 0%nat)) as [E |].
  - apply length_zero_iff_nil in E. rewrite E. reflexivity.
  - cbv zeta. apply length_fmap.
Qed.

(** ** Counting squares by effect *)

Lemma count_where_ids (P : Square -> Prop)
    {P_dec : forall sq, Decision (P sq)}
    (ids : list Z) (board : list Square) :
  indexed board -> NoDup ids ->
  (forall x, x ∈ ids -> exists sq, sq ∈ board /\ id sq = x) ->
  (forall sq, sq ∈ board -> (P sq <-> id sq ∈ ids)) ->
  length (filter P board) = length ids.
Proof.
  intros Hix Hnd Hsub Hiff.
  rewrite <- (length_fmap id).
  apply Permutation_length. apply NoDup_Permutation.
  - apply indexed_NoDup in Hix. clear - Hix.
    induction board as [| sq board IH]; [constructor |].
    cbn [fmap list_fmap] in Hix. apply NoDup_cons in Hix.
    destruct Hix as [Hnot Hnd]. rewrite filter_cons.
    destruct (decide (P sq)); [| exact (IH Hnd)].
    cbn [fmap list_fmap]. apply NoDup_cons. split; [| exact (IH Hnd)].
    intros H. apply Hnot. apply list_elem_of_fmap in H.
    destruct H as (sq' & E & H). apply list_elem_of_filter in H.
    apply list_elem_of_fmap. exists sq'. tauto.
  - exact Hnd.
  - intros x. split.
    + intros H. apply list_elem_of_fmap in H. destruct H as (sq & -> & H).
      apply list_elem_of_filter in H. destruct H as [He Hin].
      apply (Hiff sq Hin). exact He.
    + intros H. destruct (Hsub x H) as (sq & Hin & <-).
      apply list_elem_of_fmap. exists sq. split; [reflexivity |].
      apply list_elem_of_filter. split; [| exact Hin].
      apply (Hiff sq Hin). exact H.
Qed.

Lemma count_by_ids (e : EffectType) (ids : list Z) (board : list Square) :
  indexed board -> NoDup ids ->
  (forall x, x ∈ ids -> exists sq, sq ∈ board /\ id sq = x) ->
  (forall sq, sq ∈ board -> (currentEffectType sq = e <-> id sq ∈ ids)) ->
  countEffect e board = length ids.
Proof.
  intros Hix Hnd Hsub Hiff. unfold countEffect.
  rewrite <- (length_fmap id).
  apply Permutation_length. apply NoDup_Permutation.
  - apply indexed_NoDup in Hix. clear - Hix.
    induction board as [| sq board IH]; [constructor |].
    cbn [fmap list_fmap] in Hix. apply NoDup_cons in Hix.
    destruct Hix as [Hnot Hnd]. rewrite filter_cons.
    destruct (decide (currentEffectType sq = e)); [| exact (IH Hnd)].
    cbn [fmap list_fmap]. apply NoDup_cons. split; [| exact (IH Hnd)].
    intros H. apply Hnot. apply list_elem_of_fmap in H.
    destruct H as (sq' & E & H). apply list_elem_of_filter in H.
    apply list_elem_of_fmap. exists sq'. tauto.
  - exact Hnd.
  - intros x. split.
    + intros H. apply list_elem_of_fmap in H. destruct H as (sq & -> & H).
      apply list_elem_of_filter in H. destruct H as [He Hin].
      apply (Hiff sq Hin). exact He.
    + intros H. destruct (Hsub x H) as (sq & Hin & <-).
      apply list_elem_of_fmap. exists sq. split; [reflexivity |].
      apply list_elem_of_filter. split; [| exact Hin].
      apply (Hiff sq Hin). exact H.
Qed.

(** ** Lap effects within their quotas *)

Lemma assignBad_ok (stage : Z) :
  assignOK (assignBad rnd stage) (fun e => e = temp_bad_lap).
Proof. intros sq c. unfold assignBad, getRandomInt. cbn. tauto. Qed.

Lemma assignEffect_ok (e : EffectType) :
  assignOK (assignEffect e) (fun e' => e' = e).
Proof. intros sq c. unfold assignEffect. cbn. tauto. Qed.

Lemma assignMoney_ok (hugeValue : Z) (multiplier : Q) :
  assignOK (assignMoney rnd hugeValue multiplier)
    (fun e => e = huge_money \/ e = normal_money).
Proof.
  intros sq c. unfold assignMoney, getRandomInt.
  destruct (Qltb (rnd c) (15 # 100)); cbn; tauto.
Qed.

(** What one run of [setupLapEffects] yields, in the terms of its passes. *)
Lemma setupLapEffects_run_passes (s : State) (c : nat) :
  indexed (boardSquares s) ->
  plainFixed (boardSquares s) ->
  unitSamples ->
  quotasOK (currentStageConfig s) ->
  let r := setupLapEffects_run rnd s c in
  let config := currentStageConfig s in
  let nb := length (badIds r) in
  let nc := length (choiceIds r) in
  let np := length (pickIds r) in
  let total := length (candidateSquareIds s) in
  moneyIds r ++ reverse (pickIds r) ++ reverse (choiceIds r)
    ++ reverse (badIds r) ≡ₚ candidateSquareIds s /\
  (Z.of_nat nb <= maxBadSquares config /\
   (minBadSquares config <= Z.of_nat nb \/ nb = total)) /\
  (Z.of_nat nc <= maxChoiceDiceMoneySquares config /\
   (minChoiceDiceMoneySquares config <= Z.of_nat nc \/
    (nb + nc)%nat = total)) /\
  (Z.of_nat np <= maxChoicePickDieSquares config /\
   (minChoicePickDieSquares config <= Z.of_nat np \/
    (nb + nc + np)%nat = total)) /\
  length (boardSquares (lapStore r)) = length (boardSquares s) /\
  forall (k : nat) (sq0 : Square),
    boardSquares s !! k = Some sq0 ->
    exists sq4,
      boardSquares (lapStore r) !! k = Some sq4 /\ id sq4 = id sq0 /\
      baseType sq4 = baseType sq0 /\
      (id sq0 ∈ badIds r -> currentEffectType sq4 = temp_bad_lap) /\
      (id sq0 ∈ choiceIds r -> currentEffectType sq4 = choice_dice_money) /\
      (id sq0 ∈ pickIds r -> currentEffectType sq4 = choice_pick_die) /\
      (id sq0 ∈ moneyIds r ->
       currentEffectType sq4 = huge_money \/
       currentEffectType sq4 = normal_money) /\
      (id sq0 ∉ badIds r ++ choiceIds r ++ pickIds r ++ moneyIds r ->
       currentEffectType sq4 = none).
Proof.
  intros Hix Hplain Hu (Qb & Qc & Qp). cbv zeta.
  unfold setupLapEffects_run.
  rewrite candidateSquareIds_reset.
  set (b0 := resetSquare <$> boardSquares s).
  change (boardSquares (set_boardSquares b0 s)) with b0.
  change (playerStage (set_boardSquares b0 s)) with (playerStage s).
  change (currentHugeMoneyValue (set_boardSquares b0 s))
    with (currentHugeMoneyValue s).
  set (idx := squareIdToIndexMap b0).
  assert (Hix0 : indexed b0).
  { intros k sq Hk. unfold b0 in Hk. rewrite list_lookup_fmap in Hk.
    destruct (boardSquares s !! k) as [sq' |] eqn:E; [| discriminate].
    injection Hk as <-. rewrite resetSquare_id. exact (Hix k sq' E). }
  pose proof (shuffleArray_perm (candidateSquareIds s) c) as Hperm.
  destruct (shuffleArray rnd (candidateSquareIds s) c) as [avail0 c0].
  cbn [fst] in Hperm.
  assert (Hpl0 : placed idx b0 avail0).
  { intros x Hx. rewrite Hperm in Hx.
    destruct (candidate_elem s x Hx) as (_ & k & sq & Hk & Hid & _).
    exists k, (resetSquare sq).
    assert (Hk0 : b0 !! k = Some (resetSquare sq))
      by (unfold b0; rewrite list_lookup_fmap, Hk; reflexivity).
    split; [| split; [exact Hk0 | rewrite resetSquare_id; exact Hid]].
    rewrite <- Hid, <- resetSquare_id.
    exact (squareIdToIndexMap_lookup b0 k _ Hix0 Hk0). }
  pose proof (getRandomInt_range (minBadSquares (currentStageConfig s))
                (maxBadSquares (currentStageConfig s)) c0 Hu (proj2 Qb)) as Rb.
  destruct (getRandomInt rnd (minBadSquares (currentStageConfig s))
              (maxBadSquares (currentStageConfig s)) c0) as [numBad c1].
  cbn [fst] in Rb.
  pose proof (popAssign_spec (assignBad rnd (playerStage s)) _ idx
                (Z.to_nat numBad) avail0 b0 c1 Hix0 Hpl0
                (assignBad_ok (playerStage s))) as P1.
  destruct (popAssign (assignBad rnd (playerStage s)) idx (Z.to_nat numBad)
              avail0 b0 c1) as [[[bad avail1] b1] c2].
  destruct P1 as (S1 & L1 & A1).
  assert (Hix1 : indexed b1) by exact (assigned_indexed _ _ _ _ Hix0 A1).
  assert (Hpl1 : placed idx b1 avail1).
  { apply (assigned_placed _ _ idx _ _ _ A1).
    intros x Hx. apply Hpl0. rewrite S1. apply elem_of_app. left. exact Hx. }
  pose proof (getRandomInt_range
                (minChoiceDiceMoneySquares (currentStageConfig s))
                (maxChoiceDiceMoneySquares (currentStageConfig s)) c2 Hu
                (proj2 Qc)) as Rc.
  destruct (getRandomInt rnd
              (minChoiceDiceMoneySquares (currentStageConfig s))
              (maxChoiceDiceMoneySquares (currentStageConfig s)) c2)
    as [numChoice c3].
  cbn [fst] in Rc.
  pose proof (popAssign_spec (assignEffect choice_dice_money) _ idx
                (Z.to_nat numChoice) avail1 b1 c3 Hix1 Hpl1
                (assignEffect_ok choice_dice_money)) as P2.
  destruct (popAssign (assignEffect choice_dice_money) idx
              (Z.to_nat numChoice) avail1 b1 c3) as [[[choice avail2] b2] c4].
  destruct P2 as (S2 & L2 & A2).
  assert (Hix2 : indexed b2) by exact (assigned_indexed _ _ _ _ Hix1 A2).
  assert (Hpl2 : placed idx b2 avail2).
  { apply (assigned_placed _ _ idx _ _ _ A2).
    intros x Hx. apply Hpl1. rewrite S2. apply elem_of_app. left. exact Hx. }
  pose proof (getRandomInt_range
                (minChoicePickDieSquares (currentStageConfig s))
                (maxChoicePickDieSquares (currentStageConfig s)) c4 Hu
                (proj2 Qp)) as Rp.
  destruct (getRandomInt rnd
              (minChoicePickDieSquares (currentStageConfig s))
              (maxChoicePickDieSquares (currentStageConfig s)) c4)
    as [numPick c5].
  cbn [fst] in Rp.
  pose proof (popAssign_spec (assignEffect choice_pick_die) _ idx
                (Z.to_nat numPick) avail2 b2 c5 Hix2 Hpl2
                (assignEffect_ok choice_pick_die)) as P3.
  destruct (popAssign (assignEffect choice_pick_die) idx
              (Z.to_nat numPick) avail2 b2 c5) as [[[pick avail3] b3] c6].
  destruct P3 as (S3 & L3 & A3).
  assert (Hix3 : indexed b3) by exact (assigned_indexed _ _ _ _ Hix2 A3).
  assert (Hpl3 : placed idx b3 avail3).
  { apply (assigned_placed _ _ idx _ _ _ A3).
    intros x Hx. apply Hpl2. rewrite S3. apply elem_of_app. left. exact Hx. }
  pose proof (assignRest_spec (currentHugeMoneyValue s)
                (moneyMultiplier (currentStageConfig s)) idx _ avail3 b3 c6
                Hix3 Hpl3
                (assignMoney_ok _ _)) as A4.
  destruct (assignRest rnd (currentHugeMoneyValue s)
              (moneyMultiplier (currentStageConfig s)) idx avail3 b3 c6)
    as [b4 c7].
  cbn [fst] in A4. state_simpl.
  cbn [badIds choiceIds pickIds moneyIds].
  assert (Hall : avail3 ++ reverse pick ++ reverse choice ++ reverse bad
                 ≡ₚ candidateSquareIds s).
  { rewrite <- Hperm, S1, S2, S3, <- !app_assoc. reflexivity. }
  assert (Hlen : (length avail3 + length pick + length choice + length bad
                  = length (candidateSquareIds s))%nat).
  { rewrite <- (Permutation_length Hall), !length_app, !length_reverse. lia. }
  assert (Hlen0 : length avail0 = length (candidateSquareIds s))
    by (rewrite Hperm; reflexivity).
  assert (Hlen1 : (length avail1 + length bad = length avail0)%nat)
    by (rewrite S1, length_app, length_reverse; reflexivity).
  assert (Hlen2 : (length avail2 + length choice = length avail1)%nat)
    by (rewrite S2, length_app, length_reverse; reflexivity).
  assert (Hnd : NoDup (bad ++ choice ++ pick ++ avail3)).
  { assert (P : bad ++ choice ++ pick ++ avail3 ≡ₚ candidateSquareIds s).
    { rewrite <- Hall, !reverse_Permutation. symmetry.
      etransitivity; [apply Permutation_app_comm |].
      rewrite (app_assoc bad), (app_assoc (bad ++ choice)).
      apply Permutation_app_tail.
      etransitivity; [apply Permutation_app_comm |].
      apply Permutation_app_tail. apply Permutation_app_comm. }
    rewrite P. apply candidate_NoDup. exact Hix. }
  split; [exact Hall |].
  split; [split; [lia | lia] |].
  split; [split; [lia | lia] |].
  split; [split; [lia | lia] |].
  destruct (four_passes _ _ _ _ bad choice pick avail3 b0 b1 b2 b3 b4
              A1 A2 A3 A4 Hnd) as (Hlen4 & Hsq).
  split; [rewrite Hlen4; unfold b0; apply length_fmap |].
  intros k sq0 Hk.
  assert (Hk0 : b0 !! k = Some (resetSquare sq0))
    by (unfold b0; rewrite list_lookup_fmap, Hk; reflexivity).
  destruct (Hsq k _ Hk0) as (sq4 & K4 & I4 & T4 & F1 & F2 & F3 & F4 & F5).
  rewrite resetSquare_id in *. rewrite resetSquare_baseType in T4.
  exists sq4. split; [exact K4 |]. split; [exact I4 |]. split; [exact T4 |].
  split; [exact F1 |]. split; [exact F2 |]. split; [exact F3 |].
  split; [exact F4 |].
  intros Hout. rewrite (F5 Hout). unfold resetSquare.
  destruct (decide (baseType sq0 = normal)) as [| Hfix]; [reflexivity |].
  cbn. apply Hplain; [| exact Hfix].
  apply list_elem_of_lookup. exists k. exact Hk.
Qed.

(** C9. After [setupLapEffects], on a board whose squares sit at their index
    and whose fixed squares carry no effect, with samples in [0,1) and
    quotas with [0 <= min <= max] (conditions that hold all along a run, see
    [runCommands_boardReady]): no square at a corner id, and no square whose
    base type is not [normal], carries a dynamic effect;
    the numbers of bad, dice-or-money and pick-a-die squares on the board
    are each at most the configured maximum, and at least the configured
    minimum unless the squares of the board that can take an effect (the
    normal squares off the corners, counted on the board as it was) ran out
    at that quota; every such square that is left gets money, so that the
    four counts add up to their number; and the ids drawn for the quotas
    and those left for money squares are pairwise distinct, every square
    carrying the effect of the one list its id is in. *)
Theorem lap_effects_within_quotas (s : State) (c : nat) :
  indexed (boardSquares s) ->
  plainFixed (boardSquares s) ->
  unitSamples ->
  quotasOK (currentStageConfig s) ->
  let r := setupLapEffects_run rnd s c in
  let board := boardSquares (fst (setupLapEffects rnd s c)) in
  let config := currentStageConfig s in
  let total := freeSquares s in
  let nb := countEffect temp_bad_lap board in
  let nc := countEffect choice_dice_money board in
  let np := countEffect choice_pick_die board in
  (forall sq : Square,
     sq ∈ board -> id sq ∈ cornerSquareIds s \/ baseType sq <> normal ->
     currentEffectType sq = none) /\
  (nb + nc + np + countMoney board)%nat = total /\
  (Z.of_nat nb <= maxBadSquares config /\
   (minBadSquares config <= Z.of_nat nb \/ nb = total)) /\
  (Z.of_nat nc <= maxChoiceDiceMoneySquares config /\
   (minChoiceDiceMoneySquares config <= Z.of_nat nc \/
    (nb + nc)%nat = total)) /\
  (Z.of_nat np <= maxChoicePickDieSquares config /\
   (minChoicePickDieSquares config <= Z.of_nat np \/
    (nb + nc + np)%nat = total)) /\
  (nb = length (badIds r) /\ nc = length (choiceIds r) /\
   np = length (pickIds r)) /\
  NoDup (badIds r ++ choiceIds r ++ pickIds r ++ moneyIds r) /\
  (forall sq : Square,
     sq ∈ board ->
     (id sq ∈ badIds r -> currentEffectType sq = temp_bad_lap) /\
     (id sq ∈ choiceIds r -> currentEffectType sq = choice_dice_money) /\
     (id sq ∈ pickIds r -> currentEffectType sq = choice_pick_die) /\
     (id sq ∈ moneyIds r ->
      currentEffectType sq = huge_money \/
      currentEffectType sq = normal_money)).
Proof.
  intros Hix Hplain Hu Hq.
  pose proof (setupLapEffects_run_passes s c Hix Hplain Hu Hq) as H.
  cbv zeta in H. cbv zeta.
  change (fst (setupLapEffects rnd s c))
    with (lapStore (setupLapEffects_run rnd s c)).
  rewrite candidate_count in H.
  set (r := setupLapEffects_run rnd s c) in *.
  destruct H as (Hall & Bb & Bc & Bp & Hlen & Hsq).
  set (board := boardSquares (lapStore r)) in *.
  assert (Hperm : badIds r ++ choiceIds r ++ pickIds r ++ moneyIds r
                  ≡ₚ candidateSquareIds s).
  { rewrite <- Hall, !reverse_Permutation. symmetry.
    etransitivity; [apply Permutation_app_comm |].
    rewrite (app_assoc (badIds r)), (app_assoc (badIds r ++ choiceIds r)).
    apply Permutation_app_tail.
    etransitivity; [apply Permutation_app_comm |].
    apply Permutation_app_tail. apply Permutation_app_comm. }
  assert (Hnd : NoDup (badIds r ++ choiceIds r ++ pickIds r ++ moneyIds r))
    by (rewrite Hperm; apply candidate_NoDup; exact Hix).
  (* every square of the new board, with the square it comes from *)
  assert (Hback : forall (k : nat) (sq : Square),
            board !! k = Some sq ->
            exists sq0, boardSquares s !! k = Some sq0 /\ id sq = id sq0 /\
              baseType sq = baseType sq0 /\
              (id sq0 ∈ badIds r -> currentEffectType sq = temp_bad_lap) /\
              (id sq0 ∈ choiceIds r ->
               currentEffectType sq = choice_dice_money) /\
              (id sq0 ∈ pickIds r -> currentEffectType sq = choice_pick_die) /\
              (id sq0 ∈ moneyIds r ->
               currentEffectType sq = huge_money \/
               currentEffectType sq = normal_money) /\
              (id sq0 ∉ badIds r ++ choiceIds r ++ pickIds r ++ moneyIds r ->
               currentEffectType sq = none)).
  { intros k sq Hk.
    destruct (boardSquares s !! k) as [sq0 |] eqn:E.
    - destruct (Hsq k sq0 E) as (sq4 & K4 & I4 & T4 & F).
      rewrite K4 in Hk. injection Hk as <-.
      exists sq0. split; [reflexivity |]. split; [exact I4 |].
      split; [exact T4 | exact F].
    - apply lookup_ge_None in E. apply lookup_lt_Some in Hk. lia. }
  assert (Hix4 : indexed board).
  { intros k sq Hk. destruct (Hback k sq Hk) as (sq0 & K0 & -> & _).
    exact (Hix k sq0 K0). }
  assert (Hnormal : forall sq : Square,
            sq ∈ board ->
            id sq ∈ badIds r ++ choiceIds r ++ pickIds r ++ moneyIds r ->
            baseType sq = normal).
  { intros sq Hin Hid. apply list_elem_of_lookup in Hin.
    destruct Hin as [k Hk].
    destruct (Hback k sq Hk) as (sq0 & K0 & I0 & T0 & _).
    rewrite Hperm in Hid.
    destruct (candidate_elem s _ Hid) as (_ & k' & sq1 & K1 & I1 & T1).
    assert (k' = k).
    { pose proof (Hix k sq0 K0). pose proof (Hix k' sq1 K1). lia. }
    subst k'. congruence. }
  assert (Hcat : forall sq : Square,
            sq ∈ board ->
            (id sq ∈ badIds r -> currentEffectType sq = temp_bad_lap) /\
            (id sq ∈ choiceIds r -> currentEffectType sq = choice_dice_money) /\
            (id sq ∈ pickIds r -> currentEffectType sq = choice_pick_die) /\
            (id sq ∈ moneyIds r ->
             currentEffectType sq = huge_money \/
             currentEffectType sq = normal_money) /\
            (id sq ∉ badIds r ++ choiceIds r ++ pickIds r ++ moneyIds r ->
             currentEffectType sq = none)).
  { intros sq Hin. apply list_elem_of_lookup in Hin. destruct Hin as [k Hk].
    destruct (Hback k sq Hk) as (sq0 & _ & -> & _ & F). exact F. }
  assert (Hsub : forall x : Z,
            x ∈ badIds r ++ choiceIds r ++ pickIds r ++ moneyIds r ->
            exists sq, sq ∈ board /\ id sq = x).
  { intros x Hx. rewrite Hperm in Hx.
    destruct (candidate_elem s x Hx) as (_ & k & sq0 & K0 & Hid & _).
    destruct (Hsq k sq0 K0) as (sq4 & K4 & I4 & _).
    exists sq4. split; [| congruence].
    apply list_elem_of_lookup. exists k. exact K4. }
  apply NoDup_app in Hnd as Hnd1. destruct Hnd1 as (Nb & Db & Hnd1).
  apply NoDup_app in Hnd1. destruct Hnd1 as (Nc & Dc & Hnd1).
  apply NoDup_app in Hnd1. destruct Hnd1 as (Np & Dp & Nm).
  assert (Cb : countEffect temp_bad_lap board = length (badIds r)).
  { apply count_by_ids; [exact Hix4 | exact Nb | |].
    - intros x Hx. apply Hsub. rewrite !elem_of_app. tauto.
    - intros sq Hin. destruct (Hcat sq Hin) as (F1 & F2 & F3 & F4 & F5).
      split; [| exact F1]. intros He.
      destruct (decide (id sq ∈ badIds r)) as [| N1]; [assumption |].
      destruct (decide (id sq ∈ choiceIds r)) as [I | N2];
        [rewrite (F2 I) in He; discriminate |].
      destruct (decide (id sq ∈ pickIds r)) as [I | N3];
        [rewrite (F3 I) in He; discriminate |].
      destruct (decide (id sq ∈ moneyIds r)) as [I | N4];
        [destruct (F4 I) as [E | E]; rewrite E in He; discriminate |].
      rewrite F5 in He; [discriminate | rewrite !elem_of_app; tauto]. }
  assert (Cc : countEffect choice_dice_money board = length (choiceIds r)).
  { apply count_by_ids; [exact Hix4 | exact Nc | |].
    - intros x Hx. apply Hsub. rewrite !elem_of_app. tauto.
    - intros sq Hin. destruct (Hcat sq Hin) as (F1 & F2 & F3 & F4 & F5).
      split; [| exact F2]. intros He.
      destruct (decide (id sq ∈ choiceIds r)) as [| N2]; [assumption |].
      destruct (decide (id sq ∈ badIds r)) as [I | N1];
        [rewrite (F1 I) in He; discriminate |].
      destruct (decide (id sq ∈ pickIds r)) as [I | N3];
        [rewrite (F3 I) in He; discriminate |].
      destruct (decide (id sq ∈ moneyIds r)) as [I | N4];
        [destruct (F4 I) as [E | E]; rewrite E in He; discriminate |].
      rewrite F5 in He; [discriminate | rewrite !elem_of_app; tauto]. }
  assert (Cp : countEffect choice_pick_die board = length (pickIds r)).
  { apply count_by_ids; [exact Hix4 | exact Np | |].
    - intros x Hx. apply Hsub. rewrite !elem_of_app. tauto.
    - intros sq Hin. destruct (Hcat sq Hin) as (F1 & F2 & F3 & F4 & F5).
      split; [| exact F3]. intros He.
      destruct (decide (id sq ∈ pickIds r)) as [| N3]; [assumption |].
      destruct (decide (id sq ∈ badIds r)) as [I | N1];
        [rewrite (F1 I) in He; discriminate |].
      destruct (decide (id sq ∈ choiceIds r)) as [I | N2];
        [rewrite (F2 I) in He; discriminate |].
      destruct (decide (id sq ∈ moneyIds r)) as [I | N4];
        [destruct (F4 I) as [E | E]; rewrite E in He; discriminate |].
      rewrite F5 in He; [discriminate | rewrite !elem_of_app; tauto]. }
  assert (Cm : countMoney board = length (moneyIds r)).
  { apply count_where_ids; [exact Hix4 | exact Nm | |].
    - intros x Hx. apply Hsub. rewrite !elem_of_app. tauto.
    - intros sq Hin. destruct (Hcat sq Hin) as (F1 & F2 & F3 & F4 & F5).
      split; [| exact F4]. intros He.
      destruct (decide (id sq ∈ moneyIds r)) as [| N4]; [assumption |].
      destruct (decide (id sq ∈ badIds r)) as [I | N1];
        [rewrite (F1 I) in He; destruct He; discriminate |].
      destruct (decide (id sq ∈ choiceIds r)) as [I | N2];
        [rewrite (F2 I) in He; destruct He; discriminate |].
      destruct (decide (id sq ∈ pickIds r)) as [I | N3];
        [rewrite (F3 I) in He; destruct He; discriminate |].
      rewrite F5 in He; [destruct He; discriminate |].
      rewrite !elem_of_app; tauto. }
  rewrite Cb, Cc, Cp, Cm.
  split.
  { intros sq Hin Hfixed. destruct (Hcat sq Hin) as (_ & _ & _ & _ & F5).
    apply F5. intros Hid. destruct Hfixed as [Hcorner | Hbase].
    - rewrite Hperm in Hid.
      destruct (candidate_elem s _ Hid) as [Hnot _]. exact (Hnot Hcorner).
    - exact (Hbase (Hnormal sq Hin Hid)). }
  split.
  { rewrite <- candidate_count, <- Hperm, !length_app. lia. }
  split; [exact Bb |]. split; [exact Bc |]. split; [exact Bp |].
  split; [repeat split; reflexivity |].
  split; [exact Hnd |].
  intros sq Hin. destruct (Hcat sq Hin) as (F1 & F2 & F3 & F4 & _).
  repeat split; assumption.
Qed.

(** The board [generateBoardLayout] makes meets the two conditions on the
    board, and [setupLapEffects] keeps them, so they hold at every lap. *)
Lemma generateBoardLayout_ready (s : State) :
  indexed (boardSquares (generateBoardLayout s)) /\
  plainFixed (boardSquares (generateBoardLayout s)).
Proof.
  unfold generateBoardLayout. state_simpl. split.
  - intros k sq Hk. rewrite list_lookup_fmap in Hk.
    destruct (seqZ 0 (totalBoardSquares s) !! k) as [i |] eqn:E;
      [| discriminate].
    apply lookup_seqZ in E. injection Hk as <-. cbn. lia.
  - intros sq Hin _. apply list_elem_of_fmap in Hin.
    destruct Hin as (i & -> & _). reflexivity.
Qed.

Lemma setupLapEffects_ready (s : State) (c : nat) :
  indexed (boardSquares s) -> plainFixed (boardSquares s) ->
  unitSamples -> quotasOK (currentStageConfig s) ->
  indexed (boardSquares (fst (setupLapEffects rnd s c))) /\
  plainFixed (boardSquares (fst (setupLapEffects rnd s c))).
Proof.
  intros Hix Hplain Hu Hq.
  pose proof (setupLapEffects_run_passes s c Hix Hplain Hu Hq) as H.
  cbv zeta in H.
  change (fst (setupLapEffects rnd s c))
    with (lapStore (setupLapEffects_run rnd s c)).
  set (r := setupLapEffects_run rnd s c) in *.
  destruct H as (Hall & _ & _ & _ & Hlen & Hsq).
  assert (Hback : forall (k : nat) (sq : Square),
            boardSquares (lapStore r) !! k = Some sq ->
            exists sq0, boardSquares s !! k = Some sq0 /\
                        boardSquares (lapStore r) !! k = Some sq).
  { intros k sq Hk. destruct (boardSquares s !! k) as [sq0 |] eqn:E.
    - exists sq0. split; [reflexivity | exact Hk].
    - apply lookup_ge_None in E. apply lookup_lt_Some in Hk. lia. }
  split.
  - intros k sq Hk. destruct (Hback k sq Hk) as (sq0 & K0 & _).
    destruct (Hsq k sq0 K0) as (sq4 & K4 & I4 & _).
    rewrite K4 in Hk. injection Hk as <-. rewrite I4. exact (Hix k sq0 K0).
  - intros sq Hin Hfix. apply list_elem_of_lookup in Hin.
    destruct Hin as [k Hk]. destruct (Hback k sq Hk) as (sq0 & K0 & _).
    destruct (Hsq k sq0 K0) as (sq4 & K4 & I4 & T4 & _ & _ & _ & _ & F5).
    rewrite K4 in Hk. injection Hk as <-. apply F5.
    intros Hcand.
    assert (Hc : id sq0 ∈ candidateSquareIds s).
    { rewrite <- Hall. rewrite !reverse_Permutation.
      rewrite !elem_of_app in Hcand. rewrite !elem_of_app. tauto. }
    destruct (candidate_elem s _ Hc) as (_ & k' & sq' & K' & Hid & Hb).
    assert (k' = k) by (apply Hix in K', K0; lia). subst k'.
    rewrite K0 in K'. injection K' as <-. congruence.
Qed.

Lemma STAGE_CONFIGS_quotasOK (stage : Z) (config : StageConfig) :
  STAGE_CONFIGS stage = Some config -> quotasOK config.
Proof.
  unfold STAGE_CONFIGS.
  repeat (match goal with
          | |- context [decide ?P] => destruct (decide P)
          end);
    intros H; [injection H as <- .. | discriminate];
    unfold quotasOK; cbn; lia.
Qed.

(** ** The board stays ready through a run

    Every command leaves a board on which [lap_effects_within_quotas]
    applies, so its conditions hold at every lap of every stage. *)

Lemma clearSquare_ready (board : list Square) (k : nat) (sq : Square) :
  indexed board -> plainFixed board -> board !! k = Some sq ->
  indexed (<[k := clearSquare sq]> board) /\
  plainFixed (<[k := clearSquare sq]> board).
Proof.
  intros Hix Hplain Hk. split.
  - intros j sq' Hj. destruct (decide (j = k)) as [-> | Hne].
    + rewrite list_lookup_insert_eq in Hj
        by (eapply lookup_lt_Some; eassumption).
      injection Hj as <-. cbn. exact (Hix k sq Hk).
    + rewrite list_lookup_insert_ne in Hj by congruence. exact (Hix j sq' Hj).
  - intros sq' Hin Hfix. apply list_elem_of_lookup in Hin.
    destruct Hin as [j Hj]. destruct (decide (j = k)) as [-> | Hne].
    + rewrite list_lookup_insert_eq in Hj
        by (eapply lookup_lt_Some; eassumption).
      injection Hj as <-. reflexivity.
    + rewrite list_lookup_insert_ne in Hj by congruence.
      apply Hplain; [| exact Hfix]. apply list_elem_of_lookup. eauto.
Qed.

Lemma setupLapEffects_boardReady (s : State) (c : nat) :
  unitSamples -> boardReady s -> boardReady (fst (setupLapEffects rnd s c)).
Proof.
  intros Hu (Hix & Hplain & Hq).
  destruct (setupLapEffects_ready s c Hix Hplain Hu Hq) as [Hix' Hplain'].
  split; [exact Hix' |]. split; [exact Hplain' |].
  rewrite setupLapEffects_store. exact Hq.
Qed.

Lemma setupStage_boardReady (s : State) (c : nat) :
  unitSamples -> quotasOK (currentStageConfig s) ->
  boardReady (fst (setupStage rnd s c)).
Proof.
  intros Hu Hq. unfold setupStage.
  match goal with
  | |- context [setupLapEffects rnd ?s0 c] =>
      pose proof (setupLapEffects_boardReady s0 c Hu) as R;
      destruct (setupLapEffects rnd s0 c) as [s1 c1]
  end.
  cbn [fst] in *.
  destruct R as (Hix & Hplain & Hq1).
  - split; [apply generateBoardLayout_ready |].
    split; [apply generateBoardLayout_ready |].
    unfold generateBoardLayout. state_simpl. exact Hq.
  - split; [exact Hix |]. split; [exact Hplain | exact Hq1].
Qed.

Lemma handleSquareLanding_boardReady (s : State) (c : nat) :
  boardReady s -> boardReady (fst (handleSquareLanding rnd s c)).
Proof.
  intros (Hix & Hplain & Hq). unfold handleSquareLanding, boardReady.
  destruct (decide (isGameOver s = true \/
                    isAnimating s = true /\ gamePhase s <> landed));
    [tauto |].
  destruct (decide (playerPosition s < 0 \/
                    playerPosition s >= Z.of_nat (length (boardSquares s))));
    [state_simpl; tauto |].
  unfold at_index.
  destruct (decide (playerPosition s < 0)); [tauto |].
  destruct (boardSquares s !! Z.to_nat (playerPosition s)) as [square |] eqn:E;
    [| tauto].
  destruct (clearSquare_ready _ _ _ Hix Hplain E) as [Hix' Hplain'].
  destruct (decide (baseType square = corner_br));
    destruct (currentEffectType square); state_simpl;
    repeat (match goal with
            | |- context [match ?x with _ => _ end] => destruct x
            end; state_simpl);
    tauto.
Qed.

Lemma walk_boardReady (n : nat) (direction : Z) (s : State) (c : nat) :
  unitSamples -> boardReady s ->
  match walk rnd n direction s c with
  | walkDone s' _ _ => boardReady s'
  | walkBoss r => boardReady (store r)
  end.
Proof.
  intros Hu. revert s c. induction n as [| n IH]; intros s c Hr;
    cbn beta iota zeta delta [walk]; [exact Hr |].
  destruct (decide (isGameOver s = true)); [exact Hr |].
  destruct (decide (direction > 0)).
  - state_simpl.
    destruct (decide (Z.rem (playerPosition s + 1) (totalBoardSquares s) = 0)).
    + destruct (decide (playerLap s + 1
                        = lapsToComplete (currentStageConfig s))).
      * match goal with
        | |- context [handleBossEncounter ?s0 c] =>
            destruct (handleBossEncounter_store s0 c) as (_ & B);
            destruct (STAGE_CONFIGS (playerStage s0)); cbv zeta in B;
            rewrite B
        end; exact Hr.
      * match goal with
        | |- context [setupLapEffects rnd ?s0 c] =>
            pose proof (setupLapEffects_boardReady s0 c Hu Hr) as R;
            destruct (setupLapEffects rnd s0 c) as [s1 c1]
        end.
        exact R.
    + apply IH. rewrite creditSquare_store. exact Hr.
  - apply IH. exact Hr.
Qed.

Lemma landAndFinish_boardReady (s : State) (c : nat) :
  boardReady s -> boardReady (store (landAndFinish rnd s c)).
Proof.
  intros Hr. unfold landAndFinish.
  pose proof (handleSquareLanding_boardReady (set_gamePhase landed s) c Hr)
    as R.
  destruct (handleSquareLanding rnd (set_gamePhase landed s) c) as [s1 c1].
  cbn [fst] in R.
  repeat (match goal with
          | |- context [decide ?P] => destruct (decide P)
          end); exact R.
Qed.

Lemma movePlayer_boardReady (steps : Z) (s : State) (c : nat) :
  unitSamples -> boardReady s ->
  boardReady (store (movePlayer rnd steps s c)).
Proof.
  intros Hu Hr. unfold movePlayer.
  match goal with
  | |- context [walk rnd ?n ?d ?s0 c] =>
      pose proof (walk_boardReady n d s0 c Hu Hr) as W;
      destruct (walk rnd n d s0 c) as [r | s1 c1 passed]
  end; [exact W |].
  destruct passed; [| apply landAndFinish_boardReady; exact W].
  destruct (decide (playerLap s1 = lapsToComplete (currentStageConfig s1))).
  - match goal with
    | |- context [handleBossEncounter ?s0 c1] =>
        destruct (handleBossEncounter_store s0 c1) as (_ & B);
        destruct (STAGE_CONFIGS (playerStage s0)); cbv zeta in B;
        rewrite B
    end; exact W.
  - pose proof (setupLapEffects_boardReady s1 c1 Hu W) as R.
    destruct (setupLapEffects rnd s1 c1) as [s2 c2].
    apply landAndFinish_boardReady. exact R.
Qed.

Lemma defeatBoss_boardReady (wasBribed : bool) (s : State) (c : nat) :
  unitSamples -> boardReady s ->
  boardReady (store (defeatBoss rnd wasBribed s c)).
Proof.
  intros Hu Hr.
  assert (T : forall s0, boardReady s0 ->
              boardReady (store (defeatBoss rnd true s0 c))).
  { intros s0 R0. unfold defeatBoss. state_simpl.
    destruct (decide (playerStage s0 + 1 > MAX_STAGES)); [exact R0 |].
    destruct (STAGE_CONFIGS (playerStage s0 + 1)) as [cfg |] eqn:E;
      [| exact R0].
    match goal with
    | |- context [setupStage rnd ?s1 c] =>
        pose proof (setupStage_boardReady s1 c Hu) as R;
        destruct (setupStage rnd s1 c) as [s2 c2]
    end.
    apply R. state_simpl. exact (STAGE_CONFIGS_quotasOK _ _ E). }
  destruct wasBribed; [apply T; exact Hr |].
  destruct (currentBoss s) as [boss |] eqn:Hboss.
  - rewrite (defeatBoss_fought _ _ _ Hboss). apply T.
    unfold countVictory. state_simpl.
    destruct (decide (totalOf (currentDiceThrows s) = hp boss)); exact Hr.
  - unfold defeatBoss. state_simpl. rewrite Hboss. exact Hr.
Qed.

Lemma runCommand_boardReady (cmd : Command) (s : State) (c : nat) :
  unitSamples -> boardReady s ->
  boardReady (store (runCommand rnd cmd s c)).
Proof.
  intros Hu Hr. destruct cmd; cbn [runCommand].
  - unfold initializeGame.
    match goal with
    | |- context [setupStage rnd ?s0 c] =>
        pose proof (setupStage_boardReady s0 c Hu) as R;
        destruct (setupStage rnd s0 c) as [s1 c1]
    end.
    cbn [fst] in R.
    destruct (decide (gamePhase s1 <> awaiting_choice)); apply R, Hr.
  - destruct (decide (gamePhase s = boss_encounter)) as [Hphase | Hphase].
    + unfold rollDice. rewrite decide_True by exact Hphase.
      destruct (decide (remainingBossRolls s <= 0)); [exact Hr |].
      unfold applyBossDamage. state_simpl.
      destruct (currentBossHP s); state_simpl;
        (destruct (currentBoss s); [| exact Hr]);
        repeat (match goal with
                | |- context [decide ?P] => destruct (decide P)
                end);
        try exact Hr; apply defeatBoss_boardReady; assumption.
    + destruct (rollDice_rolling reservedDieIndex s c Hphase)
        as [-> | (_ & steps & s0 & c0 & -> & R)]; [exact Hr |].
      apply movePlayer_boardReady; [exact Hu |]. rewrite R. exact Hr.
  - unfold rollDiceForBoss.
    destruct (decide (gamePhase s <> boss_encounter)); [exact Hr |].
    destruct die as [index | d].
    + destruct (reservedDice s !! index) as [d |]; [| exact Hr].
      destruct (bossRoll d c) as [roll c1] eqn:Hroll.
      unfold bossRoll in Hroll. rewrite Hroll.
      unfold applyBossDamage. state_simpl.
      destruct (currentBossHP s); state_simpl;
        (destruct (currentBoss s); [| exact Hr]);
        repeat (match goal with
                | |- context [decide ?P] => destruct (decide P)
                end);
        try exact Hr; apply defeatBoss_boardReady; assumption.
    + destruct (bossRoll d c) as [roll c1] eqn:Hroll.
      unfold bossRoll in Hroll. rewrite Hroll.
      unfold applyBossDamage. state_simpl.
      destruct (currentBossHP s); state_simpl;
        (destruct (currentBoss s); [| exact Hr]);
        repeat (match goal with
                | |- context [decide ?P] => destruct (decide P)
                end);
        try exact Hr; apply defeatBoss_boardReady; assumption.
  - unfold playerMakesChoice.
    destruct (decide (gamePhase s <> awaiting_choice \/
                      choiceDetails s = None)); [exact Hr |].
    destruct Hr as (Hix & Hplain & Hq).
    assert (A : forall s0 : State,
              boardSquares s0 = boardSquares s ->
              currentStageConfig s0 = currentStageConfig s ->
              playerPosition s0 = playerPosition s ->
              boardReady
                (set_isAnimating false
                   (set_gamePhase rolling
                      (set_choiceDetails None
                         (if decide (playerPosition s >= 0 /\
                                     playerPosition s
                                     < Z.of_nat (length (boardSquares s0)))
                          then set_boardSquares
                                 (alter clearSquare
                                    (Z.to_nat (playerPosition s))
                                    (boardSquares s0)) s0
                          else s0))))).
    { intros s0 Eb Ec Ep. unfold boardReady.
      destruct (decide _) as [[Hlo Hhi] | _]; state_simpl; rewrite Eb, Ec;
        [| tauto].
      rewrite Eb in Hhi.
      destruct (lookup_lt_is_Some_2 (boardSquares s)
                  (Z.to_nat (playerPosition s))) as [sq Hsq]; [lia |].
      destruct (clearSquare_ready _ _ _ Hix Hplain Hsq) as [Hix' Hplain'].
      assert (Ealt : alter clearSquare (Z.to_nat (playerPosition s))
                       (boardSquares s)
                     = <[Z.to_nat (playerPosition s) := clearSquare sq]>
                         (boardSquares s)).
      { apply list_eq. intros j.
        destruct (decide (j = Z.to_nat (playerPosition s))) as [-> | Hne].
        - rewrite list_lookup_alter_eq, Hsq.
          rewrite list_lookup_insert_eq
            by (eapply lookup_lt_Some; eassumption).
          reflexivity.
        - rewrite list_lookup_alter_ne by congruence.
          rewrite list_lookup_insert_ne by congruence. reflexivity. }
      rewrite Ealt. tauto. }
    destruct (action chosenOption) as [v | d]; unfold addReservedDie.
    + exact (A (set_playerMoney (playerMoney s + v) (set_isAnimating true s))
               eq_refl eq_refl eq_refl).
    + destruct (decide (Z.of_nat (length (reservedDice (set_isAnimating true s)))
                        < maxDiceInBag (set_isAnimating true s))).
      * exact (A (set_diceObtained (diceObtained s + 1)
                    (set_reservedDice (reservedDice s ++ [d])
                       (set_isAnimating true s)))
                 eq_refl eq_refl eq_refl).
      * exact (A (set_isAnimating true s) eq_refl eq_refl eq_refl).
  - unfold payToDefeatBoss.
    destruct (currentBoss s); [| exact Hr].
    destruct (decide _); [| exact Hr].
    apply defeatBoss_boardReady; [exact Hu | exact Hr].
  - unfold resetGame.
    match goal with
    | |- context [setupStage rnd ?s0 c] =>
        pose proof (setupStage_boardReady s0 c Hu) as R;
        destruct (setupStage rnd s0 c) as [s1 c1]
    end.
    apply R. state_simpl. unfold quotasOK. cbn. lia.
Qed.

Lemma runCommands_boardReady (cmds : list Command) (s : State) (c : nat) :
  unitSamples -> boardReady s ->
  boardReady (store (runCommands rnd cmds s c)).
Proof.
  intros Hu. revert s c. induction cmds as [| cmd cmds IH]; intros s c Hr.
  - exact Hr.
  - cbn [runCommands]. apply IH. apply runCommand_boardReady; assumption.
Qed.

Lemma initialState_boardReady : boardReady initialState.
Proof.
  split; [| split].
  - intros k sq Hk. cbn in Hk. rewrite lookup_nil in Hk. discriminate.
  - intros sq Hin. cbn in Hin. inversion Hin.
  - unfold quotasOK. cbn. lia.
Qed.

End Properties.

(** * The board and its grid *)

Lemma lookup_seqZ_fmap {A} (f : Z -> A) (m len i : Z) :
  0 <= i < len ->
  at_index (f <$> seqZ m len) i = Some (f (m + i)).
Proof.
  intros Hi. unfold at_index. rewrite decide_False by lia.
  rewrite list_lookup_fmap.
  assert (H : seqZ m len !! Z.to_nat i = Some (m + i)).
  { apply lookup_seqZ. split; lia. }
  rewrite H. reflexivity.
Qed.

(** X1. On a board of at least two rows and two columns the squares are
    those of the perimeter, [2R + 2C - 4] of them; the four corner ids are
    distinct squares of the board; [generateBoardLayout] lays out one square
    per id, in order, without any effect, and the start square and the three
    corners are the only squares that are not [normal]. *)
Theorem generateBoardLayout_shape (s : State) :
  let R := rows (currentStageConfig s) in
  let C := cols (currentStageConfig s) in
  let board := boardSquares (generateBoardLayout s) in
  2 <= R -> 2 <= C ->
  totalBoardSquares s = 2 * R + 2 * C - 4 /\
  Z.of_nat (length board) = totalBoardSquares s /\
  cornerSquareIds s = [0; R - 1; R + C - 2; 2 * R + C - 3] /\
  bottomRightCornerId s = R + C - 2 /\
  NoDup (cornerSquareIds s) /\
  (forall x : Z, x ∈ cornerSquareIds s -> 0 <= x < totalBoardSquares s) /\
  forall i : Z,
    0 <= i < totalBoardSquares s ->
    at_index board i
    = Some (mkSquare i
              (if decide (i = 0) then start
               else if decide (i = R - 1) then corner_bl
               else if decide (i = R + C - 2) then corner_br
               else if decide (i = 2 * R + C - 3) then corner_tr
               else normal)
              none false None).
Proof.
  intros R C board HR HC.
  assert (Htotal : totalBoardSquares s = 2 * R + 2 * C - 4).
  { unfold totalBoardSquares. fold R C.
    rewrite decide_False by lia. cbn zeta. rewrite decide_False by lia.
    reflexivity. }
  assert (Hcorners : cornerSquareIds s = [0; R - 1; R + C - 2; 2 * R + C - 3]).
  { unfold cornerSquareIds. fold R C. rewrite decide_False by lia.
    cbn zeta. repeat f_equal; lia. }
  assert (Hbr : bottomRightCornerId s = R + C - 2).
  { unfold bottomRightCornerId. fold R C. rewrite decide_False by lia. lia. }
  split; [exact Htotal |].
  split.
  { unfold board, generateBoardLayout. state_simpl.
    rewrite length_fmap, length_seqZ. lia. }
  split; [exact Hcorners |].
  split; [exact Hbr |].
  split.
  { rewrite Hcorners.
    repeat (apply NoDup_cons; split;
            [rewrite ?elem_of_cons, elem_of_nil; lia |]).
    apply NoDup_nil_2. }
  split.
  { intros x. rewrite Hcorners, Htotal.
    rewrite !elem_of_cons, elem_of_nil. lia. }
  intros i Hi.
  unfold board, generateBoardLayout. state_simpl.
  rewrite lookup_seqZ_fmap by exact Hi.
  rewrite Hcorners, Hbr. cbn [lookup list_lookup].
  replace (0 + i) with i by lia.
  f_equal. f_equal.
  repeat match goal with
         | |- context [decide ?P] => destruct (decide P)
         end; try reflexivity; simplify_eq; try lia.
Qed.

(** X2. [getSquareGridPosition] puts every square of the board on a cell
    of the border of the [R] by [C] grid, and two squares never on the same
    cell. *)
Theorem grid_position_on_border (s : State) (i j : Z) :
  let R := rows (currentStageConfig s) in
  let C := cols (currentStageConfig s) in
  let p := GameBoard.getSquareGridPosition s i R C in
  2 <= R -> 2 <= C ->
  0 <= i < totalBoardSquares s ->
  (1 <= GameBoard.r p <= R /\ 1 <= GameBoard.c p <= C /\
   (GameBoard.r p = 1 \/ GameBoard.r p = R \/
    GameBoard.c p = 1 \/ GameBoard.c p = C)) /\
  (0 <= j < totalBoardSquares s ->
   GameBoard.getSquareGridPosition s j R C = p -> j = i).
Proof.
  intros R C p HR HC Hi.
  assert (Htotal : totalBoardSquares s = 2 * R + 2 * C - 4).
  { unfold totalBoardSquares. fold R C.
    rewrite decide_False by lia. cbn zeta. rewrite decide_False by lia.
    reflexivity. }
  unfold p, GameBoard.getSquareGridPosition. cbn zeta.
  rewrite Htotal in *.
  split.
  - repeat match goal with
           | |- context [decide ?P] => destruct (decide P)
           end; cbn [GameBoard.r GameBoard.c]; lia.
  - intros Hj.
    repeat match goal with
           | |- context [decide ?P] => destruct (decide P)
           end; intros Heq; first [lia | injection Heq; intros; lia].
Qed.

(** X3. The path of the squares is a closed loop around the grid: the
    square a forward step reaches, [(i + 1) % total] as [movePlayer] counts,
    is on a cell next to the one of square [i], in the same row or the same
    column; the start square is the top left cell and the three corners are
    the bottom left, bottom right and top right cells. *)
Theorem grid_path_is_a_loop (s : State) (i : Z) :
  let R := rows (currentStageConfig s) in
  let C := cols (currentStageConfig s) in
  let cell := fun k => GameBoard.getSquareGridPosition s k R C in
  2 <= R -> 2 <= C ->
  0 <= i < totalBoardSquares s ->
  Z.abs (GameBoard.r (cell (Z.rem (i + 1) (totalBoardSquares s)))
         - GameBoard.r (cell i))
  + Z.abs (GameBoard.c (cell (Z.rem (i + 1) (totalBoardSquares s)))
           - GameBoard.c (cell i)) = 1 /\
  cell <$> cornerSquareIds s
  = [GameBoard.mkGridPosition 1 1; GameBoard.mkGridPosition R 1;
     GameBoard.mkGridPosition R C; GameBoard.mkGridPosition 1 C].
Proof.
  intros R C cell HR HC Hi.
  assert (Htotal : totalBoardSquares s = 2 * R + 2 * C - 4).
  { unfold totalBoardSquares. fold R C.
    rewrite decide_False by lia. cbn zeta. rewrite decide_False by lia.
    reflexivity. }
  split.
  - assert (Hnext : Z.rem (i + 1) (totalBoardSquares s) = 0 /\
                    i + 1 = totalBoardSquares s \/
                    Z.rem (i + 1) (totalBoardSquares s) = i + 1 /\
                    i + 1 < totalBoardSquares s).
    { destruct (decide (i + 1 = totalBoardSquares s)) as [-> | Hne].
      - left. split; [apply Z.rem_same; lia | reflexivity].
      - right. split; [apply Z.rem_small; lia | lia]. }
    destruct Hnext as [[-> Hlast] | [-> Hless]];
      unfold cell, GameBoard.getSquareGridPosition; cbn zeta;
      rewrite Htotal in *;
      repeat match goal with
             | |- context [decide ?P] => destruct (decide P)
             end; cbn [GameBoard.r GameBoard.c]; lia.
  - unfold cornerSquareIds. fold R C. rewrite decide_False by lia.
    cbn zeta. cbn [fmap list_fmap].
    unfold cell, GameBoard.getSquareGridPosition. cbn zeta. rewrite Htotal.
    repeat match goal with
           | |- context [decide ?P] => destruct (decide P)
           end; try lia; repeat f_equal; lia.
Qed.

(** * Shuffling and the amounts of a lap *)

Section Laps.

Variable rnd : nat -> Q.

(** X4. [shuffleArray] returns the elements it was given, in some order,
    and calls [Math.random()] once for every element but one. *)
Theorem shuffleArray_permutes {A} (array : list A) (c : nat) :
  fst (shuffleArray rnd array c) ≡ₚ array /\
  length (fst (shuffleArray rnd array c)) = length array /\
  snd (shuffleArray rnd array c) = (c + (length array - 1))%nat.
Proof.
  unfold shuffleArray.
  destruct (shuffleFrom_perm rnd (length array - 1) array c) as [Hp Hc].
  split; [exact Hp |]. split; [| exact Hc].
  apply Permutation_length. exact Hp.
Qed.

Lemma Qfloor_inject_mult_le (k : Z) (m : Q) (lo hi : Z) :
  (0 <= m)%Q -> lo <= k <= hi ->
  Qfloor (inject_Z lo * m) <= Qfloor (inject_Z k * m) <= Qfloor (inject_Z hi * m).
Proof.
  intros Hm [Hlo Hhi]. split; apply Qfloor_resp_le;
    apply Qmult_le_compat_r; try exact Hm;
    rewrite <- Zle_Qle; assumption.
Qed.

(** X5. What the lap set-up writes on a square.  A trap carries a penalty
    of 5 to 15 times the stage.  A money square is a huge one, worth the
    huge value, when the sample is below 0.15, and otherwise a normal one
    worth the floor of 1 to 3 times the multiplier of the stage. *)
Theorem lap_square_amounts (stage hugeValue : Z) (multiplier : Q)
    (square : Square) (c : nat) :
  unitSamples rnd -> 0 <= stage -> (0 <= multiplier)%Q ->
  (let sq := fst (assignBad rnd stage square c) in
   isTempBad sq = true /\ currentEffectType sq = temp_bad_lap /\
   exists p : Z, effectDetails sq = Some (penalty p) /\
                 5 * stage <= p <= 15 * stage) /\
  (let sq := fst (assignMoney rnd hugeValue multiplier square c) in
   if Qltb (rnd c) (15 # 100) then
     currentEffectType sq = huge_money /\
     effectDetails sq = Some (amount hugeValue)
   else
     currentEffectType sq = normal_money /\
     exists a : Z, effectDetails sq = Some (amount a) /\
                   Qfloor (1 * multiplier) <= a <= Qfloor (3 * multiplier)).
Proof.
  intros Hu Hstage Hm. split.
  - unfold assignBad.
    pose proof (getRandomInt_range rnd 5 15 c Hu ltac:(lia)) as Hr.
    destruct (getRandomInt rnd 5 15 c) as [r c'] eqn:E. cbn in Hr |- *.
    split; [reflexivity |]. split; [reflexivity |].
    exists (r * stage). split; [reflexivity | nia].
  - unfold assignMoney. cbn zeta.
    destruct (Qltb (rnd c) (15 # 100)).
    + cbn. split; reflexivity.
    + pose proof (getRandomInt_range rnd 1 3 (S c) Hu ltac:(lia)) as Hr.
      destruct (getRandomInt rnd 1 3 (S c)) as [r c'] eqn:E. cbn in Hr |- *.
      split; [reflexivity |].
      exists (Qfloor (inject_Z r * multiplier)). split; [reflexivity |].
      apply (Qfloor_inject_mult_le r multiplier 1 3 Hm Hr).
Qed.

(** ** The lap set-up keeps the squares in place *)

Lemma assignSquare_length (assign : Square -> nat -> Square * nat)
    (idx : gmap Z nat) (x : Z) (board : list Square) (c : nat) :
  length (assignSquare assign idx x board c).1 = length board.
Proof.
  unfold assignSquare.
  destruct (idx !! x) as [k |]; [| reflexivity].
  destruct (board !! k) as [square |]; [| reflexivity].
  destruct (assign square c) as [square' c']. cbn.
  apply length_insert.
Qed.

Lemma popAssign_length (assign : Square -> nat -> Square * nat)
    (idx : gmap Z nat) (n : nat) (avail : list Z) (board : list Square)
    (c : nat) :
  length (popAssign assign idx n avail board c).1.2 = length board.
Proof.
  revert avail board c. induction n as [| n IH]; intros avail board c.
  - reflexivity.
  - cbn [popAssign]. destruct (last avail) as [x |]; [| reflexivity].
    pose proof (assignSquare_length assign idx x board c) as Hl.
    destruct (assignSquare assign idx x board c) as [board' c'].
    specialize (IH (removelast avail) board' c').
    destruct (popAssign assign idx n (removelast avail) board' c')
      as [[[popped avail'] board''] c''].
    cbn in *. congruence.
Qed.

Lemma assignRest_length (hugeValue : Z) (multiplier : Q) (idx : gmap Z nat)
    (avail : list Z) (board : list Square) (c : nat) :
  length (assignRest rnd hugeValue multiplier idx avail board c).1
  = length board.
Proof.
  revert board c. induction avail as [| x avail IH]; intros board c.
  - reflexivity.
  - cbn [assignRest].
    pose proof (assignSquare_length (assignMoney rnd hugeValue multiplier)
                  idx x board c) as Hl.
    destruct (assignSquare (assignMoney rnd hugeValue multiplier) idx x
                board c) as [board' c'].
    rewrite IH. exact Hl.
Qed.

Lemma setupLapEffects_length (s : State) (c : nat) :
  length (boardSquares (fst (setupLapEffects rnd s c)))
  = length (boardSquares s).
Proof.
  unfold setupLapEffects, setupLapEffects_run. cbn zeta.
  destruct (shuffleArray rnd _ c) as [avail0 c0].
  destruct (getRandomInt rnd _ _ c0) as [n1 c1].
  match goal with
  | |- context [popAssign ?a ?i ?n ?av ?b ?cc] =>
      pose proof (popAssign_length a i n av b cc) as H1;
      destruct (popAssign a i n av b cc) as [[[bad avail1] board1] c2]
  end.
  destruct (getRandomInt rnd _ _ c2) as [n2 c3].
  match goal with
  | |- context [popAssign ?a ?i ?n ?av ?b ?cc] =>
      pose proof (popAssign_length a i n av b cc) as H2;
      destruct (popAssign a i n av b cc) as [[[choice avail2] board2] c4]
  end.
  destruct (getRandomInt rnd _ _ c4) as [n3 c5].
  match goal with
  | |- context [popAssign ?a ?i ?n ?av ?b ?cc] =>
      pose proof (popAssign_length a i n av b cc) as H3;
      destruct (popAssign a i n av b cc) as [[[pick avail3] board3] c6]
  end.
  match goal with
  | |- context [assignRest rnd ?h ?m ?i ?av ?b ?cc] =>
      pose proof (assignRest_length h m i av b cc) as H4;
      destruct (assignRest rnd h m i av b cc) as [board4 c7]
  end.
  state_simpl. cbn in *.
  rewrite H4, H3, H2, H1. apply length_fmap.
Qed.

Lemma generateBoardLayout_length (s : State) :
  Z.of_nat (length (boardSquares (generateBoardLayout s)))
  = Z.max 0 (totalBoardSquares s).
Proof.
  unfold generateBoardLayout. state_simpl.
  rewrite length_fmap, length_seqZ. lia.
Qed.

Lemma setupStage_length (s : State) (c : nat) :
  Z.of_nat (length (boardSquares (fst (setupStage rnd s c))))
  = Z.max 0 (totalBoardSquares s).
Proof.
  unfold setupStage. cbn zeta.
  match goal with
  | |- context [setupLapEffects rnd ?s0 c] =>
      pose proof (setupLapEffects_length s0 c) as Hl;
      destruct (setupLapEffects rnd s0 c) as [s1 c1]
  end.
  state_simpl. cbn [fst] in Hl. rewrite Hl.
  rewrite generateBoardLayout_length. reflexivity.
Qed.

(** The lap set-up reads the board, the configuration and the stage of the
    store, and nothing else of it. *)
Lemma setupLapEffects_run_ext (s s' : State) (c : nat) :
  boardSquares s = boardSquares s' ->
  currentStageConfig s = currentStageConfig s' ->
  playerStage s = playerStage s' ->
  boardSquares (lapStore (setupLapEffects_run rnd s c))
  = boardSquares (lapStore (setupLapEffects_run rnd s' c)) /\
  lapCursor (setupLapEffects_run rnd s c)
  = lapCursor (setupLapEffects_run rnd s' c).
Proof.
  intros Hb Hc Hs.
  unfold setupLapEffects_run, candidateSquareIds, cornerSquareIds,
    currentHugeMoneyValue.
  state_simpl. rewrite Hb, Hc, Hs.
  repeat match goal with
         | |- context [let '(_, _) := ?e in _] => destruct e
         end.
  state_simpl. split; reflexivity.
Qed.

End Laps.

(** * Landing on a square *)

Section Landing.

Variable rnd : nat -> Q.

Lemma landsOn_range (s : State) (square : Square) :
  landsOn s square ->
  0 <= playerPosition s < Z.of_nat (length (boardSquares s)) /\
  boardSquares s !! Z.to_nat (playerPosition s) = Some square.
Proof.
  intros (_ & _ & Hsq). unfold at_index in Hsq.
  destruct (decide (playerPosition s < 0)) as [| Hpos]; [discriminate |].
  split; [| exact Hsq].
  apply lookup_lt_Some in Hsq. lia.
Qed.

(** The landing, once its guards pass: the charge of the corner, then the
    effect of the square.  The two writings part on the dice-or-money
    square, where they word the offer differently. *)
Lemma handleSquareLanding_cases (s : State) (c : nat) (square : Square) :
  landsOn s square ->
  let r := applySquareEffect rnd (boardSquare (Z.to_nat (playerPosition s)))
             (cornerCharge square s) c in
  raised r = false /\
  snd (handleSquareLanding rnd s c) = cursor r /\
  (currentEffectType square <> choice_dice_money ->
   handleSquareLanding rnd s c = (store r, cursor r)) /\
  (currentEffectType square = choice_dice_money ->
   exists d : Die,
     choiceDetails (store r)
     = Some (mkChoice dice_vs_money "Choose your reward:"
               [moneyOption s;
                mkOption ("Get a " +:+ dieLabel d +:+ " Die")
                  (get_chosen_die d) (visual_die d)]) /\
     offeredDie rnd c = d /\
     fst (handleSquareLanding rnd s c)
     = set_choiceDetails
         (Some (mkChoice dice_vs_money "Choose reward:"
                  [moneyOption s;
                   mkOption ("Get " +:+ dieLabel d +:+ " Die")
                     (get_chosen_die d) (visual_die d)]))
         (store r)).
Proof.
  intros Hon. pose proof (landsOn_range s square Hon) as [Hrange Hk].
  destruct Hon as (Hover & Hanim & Hsq).
  unfold handleSquareLanding.
  destruct (decide (isGameOver s = true \/
                    (isAnimating s = true /\ gamePhase s <> landed)))
    as [[Hbad | [Ha Hp]] | _];
    [congruence | exfalso; apply Hp, Hanim, Ha |].
  destruct (decide (playerPosition s < 0 \/
                    playerPosition s >= Z.of_nat (length (boardSquares s))))
    as [Hbad | _]; [lia |].
  rewrite Hsq.
  assert (Hk' : boardSquares (cornerCharge square s)
                  !! Z.to_nat (playerPosition s) = Some square).
  { unfold cornerCharge. destruct (decide (baseType square = corner_br));
      state_simpl; exact Hk. }
  assert (Hpos' : playerPosition (cornerCharge square s) = playerPosition s).
  { unfold cornerCharge. destruct (decide (baseType square = corner_br));
      reflexivity. }
  assert (Hstage : moneyOption (cornerCharge square s) = moneyOption s).
  { unfold cornerCharge. destruct (decide (baseType square = corner_br));
      reflexivity. }
  unfold applySquareEffect, handleTempBadLap, handleHugeMoney,
    handleChoiceDiceMoney, handleChoicePickDie, squareOf, offeredDie.
  rewrite Hk'. fold (cornerCharge square s).
  generalize dependent (cornerCharge square s). intros s1 Hk1 Hpos1 Hstage.
  destruct (currentEffectType square).
  - repeat split; try reflexivity. discriminate.
  - destruct (effectDetails square) as [[p | a] |];
      [destruct (decide (p = 0)) | |];
      repeat match goal with
             | |- context [getRandomInt rnd ?a ?b ?cc] =>
                 destruct (getRandomInt rnd a b cc)
             end; repeat split; try reflexivity; discriminate.
  - state_simpl. rewrite Hpos1. repeat split; try reflexivity. discriminate.
  - repeat split; try reflexivity. discriminate.
  - cbn zeta.
    change (moneyOption (set_gamePhase awaiting_choice s1))
      with (moneyOption s1).
    rewrite Hstage.
    destruct (Qltb (rnd c) (6 # 10)).
    + destruct (getRandomInt rnd 2 6 (S c)) as [v c1].
      split; [reflexivity |]. split; [reflexivity |].
      split; [intros H; contradiction |].
      intros _. exists (DieFixed v). repeat split; reflexivity.
    + destruct (Qltb (rnd c) (85 # 100));
        (split; [reflexivity |]); (split; [reflexivity |]);
        (split; [intros H; contradiction |]);
        intros _; eexists; repeat split; reflexivity.
  - cbn zeta. destruct (getRandomInt rnd 1 6 c) as [v c1].
    destruct (shuffleArray rnd _ c1) as [pool c2].
    destruct (getRandomInt rnd 3 4 c2) as [n c3].
    repeat split; try reflexivity. discriminate.
Qed.

Lemma handleSquareLanding_other (s : State) (c : nat) (square : Square) :
  landsOn s square ->
  currentEffectType square <> choice_dice_money ->
  handleSquareLanding rnd s c
  = (store (applySquareEffect rnd
              (boardSquare (Z.to_nat (playerPosition s)))
              (cornerCharge square s) c),
     cursor (applySquareEffect rnd
               (boardSquare (Z.to_nat (playerPosition s)))
               (cornerCharge square s) c)).
Proof.
  intros Hon Hne.
  destruct (handleSquareLanding_cases s c square Hon) as (_ & _ & H & _).
  exact (H Hne).
Qed.

(** X6. [handleSquareLanding], once its guards pass, against the charge of
    the bottom right corner followed by [applySquareEffect] on the square
    the player stands on.  Neither raises an error and both draw the same
    samples.  On every square but a dice-or-money one they leave the same
    store.  On a dice-or-money square they offer the same money and the
    same die and agree on every field but [choiceDetails], where the
    wording differs: the landing stores the message "Choose reward:" and the
    text "Get ... Die", the separate handler "Choose your reward:" and
    "Get a ... Die"; so there the two stores are never the same.  The
    stores are compared on the fields of the embedding: [gameMessage], which
    the landing writes and the handlers leave to their caller, is not one
    of them. *)
Theorem applySquareEffect_agrees (s : State) (c : nat) (square : Square) :
  landsOn s square ->
  let r := applySquareEffect rnd (boardSquare (Z.to_nat (playerPosition s)))
             (cornerCharge square s) c in
  let landing := handleSquareLanding rnd s c in
  raised r = false /\
  snd landing = cursor r /\
  (currentEffectType square <> choice_dice_money -> fst landing = store r) /\
  (currentEffectType square = choice_dice_money ->
   fst landing <> store r /\
   set_choiceDetails None (fst landing) = set_choiceDetails None (store r) /\
   exists d : Die,
     choiceDetails (fst landing)
     = Some (mkChoice dice_vs_money "Choose reward:"
               [mkOption ("Get $" +:+ pretty (10 * playerStage s))
                  (get_money_bonus (10 * playerStage s)) visual_money;
                mkOption ("Get " +:+ dieLabel d +:+ " Die")
                  (get_chosen_die d) (visual_die d)]) /\
     choiceDetails (store r)
     = Some (mkChoice dice_vs_money "Choose your reward:"
               [mkOption ("Get $" +:+ pretty (10 * playerStage s))
                  (get_money_bonus (10 * playerStage s)) visual_money;
                mkOption ("Get a " +:+ dieLabel d +:+ " Die")
                  (get_chosen_die d) (visual_die d)])).
Proof.
  intros Hon. cbv zeta.
  destruct (handleSquareLanding_cases s c square Hon)
    as (Hr & Hc & Hother & Hchoice).
  split; [exact Hr |]. split; [exact Hc |].
  split; [intros Hne; rewrite (Hother Hne); reflexivity |].
  intros Heff. destruct (Hchoice Heff) as (d & Hcd & _ & Hl).
  set (r := applySquareEffect rnd _ _ c) in *.
  split.
  { intros E. rewrite E in Hl. apply (f_equal choiceDetails) in Hl.
    rewrite Hcd in Hl. state_simpl. discriminate. }
  split.
  { rewrite Hl. destruct (store r). reflexivity. }
  exists d. split; [rewrite Hl; reflexivity | exact Hcd].
Qed.

(** X7. A huge money square pays once: the landing adds its amount to the
    money and clears the square's effect and details, and a second landing
    on it changes nothing. *)
Theorem huge_money_paid_once (s : State) (c : nat) (square : Square) :
  landsOn s square ->
  baseType square <> corner_br ->
  currentEffectType square = huge_money ->
  let s1 := fst (handleSquareLanding rnd s c) in
  handleSquareLanding rnd s c
  = (set_boardSquares
       (<[Z.to_nat (playerPosition s) := clearSquare square]> (boardSquares s))
       (set_playerMoney (playerMoney s + hugeGainOf square s) s), c) /\
  at_index (boardSquares s1) (playerPosition s1) = Some (clearSquare square) /\
  currentEffectType (clearSquare square) = none /\
  handleSquareLanding rnd s1 c = (s1, c).
Proof.
  intros Hon Hbase Heff s1.
  pose proof (landsOn_range s square Hon) as [Hrange Hk].
  assert (H1 : handleSquareLanding rnd s c
               = (set_boardSquares
                    (<[Z.to_nat (playerPosition s) := clearSquare square]>
                       (boardSquares s))
                    (set_playerMoney (playerMoney s + hugeGainOf square s) s),
                  c)).
  { rewrite (handleSquareLanding_other s c square Hon)
      by (rewrite Heff; discriminate).
    unfold applySquareEffect, handleHugeMoney, squareOf, cornerCharge.
    rewrite decide_False by exact Hbase. rewrite Hk, Heff.
    reflexivity. }
  split; [exact H1 |].
  assert (Hat : at_index (boardSquares s1) (playerPosition s1)
                = Some (clearSquare square)).
  { unfold s1. rewrite H1. state_simpl. unfold at_index.
    rewrite decide_False by lia.
    apply list_lookup_insert_eq. apply lookup_lt_Some in Hk. exact Hk. }
  split; [exact Hat |]. split; [reflexivity |].
  assert (Hon1 : landsOn s1 (clearSquare square)).
  { destruct Hon as (Hover & Hanim & _).
    unfold s1 in *. rewrite H1 in *. state_simpl.
    repeat split; assumption. }
  rewrite (handleSquareLanding_other s1 c (clearSquare square) Hon1)
    by discriminate.
  unfold applySquareEffect, squareOf, cornerCharge.
  rewrite decide_False by exact Hbase.
  unfold at_index in Hat.
  destruct (decide (playerPosition s1 < 0)); [discriminate |].
  rewrite Hat. reflexivity.
Qed.

(** X8. The charges of a landing.  A trap that carries its penalty takes
    exactly that from the money and stays armed, so that a second landing
    takes it again; the bottom right corner takes 20.  Nothing keeps the
    money from going below zero. *)
Theorem landing_charges (s : State) (c : nat) (square : Square) :
  landsOn s square ->
  (forall p : Z,
     baseType square <> corner_br ->
     currentEffectType square = temp_bad_lap ->
     effectDetails square = Some (penalty p) -> p <> 0 ->
     handleSquareLanding rnd s c = (set_playerMoney (playerMoney s - p) s, c) /\
     handleSquareLanding rnd (set_playerMoney (playerMoney s - p) s) c
     = (set_playerMoney (playerMoney s - p - p) s, c)) /\
  (baseType square = corner_br ->
   currentEffectType square = none ->
   handleSquareLanding rnd s c = (set_playerMoney (playerMoney s - 20) s, c)).
Proof.
  intros Hon. pose proof (landsOn_range s square Hon) as [Hrange Hk].
  split.
  - intros p Hbase Heff Hdet Hp.
    assert (Hgen : forall m : Z,
               handleSquareLanding rnd (set_playerMoney m s) c
               = (set_playerMoney (m - p) s, c)).
    { intros m.
      assert (Hon' : landsOn (set_playerMoney m s) square).
      { destruct Hon as (Hover & Hanim & Hsq). repeat split; assumption. }
      rewrite (handleSquareLanding_other _ c square Hon')
        by (rewrite Heff; discriminate).
      unfold applySquareEffect, handleTempBadLap, squareOf, cornerCharge.
      rewrite decide_False by exact Hbase. state_simpl.
      rewrite Hk, Heff, Hdet. rewrite decide_False by exact Hp.
      reflexivity. }
    split.
    + rewrite <- (Hgen (playerMoney s)). f_equal.
      destruct s; reflexivity.
    + apply Hgen.
  - intros Hbase Heff.
    rewrite (handleSquareLanding_other s c square Hon)
      by (rewrite Heff; discriminate).
    unfold applySquareEffect, squareOf, cornerCharge.
    rewrite decide_True by exact Hbase. state_simpl.
    rewrite Hk, Heff. reflexivity.
Qed.

(** X9. The offer of a dice-or-money square, for samples in [0,1): the
    phase waits for the choice, and the offer is the money bonus of 10 times
    the stage against one die, which is a fixed die of 2 to 6, a reverse
    random die or a d20; the offer is stored with the message
    "Choose reward:", the money option shown as money and the die option
    shown as that die.  The square keeps its effect until the choice is
    made. *)
Theorem dice_or_money_offer (s : State) (c : nat) (square : Square) :
  unitSamples rnd ->
  landsOn s square ->
  currentEffectType square = choice_dice_money ->
  let s1 := fst (handleSquareLanding rnd s c) in
  gamePhase s1 = awaiting_choice /\
  boardSquares s1 = boardSquares s /\
  exists d : Die,
    choiceDetails s1
    = Some (mkChoice dice_vs_money "Choose reward:"
              [mkOption ("Get $" +:+ pretty (10 * playerStage s))
                 (get_money_bonus (10 * playerStage s)) visual_money;
               mkOption ("Get " +:+ dieLabel d +:+ " Die")
                 (get_chosen_die d) (visual_die d)]) /\
    (d = DieReverseRandom \/ d = DieD20 \/
     exists v : Z, d = DieFixed v /\ 2 <= v <= 6).
Proof.
  intros Hu Hon Heff s1.
  pose proof (landsOn_range s square Hon) as [Hrange Hk].
  destruct (handleSquareLanding_cases s c square Hon) as (_ & _ & _ & H).
  destruct (H Heff) as (d & Hcd & Hd & Hl). clear H.
  unfold s1. rewrite Hl. state_simpl.
  assert (Hr : gamePhase
                 (store (applySquareEffect rnd
                           (boardSquare (Z.to_nat (playerPosition s)))
                           (cornerCharge square s) c)) = awaiting_choice /\
               boardSquares
                 (store (applySquareEffect rnd
                           (boardSquare (Z.to_nat (playerPosition s)))
                           (cornerCharge square s) c)) = boardSquares s).
  { clear Hcd Hl.
    unfold applySquareEffect, handleChoiceDiceMoney, squareOf, cornerCharge.
    destruct (decide (baseType square = corner_br)); state_simpl;
      rewrite Hk, Heff; cbn zeta;
      (destruct (Qltb (rnd c) (6 # 10));
       [destruct (getRandomInt rnd 2 6 (S c)) as [v c1]
       | destruct (Qltb (rnd c) (85 # 100))]);
      state_simpl; split; reflexivity. }
  destruct Hr as [Hphase Hboard].
  split; [exact Hphase |]. split; [exact Hboard |].
  exists d. split; [reflexivity |].
  rewrite <- Hd. unfold offeredDie.
  pose proof (getRandomInt_range rnd 2 6 (S c) Hu ltac:(lia)) as Hv.
  destruct (Qltb (rnd c) (6 # 10)).
  - destruct (getRandomInt rnd 2 6 (S c)) as [v c1]. cbn [fst] in *.
    right. right. exists v. split; [reflexivity | exact Hv].
  - destruct (Qltb (rnd c) (85 # 100)); cbn [fst]; auto.
Qed.

(** ** The pick-a-die offer *)

Lemma pickOptions_take (numOffer : Z) (dPool : list Die)
    (finalOpts : list ChoiceOption) (sigs : list (DICE_TYPES * option Z)) :
  NoDup (dieSignature <$> dPool) ->
  (forall d : Die, d ∈ dPool -> dieSignature d ∉ sigs) ->
  Z.of_nat (length finalOpts) <= numOffer ->
  pickOptions numOffer dPool finalOpts sigs
  = finalOpts
    ++ (poolOption
          <$> take (Z.to_nat numOffer - length finalOpts) dPool).
Proof.
  revert finalOpts sigs.
  induction dPool as [| d dPool IH]; intros finalOpts sigs Hnd Hfresh Hlen.
  - cbn. rewrite take_nil. cbn. rewrite app_nil_r. reflexivity.
  - cbn [pickOptions].
    destruct (decide (Z.of_nat (length finalOpts) >= numOffer)) as [Hfull | Hroom].
    + replace (Z.to_nat numOffer - length finalOpts)%nat with 0%nat by lia.
      cbn. rewrite app_nil_r. reflexivity.
    + cbn zeta.
      destruct (decide (dieSignature d ∈ sigs)) as [Hin | Hnin].
      { exfalso. apply (Hfresh d); [left | exact Hin]. }
      cbn [fmap list_fmap] in Hnd. apply NoDup_cons in Hnd as [Hd Hnd].
      rewrite IH.
      * rewrite length_app. cbn [length].
        replace (Z.to_nat numOffer - length finalOpts)%nat
          with (S (Z.to_nat numOffer - (length finalOpts + 1)))%nat by lia.
        cbn [take fmap list_fmap]. rewrite <- app_assoc. reflexivity.
      * exact Hnd.
      * intros d' Hd'. rewrite elem_of_cons. intros [Heq | Hin'].
        -- apply Hd. rewrite <- Heq. apply list_elem_of_fmap.
           exists d'. split; [reflexivity | exact Hd'].
        -- apply (Hfresh d'); [right; exact Hd' | exact Hin'].
      * rewrite length_app. cbn [length]. lia.
Qed.

Lemma dicePoolOf_signatures (v : Z) : NoDup (dieSignature <$> dicePoolOf v).
Proof.
  unfold dicePoolOf, dieSignature.
  cbn [fmap list_fmap die_type die_value].
  repeat (apply NoDup_cons; split;
          [rewrite ?elem_of_cons, elem_of_nil; intuition discriminate |]).
  apply NoDup_nil_2.
Qed.

Lemma dieSignature_inj (d d' : Die) :
  dieSignature d = dieSignature d' -> d = d'.
Proof.
  destruct d, d'; unfold dieSignature; cbn; intros H; congruence.
Qed.

(** X10. The pick-a-die offer, for samples in [0,1): three or four dice,
    no two of them alike, each one of the ten of the pool (the fixed dice 1
    to 6, the d20, the reverse random die, the die of every turn and one
    reverse fixed die of 1 to 6); every option gives the die it shows, under
    the text "Die: " with the name of the die, and the message counts the
    options. *)
Theorem pick_a_die_offer (s : State) (c : nat) (square : Square) :
  unitSamples rnd ->
  landsOn s square ->
  currentEffectType square = choice_pick_die ->
  let s1 := fst (handleSquareLanding rnd s c) in
  gamePhase s1 = awaiting_choice /\
  boardSquares s1 = boardSquares s /\
  exists (dice : list Die) (v : Z),
    choiceDetails s1
    = Some (mkChoice pick_a_die
              ("Choose a die (" +:+ pretty (Z.of_nat (length dice))
               +:+ " options):")
              ((fun d => mkOption ("Die: " +:+ dieLabelDefined d)
                           (get_chosen_die d) (visual_die d)) <$> dice)) /\
    (length dice = 3%nat \/ length dice = 4%nat) /\
    NoDup dice /\
    1 <= v <= 6 /\
    forall d : Die, d ∈ dice -> d ∈ dicePoolOf v.
Proof.
  intros Hu Hon Heff s1.
  pose proof (landsOn_range s square Hon) as [Hrange Hk].
  unfold s1.
  rewrite (handleSquareLanding_other s c square Hon)
    by (rewrite Heff; discriminate).
  unfold applySquareEffect, handleChoicePickDie, squareOf.
  assert (Hk' : boardSquares (cornerCharge square s)
                  !! Z.to_nat (playerPosition s) = Some square).
  { unfold cornerCharge. destruct (decide (baseType square = corner_br));
      state_simpl; exact Hk. }
  assert (Hb' : boardSquares (cornerCharge square s) = boardSquares s).
  { unfold cornerCharge. destruct (decide (baseType square = corner_br));
      reflexivity. }
  rewrite Hk', Heff. cbn zeta.
  pose proof (getRandomInt_range rnd 1 6 c Hu ltac:(lia)) as Hv.
  destruct (getRandomInt rnd 1 6 c) as [v c1]. cbn [fst] in Hv.
  change [DieFixed 1; DieFixed 2; DieFixed 3; DieFixed 4; DieFixed 5;
          DieFixed 6; DieD20; DieReverseRandom; DieReverseFixed v; DieNormal]
    with (dicePoolOf v).
  pose proof (shuffleArray_perm rnd (dicePoolOf v) c1) as Hperm.
  destruct (shuffleArray rnd (dicePoolOf v) c1) as [pool c2].
  cbn [fst] in Hperm.
  pose proof (getRandomInt_range rnd 3 4 c2 Hu ltac:(lia)) as Hn.
  destruct (getRandomInt rnd 3 4 c2) as [n c3]. cbn [fst] in Hn.
  state_simpl.
  split; [reflexivity |]. split; [exact Hb' |].
  assert (Hsig : NoDup (dieSignature <$> pool)).
  { rewrite Hperm. apply dicePoolOf_signatures. }
  rewrite pickOptions_take;
    [| exact Hsig | intros d _; apply not_elem_of_nil | cbn; lia].
  cbn [length app]. rewrite Nat.sub_0_r.
  exists (take (Z.to_nat n) pool), v.
  split; [unfold pickMessage; rewrite length_fmap; reflexivity |].
  assert (Hlen : length pool = 10%nat).
  { rewrite Hperm. reflexivity. }
  split.
  { rewrite length_take, Hlen. lia. }
  split.
  { apply (NoDup_fmap_1 dieSignature) in Hsig.
    exact (sublist_NoDup _ _ Hsig (sublist_take _ _)). }
  split; [exact Hv |].
  intros d Hd. rewrite <- Hperm.
  apply elem_of_take in Hd as (i & Hi & _).
  apply list_elem_of_lookup. exists i. exact Hi.
Qed.

(** X11. A choice made while the game waits for one closes the offer: the
    phase is [rolling] again, the offer is gone and the effect of the square
    the player stands on is cleared.  The money option adds its value to the
    money; the die option puts the die at the end of the bag and counts it
    as obtained when the bag has room, and gives nothing when the bag is
    full.  The option is not checked against the offer. *)
Theorem choice_closes_offer (chosenOption : ChoiceOption) (s : State)
    (square : Square) :
  gamePhase s = awaiting_choice ->
  is_Some (choiceDetails s) ->
  at_index (boardSquares s) (playerPosition s) = Some square ->
  let s' := playerMakesChoice chosenOption s in
  gamePhase s' = rolling /\ choiceDetails s' = None /\
  isAnimating s' = false /\
  boardSquares s'
  = <[Z.to_nat (playerPosition s) := clearSquare square]> (boardSquares s) /\
  match action chosenOption with
  | get_money_bonus v =>
      playerMoney s' = playerMoney s + v /\
      reservedDice s' = reservedDice s /\ diceObtained s' = diceObtained s
  | get_chosen_die d =>
      playerMoney s' = playerMoney s /\
      if decide (Z.of_nat (length (reservedDice s)) < maxDiceInBag s)
      then reservedDice s' = reservedDice s ++ [d] /\
           diceObtained s' = diceObtained s + 1
      else reservedDice s' = reservedDice s /\
           diceObtained s' = diceObtained s
  end.
Proof.
  intros Hphase [cd Hcd] Hsq s'.
  unfold at_index in Hsq.
  destruct (decide (playerPosition s < 0)) as [| Hpos]; [discriminate |].
  pose proof (lookup_lt_Some _ _ _ Hsq) as Hlt.
  assert (Halter : forall board : list Square,
             board = boardSquares s ->
             alter clearSquare (Z.to_nat (playerPosition s)) board
             = <[Z.to_nat (playerPosition s) := clearSquare square]>
                 (boardSquares s)).
  { intros board ->. apply list_eq. intros k.
    destruct (decide (k = Z.to_nat (playerPosition s))) as [-> | Hne].
    - rewrite list_lookup_alter_eq, Hsq.
      rewrite list_lookup_insert_eq by exact Hlt. reflexivity.
    - rewrite list_lookup_alter_ne by congruence.
      rewrite list_lookup_insert_ne by congruence. reflexivity. }
  unfold s', playerMakesChoice.
  rewrite decide_False
    by (intros [H | H]; [apply H, Hphase | rewrite Hcd in H; discriminate]).
  cbn zeta.
  destruct (action chosenOption) as [v | d].
  - state_simpl. rewrite decide_True by lia. state_simpl.
    rewrite (Halter _ eq_refl). repeat split; reflexivity.
  - unfold addReservedDie. state_simpl.
    destruct (decide (Z.of_nat (length (reservedDice s)) < maxDiceInBag s));
      state_simpl; rewrite decide_True by lia; state_simpl;
      rewrite (Halter _ eq_refl); repeat split; reflexivity.
Qed.

End Landing.

(** * Rolling a die of the bag *)

Section Moves.

Variable rnd : nat -> Q.

Lemma handleBossEncounter_kept (s : State) (c : nat) :
  keptByMove s (store (handleBossEncounter s c)).
Proof.
  unfold keptByMove, handleBossEncounter.
  destruct (STAGE_CONFIGS (playerStage s)); repeat split; reflexivity.
Qed.

Lemma turnedFrom_kept (s s' : State) : turnedFrom s s' -> keptByMove s s'.
Proof.
  unfold turnedFrom, keptByMove. intros T. rewrite T.
  repeat split; reflexivity.
Qed.

Lemma keptByMove_trans (s1 s2 s3 : State) :
  keptByMove s1 s2 -> keptByMove s2 s3 -> keptByMove s1 s3.
Proof. unfold keptByMove. intuition congruence. Qed.

Lemma movePlayer_kept (steps : Z) (s : State) (c : nat) :
  keptByMove s (store (movePlayer rnd steps s c)).
Proof.
  pose proof (movePlayer_outcome rnd steps s c) as H. cbv zeta in H.
  destruct H as [(s1 & c1 & E & T) | (_ & T & _)].
  - rewrite E. apply turnedFrom_kept in T.
    eapply keptByMove_trans; [| apply handleBossEncounter_kept].
    eapply keptByMove_trans; [exact T |].
    unfold keptByMove. repeat split; reflexivity.
  - apply turnedFrom_kept, T.
Qed.

Lemma rollDice_bag (index : nat) (d : Die) (s : State) (c : nat) :
  gamePhase s = rolling -> isGameOver s = false -> isAnimating s = false ->
  reservedDice s !! index = Some d ->
  rollDice rnd (Z.of_nat index) s c
  = movePlayer rnd (fst (dieSteps rnd d c))
      (bagRollState index d (fst (dieSteps rnd d c)) s)
      (snd (dieSteps rnd d c)).
Proof.
  intros Hphase Hover Hanim Hd. unfold rollDice.
  rewrite decide_False by (rewrite Hphase; discriminate).
  rewrite decide_False
    by (rewrite Hphase, Hover, Hanim; intros [H | [H | H]];
        [discriminate | apply H; reflexivity | discriminate]).
  state_simpl. pose proof (lookup_lt_Some _ _ _ Hd) as Hlt.
  rewrite decide_True by lia. rewrite Nat2Z.id, Hd.
  unfold bagRollState, rollRecord, showDieRoll, dieSteps.
  destruct d; unfold getRandomInt; reflexivity.
Qed.

Lemma walk_back_position (n : nat) (s : State) (c : nat) :
  isGameOver s = false ->
  0 <= playerPosition s < totalBoardSquares s ->
  walk rnd n (-1) s c
  = walkDone
      (set_playerPosition
         ((playerPosition s - Z.of_nat n) mod totalBoardSquares s) s) c false.
Proof.
  revert s. induction n as [| n IH]; intros s Hover Hpos.
  - cbn [walk]. f_equal.
    rewrite Z.sub_0_r, Z.mod_small by lia. destruct s; reflexivity.
  - cbn beta iota zeta delta [walk].
    rewrite decide_False by congruence. rewrite decide_False by lia.
    assert (Hp1 : Z.rem (playerPosition s - 1 + totalBoardSquares s)
                    (totalBoardSquares s)
                  = (playerPosition s - 1) mod totalBoardSquares s).
    { rewrite Z.rem_mod_nonneg by lia.
      rewrite <- (Z_mod_plus_full (playerPosition s - 1) 1
                    (totalBoardSquares s)).
      f_equal. lia. }
    rewrite IH.
    + state_simpl.
      change (totalBoardSquares (set_playerPosition _ s))
        with (totalBoardSquares s).
      rewrite Hp1, Zminus_mod_idemp_l.
      replace (playerPosition s - 1 - Z.of_nat n)
        with (playerPosition s - Z.of_nat (S n)) by lia.
      reflexivity.
    + exact Hover.
    + state_simpl.
      change (totalBoardSquares (set_playerPosition _ s))
        with (totalBoardSquares s).
      rewrite Hp1. apply Z.mod_pos_bound. lia.
Qed.

Lemma movePlayer_forward_short (steps : Z) (s : State) (c : nat) :
  isGameOver s = false ->
  0 < steps -> 0 <= playerPosition s ->
  playerPosition s + steps < totalBoardSquares s ->
  movePlayer rnd steps s c
  = landAndFinish rnd
      (set_playerMoney
         (playerMoney s
          + creditsAlong (boardSquares s) (playerPosition s) (Z.to_nat steps))
         (set_playerPosition (playerPosition s + steps)
            (set_lastPlayerPositionBeforeThisMove (playerPosition s)
               (set_gamePhase player_moving_animation s)))) c.
Proof.
  intros Hover Hsteps Hlo Hhi. unfold movePlayer.
  rewrite (decide_True (P := steps > 0)) by lia.
  rewrite walk_forward_done.
  2: state_simpl; exact Hover.
  2: state_simpl; exact Hlo.
  2: { state_simpl. unfold totalBoardSquares in *. state_simpl. lia. }
  state_simpl. rewrite Z.abs_eq, Z2Nat.id by lia. reflexivity.
Qed.

Lemma movePlayer_backward (steps : Z) (s : State) (c : nat) :
  isGameOver s = false ->
  steps < 0 -> 0 <= playerPosition s < totalBoardSquares s ->
  movePlayer rnd steps s c
  = landAndFinish rnd
      (set_playerPosition ((playerPosition s + steps) mod totalBoardSquares s)
         (set_lastPlayerPositionBeforeThisMove (playerPosition s)
            (set_gamePhase player_moving_animation s))) c.
Proof.
  intros Hover Hsteps Hpos. unfold movePlayer.
  rewrite (decide_False (P := steps > 0)) by lia.
  rewrite walk_back_position.
  2: state_simpl; exact Hover.
  2: { state_simpl. unfold totalBoardSquares in *. state_simpl. lia. }
  state_simpl.
  change (totalBoardSquares (set_lastPlayerPositionBeforeThisMove _ _))
    with (totalBoardSquares s).
  replace (playerPosition s - Z.of_nat (Z.to_nat (Z.abs steps)))
    with (playerPosition s + steps) by lia.
  reflexivity.
Qed.

(** A landing leaves the position, the lap and the fields of a move as
    they are. *)
Lemma landAndFinish_kept (s : State) (c : nat) :
  let s' := store (landAndFinish rnd s c) in
  raised (landAndFinish rnd s c) = false /\
  playerPosition s' = playerPosition s /\
  playerLap s' = playerLap s /\
  lastGeneralRoll s' = lastGeneralRoll s /\
  keptByMove s s'.
Proof.
  destruct (landAndFinish_store rnd s c) as (Hr & L & _).
  cbv zeta. unfold landedFrom in L. split; [exact Hr |].
  unfold keptByMove. rewrite L. repeat split; reflexivity.
Qed.

(** ** The strings of the highlight *)

Lemma nonPredictableTypes_unmatched (t : DICE_TYPES) :
  toLowerCase (DICE_TYPES_value t) ∉ ["normal"; "d20"; "reverse_random"].
Proof.
  destruct t; vm_compute (toLowerCase _);
    rewrite !elem_of_cons, elem_of_nil; intuition discriminate.
Qed.

Lemma includes_reverse (t : DICE_TYPES) :
  includes (toLowerCase (DICE_TYPES_value t)) "reverse"
  = bool_decide (t = REVERSE_FIXED \/ t = REVERSE_RANDOM).
Proof. destruct t; vm_compute; reflexivity. Qed.

Lemma highlightSquareForDie_value (d : Die) (v : Z) (s : State) :
  die_value d = Some v -> v <> 0 -> boardSquares s <> [] ->
  highlightSquareForDie (Some d) s
  = Some (Z.rem (playerPosition s
                 + (if decide (die_type d = REVERSE_FIXED) then - v else v)
                 + Z.of_nat (length (boardSquares s)))
            (Z.of_nat (length (boardSquares s)))).
Proof.
  intros Hv Hnz Hboard. unfold highlightSquareForDie.
  rewrite decide_False by (destruct (boardSquares s); [congruence | discriminate]).
  cbn zeta. rewrite Hv.
  rewrite decide_False
    by (intros [H | H]; [exact (Hnz H) |
                         exact (nonPredictableTypes_unmatched _ H)]).
  rewrite includes_reverse.
  destruct d; cbn in Hv; try discriminate; reflexivity.
Qed.

(** X12. A fixed die of the bag with a positive value, rolled in the
    rolling phase where its steps do not reach the start square, leaves the
    bag at that very position and only it; the player ends exactly [value]
    squares ahead, on the same lap; the last roll is recorded as a forward
    fixed roll of that value; and the square [highlightSquareForDie] shows
    for the die before the roll is the one the player ends on. *)
Theorem fixed_die_moves_exactly (index : nat) (v : Z) (s : State) (c : nat) :
  gamePhase s = rolling -> isGameOver s = false -> isAnimating s = false ->
  reservedDice s !! index = Some (DieFixed v) ->
  0 < v -> 0 <= playerPosition s ->
  playerPosition s + v < totalBoardSquares s ->
  Z.of_nat (length (boardSquares s)) = totalBoardSquares s ->
  let r := rollDice rnd (Z.of_nat index) s c in
  raised r = false /\
  playerPosition (store r) = playerPosition s + v /\
  playerLap (store r) = playerLap s /\
  reservedDice (store r) = delete index (reservedDice s) /\
  lastDiceRoll (store r) = Some (mkDiceRoll v FIXED FIXED forward) /\
  lastGeneralRoll (store r) = Some v /\
  highlightSquareForDie (Some (DieFixed v)) s
  = Some (playerPosition (store r)).
Proof.
  intros Hphase Hover Hanim Hd Hv Hlo Hhi Hlen. cbv zeta.
  rewrite (rollDice_bag index (DieFixed v) s c Hphase Hover Hanim Hd).
  cbn [dieSteps fst snd]. rewrite (decide_False (P := v = 0)) by lia.
  rewrite movePlayer_forward_short.
  2: exact Hover.
  2: exact Hv.
  2: exact Hlo.
  2: { unfold bagRollState, showDieRoll, totalBoardSquares in *.
       state_simpl. lia. }
  match goal with
  | |- context [landAndFinish rnd ?s0 c] =>
      destruct (landAndFinish_kept s0 c)
        as (Hr & Hp & Hl & Hg & (Hbag & _ & Hroll & _))
  end.
  split; [exact Hr |].
  rewrite Hp, Hl, Hbag, Hroll, Hg.
  unfold bagRollState, showDieRoll, rollRecord. state_simpl.
  rewrite (decide_False (P := v < 0)) by lia.
  rewrite (decide_True (P := v >= 0)) by lia.
  rewrite Z.abs_eq by lia. cbn [die_type].
  repeat (split; [reflexivity |]).
  rewrite (highlightSquareForDie_value (DieFixed v) v s eq_refl)
    by (try lia; intros Hnil; rewrite Hnil in Hlen; cbn in Hlen; lia).
  cbn [die_type]. rewrite decide_False by discriminate.
  rewrite Hlen. f_equal.
  rewrite Z.rem_mod_nonneg by lia.
  replace (playerPosition s + v + totalBoardSquares s)
    with (playerPosition s + v + 1 * totalBoardSquares s) by lia.
  rewrite Z_mod_plus_full. apply Z.mod_small. lia.
Qed.

(** X13. A reverse fixed die of the bag with a positive value no larger
    than the board takes the player exactly [value] squares back around the
    loop; going back over the start square changes no lap; the last roll is
    recorded as a backward roll of that value; and the square
    [highlightSquareForDie] shows for the die is the one the player ends
    on. *)
Theorem reverse_fixed_die_moves_back (index : nat) (v : Z) (s : State)
    (c : nat) :
  gamePhase s = rolling -> isGameOver s = false -> isAnimating s = false ->
  reservedDice s !! index = Some (DieReverseFixed v) ->
  0 < v <= totalBoardSquares s ->
  0 <= playerPosition s < totalBoardSquares s ->
  Z.of_nat (length (boardSquares s)) = totalBoardSquares s ->
  let r := rollDice rnd (Z.of_nat index) s c in
  raised r = false /\
  playerPosition (store r) = (playerPosition s - v) mod totalBoardSquares s /\
  playerLap (store r) = playerLap s /\
  reservedDice (store r) = delete index (reservedDice s) /\
  lastDiceRoll (store r)
  = Some (mkDiceRoll v REVERSE_FIXED REVERSE_FIXED backward) /\
  highlightSquareForDie (Some (DieReverseFixed v)) s
  = Some (playerPosition (store r)).
Proof.
  intros Hphase Hover Hanim Hd Hv Hpos Hlen. cbv zeta.
  rewrite (rollDice_bag index (DieReverseFixed v) s c Hphase Hover Hanim Hd).
  cbn [dieSteps fst snd]. rewrite (decide_False (P := v = 0)) by lia.
  rewrite movePlayer_backward.
  2: exact Hover.
  2: lia.
  2: { unfold bagRollState, showDieRoll, totalBoardSquares in *.
       state_simpl. lia. }
  match goal with
  | |- context [landAndFinish rnd ?s0 c] =>
      destruct (landAndFinish_kept s0 c)
        as (Hr & Hp & Hl & Hg & (Hbag & _ & Hroll & _))
  end.
  split; [exact Hr |].
  rewrite Hp, Hl, Hbag, Hroll.
  unfold bagRollState, showDieRoll, rollRecord. state_simpl.
  change (totalBoardSquares (set_lastDiceRoll _ _))
    with (totalBoardSquares s).
  rewrite (decide_True (P := - v < 0)) by lia.
  rewrite (decide_False (P := - v >= 0)) by lia.
  rewrite Z.abs_neq, Z.opp_involutive by lia. cbn [die_type].
  rewrite (decide_False (P := REVERSE_FIXED = NORMAL)) by discriminate.
  rewrite (decide_False (P := REVERSE_FIXED = FIXED)) by discriminate.
  replace (playerPosition s + - v) with (playerPosition s - v) by lia.
  repeat (split; [reflexivity |]).
  rewrite (highlightSquareForDie_value (DieReverseFixed v) v s eq_refl)
    by (try lia; intros Hnil; rewrite Hnil in Hlen; cbn in Hlen; lia).
  cbn [die_type]. rewrite decide_True by reflexivity.
  rewrite Hlen. f_equal.
  rewrite Z.rem_mod_nonneg by lia.
  rewrite <- (Z_mod_plus_full (playerPosition s - v) 1 (totalBoardSquares s)).
  f_equal. lia.
Qed.

(** X14. [highlightSquareForDie] shows a square exactly for a die that
    carries a value other than zero, on a board that has squares.  The list
    of type names it consults matches the lower-cased name of none of the
    five types, so that the dice without a value, the die of every turn, the
    d20 and the reverse random die, are left out by the test of the value
    alone. *)
Theorem highlight_needs_a_value (d : Die) (s : State) :
  (forall t : DICE_TYPES,
     toLowerCase (DICE_TYPES_value t)
     ∉ ["normal"; "d20"; "reverse_random"]) /\
  (highlightSquareForDie (Some d) s = None <->
   boardSquares s = [] \/ die_value d = None \/ die_value d = Some 0) /\
  highlightSquareForDie None s = None.
Proof.
  split; [exact nonPredictableTypes_unmatched |].
  split; [| reflexivity].
  split.
  - intros Hnone.
    destruct (boardSquares s) as [| sq board] eqn:Hb; [left; reflexivity |].
    right. destruct (die_value d) as [v |] eqn:Hv; [| left; reflexivity].
    right. destruct (decide (v = 0)) as [-> | Hnz]; [reflexivity |].
    rewrite (highlightSquareForDie_value d v s Hv Hnz) in Hnone
      by (rewrite Hb; discriminate).
    discriminate.
  - intros [Hb | [Hv | Hv]]; unfold highlightSquareForDie.
    + rewrite Hb. reflexivity.
    + destruct (decide (length (boardSquares s) = 0%nat)); [reflexivity |].
      cbn zeta. rewrite Hv. reflexivity.
    + destruct (decide (length (boardSquares s) = 0%nat)); [reflexivity |].
      cbn zeta. rewrite Hv. rewrite decide_True by (left; reflexivity).
      reflexivity.
Qed.

(** ** Throws with a die of the bag *)

Lemma defeatBoss_bag (wasBribed : bool) (s : State) (c : nat) :
  let s' := store (defeatBoss rnd wasBribed s c) in
  reservedDice s' = reservedDice s /\
  maxDiceInBag s' = maxDiceInBag s /\
  diceObtained s' = diceObtained s.
Proof.
  cbv zeta. unfold defeatBoss.
  assert (Htail : forall s0 : State,
    let r :=
      (let s1 := set_playerStage (playerStage s0 + 1) s0 in
       if decide (playerStage s1 > MAX_STAGES) then
         returned (set_showSummaryModal true (set_isGameOver true s1)) c
       else
         let s2 := set_gamePhase rolling
                     (set_remainingBossRolls 0
                        (set_currentDiceThrows [] (set_playerLap 0 s1))) in
         match STAGE_CONFIGS (playerStage s2) with
         | None => returned s2 c
         | Some nextStageConfig =>
             let '(s3, c3) :=
               setupStage rnd (set_currentStageConfig nextStageConfig s2) c in
             returned s3 c3
         end) in
    reservedDice (store r) = reservedDice s0 /\
    maxDiceInBag (store r) = maxDiceInBag s0 /\
    diceObtained (store r) = diceObtained s0).
  { intros s0. cbv zeta. state_simpl.
    destruct (decide (playerStage s0 + 1 > MAX_STAGES)).
    - repeat split; reflexivity.
    - destruct (STAGE_CONFIGS (playerStage s0 + 1)) as [cfg |].
      + match goal with
        | |- context [setupStage rnd ?s1 ?c1] =>
            pose proof (setupStage_store rnd s1 c1) as E;
            destruct (setupStage rnd s1 c1) as [s3 c3]
        end.
        state_simpl. rewrite E. repeat split; reflexivity.
      + repeat split; reflexivity. }
  destruct wasBribed.
  - apply Htail.
  - state_simpl. destruct (currentBoss s) as [boss |].
    + destruct (decide (totalOf (currentDiceThrows s) = hp boss)).
      * apply (Htail (set_perfectBossDefeats (perfectBossDefeats s + 1)
                        (set_bossesDefeated (bossesDefeated s + 1) s))).
      * apply (Htail (set_bossesDefeated (bossesDefeated s + 1) s)).
    + repeat split; reflexivity.
Qed.

Lemma rollDiceForBoss_bag (die : DieRef) (s : State) (c : nat) :
  let r := rollDiceForBoss rnd die s c in
  maxDiceInBag (store r) = maxDiceInBag s /\
  diceObtained (store r) = diceObtained s /\
  (gamePhase s <> boss_encounter -> r = returned s c) /\
  (gamePhase s = boss_encounter -> dieOf die s = None -> r = threw s c) /\
  (gamePhase s = boss_encounter -> is_Some (dieOf die s) ->
   reservedDice (store r) = bagWithout die s).
Proof.
  cbv zeta. unfold rollDiceForBoss.
  destruct (decide (gamePhase s <> boss_encounter)) as [Hother | Hphase].
  { repeat split; try reflexivity; intros; contradiction. }
  assert (Hp : gamePhase s = boss_encounter).
  { destruct (decide (gamePhase s = boss_encounter)); [assumption | tauto]. }
  assert (Hthrow : forall (d : Die) (s0 : State),
    maxDiceInBag s0 = maxDiceInBag s ->
    diceObtained s0 = diceObtained s ->
    let r :=
      (let '(roll, c) :=
         match d with
         | DieD20 => getRandomInt rnd 1 20 c
         | DieFixed v => (v, c)
         | DieReverseFixed v => (v, c)
         | DieReverseRandom => getRandomInt rnd 1 6 c
         | DieNormal => getRandomInt rnd 1 6 c
         end in
       let s := set_currentDiceThrows (currentDiceThrows s0 ++ [roll]) s0 in
       let s := set_totalRolls (totalRolls s + 1) s in
       let s := applyBossDamage roll s in
       let total := totalOf (currentDiceThrows s) in
       match currentBoss s with
       | None => threw s c
       | Some boss =>
           if decide (total >= hp boss) then defeatBoss rnd false s c
           else if decide (gamePhase s = boss_encounter /\
                           remainingBossRolls s = 0 /\
                           length (reservedDice s) = 0%nat)
           then returned (failBossFight s) c
           else returned s c
       end) in
    maxDiceInBag (store r) = maxDiceInBag s /\
    diceObtained (store r) = diceObtained s /\
    reservedDice (store r) = reservedDice s0).
  { intros d s0 Hmax Hob. cbv zeta.
    destruct (match d with
              | DieD20 => getRandomInt rnd 1 20 c
              | DieFixed v => (v, c)
              | DieReverseFixed v => (v, c)
              | DieReverseRandom => getRandomInt rnd 1 6 c
              | DieNormal => getRandomInt rnd 1 6 c
              end) as [roll c1].
    unfold applyBossDamage. state_simpl.
    destruct (currentBossHP s0); state_simpl;
      (destruct (currentBoss s0) as [boss |];
       [| repeat split; assumption || reflexivity]);
      (destruct (decide (totalOf (currentDiceThrows s0 ++ [roll]) >= hp boss));
       [match goal with
        | |- context [defeatBoss rnd false ?s1 c1] =>
            destruct (defeatBoss_bag false s1 c1) as (B1 & B2 & B3)
        end; rewrite B1, B2, B3; repeat split; assumption || reflexivity |]);
      match goal with
      | |- context [decide ?P] => destruct (decide P)
      end; repeat split; assumption || reflexivity. }
  destruct die as [index | d]; cbn [dieOf bagWithout].
  - destruct (reservedDice s !! index) as [d |] eqn:Hd.
    + destruct (Hthrow d (set_reservedDice (delete index (reservedDice s)) s)
                  eq_refl eq_refl) as (H1 & H2 & H3).
      split; [exact H1 |]. split; [exact H2 |].
      split; [intros H; contradiction |].
      split; [intros _ H; discriminate | intros _ _; exact H3].
    + repeat split; try reflexivity.
      * intros H; contradiction.
      * intros _ [x Hx]. discriminate.
  - destruct (Hthrow d s eq_refl eq_refl) as (H1 & H2 & H3).
    split; [exact H1 |]. split; [exact H2 |].
    split; [intros H; contradiction |].
    split; [intros _ H; discriminate | intros _ _; exact H3].
Qed.

(** X15. A click on a die of the dice panel either leaves the store as it
    is or takes exactly the die at that position out of the bag, the others
    staying in their order.  It leaves the store as it is when the game is
    over and in every phase but [rolling] and [boss_encounter], and it
    never changes the capacity of the bag. *)
Theorem useReservedDie_consumes (index : nat) (s : State) (c : nat) :
  let r := useReservedDie rnd index s c in
  (r = returned s c \/
   is_Some (reservedDice s !! index) /\
   reservedDice (store r) = delete index (reservedDice s)) /\
  (gamePhase s <> rolling -> gamePhase s <> boss_encounter ->
   r = returned s c) /\
  (isGameOver s = true -> r = returned s c) /\
  maxDiceInBag (store r) = maxDiceInBag s.
Proof.
  cbv zeta. unfold useReservedDie.
  destruct (reservedDice s !! index) as [d |] eqn:Hd.
  2: { repeat split; try reflexivity. left. reflexivity. }
  destruct (decide (isGameOver s = true)) as [Hover | Hover].
  { repeat split; try reflexivity. left. reflexivity. }
  assert (Hov : isGameOver s = false) by (destruct (isGameOver s); congruence).
  destruct (decide (gamePhase s = boss_encounter)) as [Hboss | Hnb].
  { destruct (rollDiceForBoss_bag (bagDie index) s c)
      as (Hm & _ & _ & _ & Hbag).
    cbn [dieOf bagWithout] in Hbag.
    split; [| split; [intros _ H; contradiction |
                      split; [intros H; congruence | exact Hm]]].
    right. split; [eexists; reflexivity |].
    apply Hbag; [exact Hboss | rewrite Hd; eexists; reflexivity]. }
  destruct (decide (gamePhase s = rolling)) as [Hroll | Hnr].
  2: { repeat split; try reflexivity. left. reflexivity. }
  destruct (decide (isAnimating s = true)) as [Hanim | Hanim].
  { assert (E : rollDice rnd (Z.of_nat index) s c = returned s c).
    { unfold rollDice. rewrite decide_False by exact Hnb.
      rewrite decide_True by (right; right; exact Hanim). reflexivity. }
    rewrite E. repeat split; try reflexivity; try (intros; congruence).
    left. reflexivity. }
  assert (Han : isAnimating s = false) by (destruct (isAnimating s); congruence).
  rewrite (rollDice_bag index d s c Hroll Hov Han Hd).
  match goal with
  | |- context [movePlayer rnd ?st ?s0 ?c0] =>
      destruct (movePlayer_kept st s0 c0) as (Hbag & Hmax & _)
  end.
  split; [| split; [intros H; contradiction |
                    split; [intros H; congruence |]]].
  - right. split; [eexists; reflexivity |]. rewrite Hbag. reflexivity.
  - rewrite Hmax. reflexivity.
Qed.

End Moves.

(** * The boss fight *)

Section BossFight.

Variable rnd : nat -> Q.

Lemma afterFreeThrow_fields (s : State) (c : nat) :
  let s' := afterFreeThrow rnd s c in
  gamePhase s' = gamePhase s /\ currentBoss s' = currentBoss s /\
  bossesDefeated s' = bossesDefeated s /\ bribesBosses s' = bribesBosses s /\
  playerStage s' = playerStage s /\ isGameOver s' = isGameOver s /\
  showSummaryModal s' = showSummaryModal s /\
  reservedDice s' = reservedDice s /\
  remainingBossRolls s' = remainingBossRolls s - 1 /\
  currentDiceThrows s'
  = currentDiceThrows s ++ [Qceiling (rnd c * 6)].
Proof.
  cbv zeta. unfold afterFreeThrow, applyBossDamage. state_simpl.
  destruct (currentBossHP s); repeat split; reflexivity.
Qed.

Lemma afterBagThrow_fields (die : DieRef) (d : Die) (s : State) (c : nat) :
  let s' := afterBagThrow rnd die d s c in
  gamePhase s' = gamePhase s /\ currentBoss s' = currentBoss s /\
  bossesDefeated s' = bossesDefeated s /\ bribesBosses s' = bribesBosses s /\
  playerStage s' = playerStage s /\ isGameOver s' = isGameOver s /\
  showSummaryModal s' = showSummaryModal s /\
  reservedDice s' = bagWithout die s /\
  remainingBossRolls s' = remainingBossRolls s /\
  currentDiceThrows s'
  = currentDiceThrows s ++ [fst (bossRoll rnd d c)].
Proof.
  cbv zeta. unfold afterBagThrow, applyBossDamage. state_simpl.
  destruct (currentBossHP s); repeat split; reflexivity.
Qed.

Lemma failBossFight_fields (s : State) :
  gamePhase (failBossFight s) = game_lost /\
  isGameOver (failBossFight s) = true /\
  showSummaryModal (failBossFight s) = true /\
  playerStage (failBossFight s) = playerStage s.
Proof. unfold failBossFight. repeat split; reflexivity. Qed.

Lemma wonByDamage_not_lost (s : State) (r : Result) :
  wonByDamage s r -> gamePhase (store r) <> game_lost.
Proof.
  intros (_ & _ & _ & _ & ->).
  destruct (decide (playerStage s + 1 > MAX_STAGES)); discriminate.
Qed.

Lemma length_zero_nil {A} (l : list A) : length l = 0%nat <-> l = [].
Proof. destruct l; split; intros H; congruence || discriminate || reflexivity. Qed.

(** X16. A boss fight is lost at a throw exactly when the throw leaves the
    sum of the throws below the boss's hp, no free throw is left after it
    and the bag is empty after it.  The loss ends the run: the game is over,
    the summary is shown and the stage stays.  Any other throw below the
    hp leaves the encounter open. *)
Theorem boss_fight_lost_exactly_when (s : State) (c : nat)
    (boss : BossDefeatCondition) :
  gamePhase s = boss_encounter ->
  currentBoss s = Some boss ->
  (forall reservedDieIndex : Z,
     0 < remainingBossRolls s ->
     let r := rollDice rnd reservedDieIndex s c in
     let total := totalOf (currentDiceThrows s) + Qceiling (rnd c * 6) in
     (gamePhase (store r) = game_lost <->
      total < hp boss /\ remainingBossRolls s = 1 /\ reservedDice s = []) /\
     (gamePhase (store r) = game_lost ->
      isGameOver (store r) = true /\ showSummaryModal (store r) = true /\
      playerStage (store r) = playerStage s) /\
     (total < hp boss -> gamePhase (store r) <> game_lost ->
      r = returned (afterFreeThrow rnd s c) (S c) /\
      gamePhase (store r) = boss_encounter)) /\
  (forall (die : DieRef) (d : Die),
     dieOf die s = Some d ->
     let r := rollDiceForBoss rnd die s c in
     let total := totalOf (currentDiceThrows s) + fst (bossRoll rnd d c) in
     (gamePhase (store r) = game_lost <->
      total < hp boss /\ remainingBossRolls s = 0 /\ bagWithout die s = []) /\
     (gamePhase (store r) = game_lost ->
      isGameOver (store r) = true /\ showSummaryModal (store r) = true /\
      playerStage (store r) = playerStage s) /\
     (total < hp boss -> gamePhase (store r) <> game_lost ->
      r = returned (afterBagThrow rnd die d s c) (snd (bossRoll rnd d c)) /\
      gamePhase (store r) = boss_encounter)).
Proof.
  intros Hphase Hboss. split.
  - intros idx Hbudget. cbv zeta.
    rewrite (rollDice_boss rnd idx s c boss Hphase Hbudget Hboss). cbv zeta.
    pose proof (afterFreeThrow_fields s c) as F. cbv zeta in F.
    destruct F as (F1 & F2 & F3 & F4 & F5 & F6 & F7 & F8 & F9 & F10).
    destruct (decide (totalOf (currentDiceThrows s) + Qceiling (rnd c * 6)
                      >= hp boss)) as [Hwin | Hmiss].
    + assert (W : wonByDamage s
                    (defeatBoss rnd false (afterFreeThrow rnd s c) (S c))).
      { apply (defeatBoss_won rnd s _ (S c) boss); congruence. }
      pose proof (wonByDamage_not_lost _ _ W) as Hnl.
      split; [split; [intros H; contradiction | intros (H & _); lia] |].
      split; [intros H; contradiction | intros H; lia].
    + destruct (decide (remainingBossRolls s - 1 = 0 /\
                        length (reservedDice s) = 0%nat)) as [[Hz Hb] | Hgo].
      * state_simpl. destruct (failBossFight_fields (afterFreeThrow rnd s c))
          as (L1 & L2 & L3 & L4).
        apply length_zero_nil in Hb.
        split; [split; [intros _; repeat split; [lia | lia | exact Hb]
                       | intros _; exact L1] |].
        split; [intros _; repeat split; congruence |].
        intros _ H. contradiction.
      * state_simpl.
        split; [split; [rewrite F1, Hphase; discriminate |] |].
        { intros (_ & H1 & H2). exfalso. apply Hgo.
          split; [lia | rewrite H2; reflexivity]. }
        split; [rewrite F1, Hphase; discriminate |].
        intros _ _. split; [reflexivity | congruence].
  - intros die d Hdie. cbv zeta.
    rewrite (rollDiceForBoss_boss rnd die d s c boss Hphase Hdie Hboss).
    cbv zeta.
    pose proof (afterBagThrow_fields die d s c) as F. cbv zeta in F.
    destruct F as (F1 & F2 & F3 & F4 & F5 & F6 & F7 & F8 & F9 & F10).
    destruct (decide (totalOf (currentDiceThrows s) + fst (bossRoll rnd d c)
                      >= hp boss)) as [Hwin | Hmiss].
    + assert (W : wonByDamage s
                    (defeatBoss rnd false (afterBagThrow rnd die d s c)
                       (snd (bossRoll rnd d c)))).
      { apply (defeatBoss_won rnd s _ _ boss); congruence. }
      pose proof (wonByDamage_not_lost _ _ W) as Hnl.
      split; [split; [intros H; contradiction | intros (H & _); lia] |].
      split; [intros H; contradiction | intros H; lia].
    + destruct (decide (remainingBossRolls s = 0 /\
                        length (bagWithout die s) = 0%nat)) as [[Hz Hb] | Hgo].
      * state_simpl.
        destruct (failBossFight_fields (afterBagThrow rnd die d s c))
          as (L1 & L2 & L3 & L4).
        apply length_zero_nil in Hb.
        split; [split; [intros _; repeat split; [lia | exact Hz | exact Hb]
                       | intros _; exact L1] |].
        split; [intros _; repeat split; congruence |].
        intros _ H. contradiction.
      * state_simpl.
        split; [split; [rewrite F1, Hphase; discriminate |] |].
        { intros (_ & H1 & H2). exfalso. apply Hgo.
          split; [exact H1 | rewrite H2; reflexivity]. }
        split; [rewrite F1, Hphase; discriminate |].
        intros _ _. split; [reflexivity | congruence].
Qed.

(** X17. The value of a throw at the boss, for samples in [0,1).  The free
    die gives the ceiling of six times the sample: 0 to 6, and 0 only for
    the sample 0; that is the value logged.  A fixed or reverse fixed die of
    the bag gives its value and draws no sample; a d20 gives 1 to 20, the
    die of every turn and the reverse random die 1 to 6. *)
Theorem boss_throw_values (d : Die) (s : State) (c : nat) :
  unitSamples rnd ->
  (currentDiceThrows (afterFreeThrow rnd s c)
   = currentDiceThrows s ++ [Qceiling (rnd c * 6)] /\
   0 <= Qceiling (rnd c * 6) <= 6 /\
   (Qceiling (rnd c * 6) = 0 <-> (rnd c == 0)%Q)) /\
  match d with
  | DieFixed v | DieReverseFixed v => bossRoll rnd d c = (v, c)
  | DieD20 =>
      1 <= fst (bossRoll rnd d c) <= 20 /\ snd (bossRoll rnd d c) = S c
  | DieNormal | DieReverseRandom =>
      1 <= fst (bossRoll rnd d c) <= 6 /\ snd (bossRoll rnd d c) = S c
  end.
Proof.
  intros Hu. split.
  - split; [apply afterFreeThrow_fields |].
    destruct (Hu c) as [Hlo Hhi].
    assert (H0 : (0 <= rnd c * 6)%Q).
    { apply Qmult_le_0_compat; [exact Hlo | discriminate]. }
    assert (H6 : (rnd c * 6 <= 1 * 6)%Q).
    { apply Qmult_le_compat_r; [apply Qlt_le_weak, Hhi | discriminate]. }
    split.
    + split.
      * apply (Qceiling_resp_le 0 _ H0).
      * apply (Qceiling_resp_le _ _ H6).
    + split.
      * intros Hz. pose proof (Qle_ceiling (rnd c * 6)) as Hc.
        rewrite Hz in Hc.
        assert (Hzero : (rnd c * 6 == 0)%Q) by (apply Qle_antisym; assumption).
        apply Qmult_integral in Hzero. destruct Hzero as [H | H];
          [exact H | discriminate H].
      * intros Hz. rewrite Hz. reflexivity.
  - destruct d; cbn [bossRoll]; try reflexivity;
      (split; [apply (getRandomInt_range rnd _ _ c Hu); lia | reflexivity]).
Qed.

Lemma rollDice_by_check (reservedDieIndex : Z) (s : State) (c : nat) :
  gamePhase s = boss_encounter ->
  0 < remainingBossRolls s ->
  rollDice rnd reservedDieIndex s c
  = checkEndOfBossBattle rnd (afterFreeThrow rnd s c) (S c).
Proof.
  intros Hphase Hbudget. unfold rollDice, checkEndOfBossBattle.
  rewrite decide_True by exact Hphase. rewrite decide_False by lia.
  unfold afterFreeThrow, applyBossDamage. state_simpl.
  destruct (currentBossHP s); state_simpl; reflexivity.
Qed.

Lemma rollDiceForBoss_by_check (die : DieRef) (d : Die) (s : State)
    (c : nat) :
  gamePhase s = boss_encounter ->
  dieOf die s = Some d ->
  rollDiceForBoss rnd die s c
  = checkEndOfBossBattle rnd (afterBagThrow rnd die d s c)
      (snd (bossRoll rnd d c)).
Proof.
  intros Hphase Hdie. unfold rollDiceForBoss, checkEndOfBossBattle.
  rewrite decide_False by (rewrite Hphase; intros H; apply H; reflexivity).
  assert (Hroll :
    match d with
    | DieD20 => getRandomInt rnd 1 20 c
    | DieFixed v => (v, c)
    | DieReverseFixed v => (v, c)
    | DieReverseRandom => getRandomInt rnd 1 6 c
    | DieNormal => getRandomInt rnd 1 6 c
    end = (fst (bossRoll rnd d c), snd (bossRoll rnd d c))).
  { unfold bossRoll. destruct d; reflexivity. }
  unfold afterBagThrow, applyBossDamage.
  destruct die as [index | d0]; cbn [dieOf bagWithout] in *.
  - rewrite Hdie, Hroll. state_simpl.
    destruct (currentBossHP s); state_simpl;
      destruct (currentBoss s); try reflexivity;
      rewrite Hphase, if_phase_and; reflexivity.
  - injection Hdie as ->. rewrite Hroll. state_simpl.
    destruct (currentBossHP s); state_simpl;
      destruct (currentBoss s); try reflexivity;
      rewrite Hphase, if_phase_and; reflexivity.
Qed.

(** X18. Both kinds of throw close with the test of
    [checkEndOfBossBattle]: a throw in a boss encounter is the logging of
    its value followed by that test, on the free die as on a die of the
    bag. *)
Theorem throws_end_by_check (s : State) (c : nat) :
  gamePhase s = boss_encounter ->
  (forall reservedDieIndex : Z,
     0 < remainingBossRolls s ->
     rollDice rnd reservedDieIndex s c
     = checkEndOfBossBattle rnd (afterFreeThrow rnd s c) (S c)) /\
  (forall (die : DieRef) (d : Die),
     dieOf die s = Some d ->
     rollDiceForBoss rnd die s c
     = checkEndOfBossBattle rnd (afterBagThrow rnd die d s c)
         (snd (bossRoll rnd d c))).
Proof.
  intros Hphase. split.
  - intros idx Hbudget. apply rollDice_by_check; assumption.
  - intros die d Hdie. apply rollDiceForBoss_by_check; assumption.
Qed.

(** X19. [rollCustomDie] against the value [rollDiceForBoss] computes for
    a die: the two agree on every die but the reverse fixed one, which
    [rollCustomDie] rolls as a die of 1 to 6 instead of taking its value,
    and a fixed die of value 0, which it counts as 1.  For samples in [0,1)
    and fixed dice of 1 to 6 its result is at least 1 and at most 20. *)
Theorem rollCustomDie_against_boss_throw (d : Die) (c : nat) :
  ((forall v : Z, d <> DieReverseFixed v) -> d <> DieFixed 0 ->
   rollCustomDie rnd d c = bossRoll rnd d c) /\
  (forall v : Z,
     rollCustomDie rnd (DieReverseFixed v) c = getRandomInt rnd 1 6 c /\
     bossRoll rnd (DieReverseFixed v) c = (v, c)) /\
  (rollCustomDie rnd (DieFixed 0) c = (1, c) /\
   bossRoll rnd (DieFixed 0) c = (0, c)) /\
  (unitSamples rnd ->
   (forall v : Z, d = DieFixed v -> 1 <= v <= 6) ->
   1 <= fst (rollCustomDie rnd d c) <= 20).
Proof.
  split; [| split; [| split]].
  - intros Hrev Hzero. destruct d as [| v | | v |]; try reflexivity.
    + cbn [rollCustomDie bossRoll].
      rewrite decide_False by (intros ->; apply Hzero; reflexivity).
      reflexivity.
    + exfalso. apply (Hrev v). reflexivity.
  - intros v. split; reflexivity.
  - split; reflexivity.
  - intros Hu Hfixed.
    destruct d as [| v | | v |]; cbn [rollCustomDie].
    + pose proof (getRandomInt_range rnd 1 6 c Hu ltac:(lia)). lia.
    + specialize (Hfixed v eq_refl).
      rewrite decide_False by lia. cbn [fst]. lia.
    + pose proof (getRandomInt_range rnd 1 20 c Hu ltac:(lia)). lia.
    + pose proof (getRandomInt_range rnd 1 6 c Hu ltac:(lia)). lia.
    + pose proof (getRandomInt_range rnd 1 6 c Hu ltac:(lia)). lia.
Qed.

Lemma STAGE_CONFIGS_board (stage : Z) (config : StageConfig) :
  STAGE_CONFIGS stage = Some config ->
  1 <= stage <= MAX_STAGES /\ 2 <= rows config /\ 2 <= cols config /\
  lapsToComplete config = 3.
Proof.
  unfold STAGE_CONFIGS, MAX_STAGES.
  repeat (match goal with
          | |- context [decide ?P] =>
              destruct (decide P);
              [intros H; injection H as <-; cbn; lia |]
          end).
  discriminate.
Qed.

Lemma totalBoardSquares_config (s s' : State) :
  currentStageConfig s' = currentStageConfig s ->
  totalBoardSquares s' = totalBoardSquares s.
Proof. intros H. unfold totalBoardSquares. rewrite H. reflexivity. Qed.

Lemma totalBoardSquares_known (s : State) (stage : Z) :
  STAGE_CONFIGS stage = Some (currentStageConfig s) ->
  4 <= totalBoardSquares s.
Proof.
  intros H. apply STAGE_CONFIGS_board in H as (_ & HR & HC & _).
  unfold totalBoardSquares.
  rewrite decide_False by lia. cbn zeta. rewrite decide_False by lia. lia.
Qed.

(** The store [defeatBoss] leaves when a next stage exists, from the store
    [s0] in which the victory is already counted. *)
Lemma defeatBoss_next_stage (s0 : State) (c : nat) (config : StageConfig) :
  STAGE_CONFIGS (playerStage s0 + 1) = Some config ->
  let s' := store (defeatBoss rnd true s0 c) in
  raised (defeatBoss rnd true s0 c) = false /\
  s' = set_isAnimating false
         (set_gamePhase rolling
            (set_boardSquares (boardSquares s')
               (set_choiceDetails None
                  (set_lastDiceRoll None
                     (set_lastPlayerPositionBeforeThisMove 0
                        (set_playerPosition 0
                           (set_playerLap 1
                              (set_boardCols (cols config)
                                 (set_boardRows (rows config)
                                    (set_currentStageConfig config
                                       (set_remainingBossRolls 0
                                          (set_currentDiceThrows []
                                             (set_playerStage
                                                (playerStage s0 + 1)
                                                s0))))))))))))) /\
  Z.of_nat (length (boardSquares s')) = totalBoardSquares s'.
Proof.
  intros Hcfg. cbv zeta.
  pose proof (STAGE_CONFIGS_board _ _ Hcfg) as (Hstage & HR & HC & _).
  unfold defeatBoss. state_simpl.
  rewrite decide_False by lia. rewrite Hcfg.
  match goal with
  | |- context [setupStage rnd ?s1 ?c1] =>
      pose proof (setupStage_store rnd s1 c1) as E;
      pose proof (setupStage_length rnd s1 c1) as L;
      destruct (setupStage rnd s1 c1) as [s3 c3]
  end.
  state_simpl. split; [reflexivity |].
  split.
  - rewrite E at 1. destruct s0. state_unfold. reflexivity.
  - rewrite L.
    assert (Ht : totalBoardSquares s3
                 = totalBoardSquares
                     (set_currentStageConfig config
                        (set_gamePhase rolling
                           (set_remainingBossRolls 0
                              (set_currentDiceThrows []
                                 (set_playerLap 0
                                    (set_playerStage (playerStage s0 + 1)
                                       s0))))))).
    { apply totalBoardSquares_config. rewrite E. state_simpl. reflexivity. }
    rewrite Ht.
    pose proof (totalBoardSquares_known
                  (set_currentStageConfig config
                     (set_gamePhase rolling
                        (set_remainingBossRolls 0
                           (set_currentDiceThrows []
                              (set_playerLap 0
                                 (set_playerStage (playerStage s0 + 1)
                                    s0))))))
                  (playerStage s0 + 1) Hcfg).
    lia.
Qed.


(** X21. Outside the three phases in which the player acts ([rolling],
    [boss_encounter], [awaiting_choice]) no action of play changes the
    store: a roll, a throw at the boss, a choice and a click on a die of
    the bag all return at their guard.  This holds of a lost game, in which
    the phase is [game_lost], and while a roll or a move is animated. *)
Theorem play_is_ignored_outside_its_phases (s : State) (c : nat) :
  gamePhase s <> rolling -> gamePhase s <> boss_encounter ->
  gamePhase s <> awaiting_choice ->
  (forall reservedDieIndex : Z,
     rollDice rnd reservedDieIndex s c = returned s c) /\
  (forall die : DieRef, rollDiceForBoss rnd die s c = returned s c) /\
  (forall chosenOption : ChoiceOption, playerMakesChoice chosenOption s = s) /\
  (forall index : nat, useReservedDie rnd index s c = returned s c) /\
  gamePhase (failBossFight s) = game_lost.
Proof.
  intros Hr Hb Hc.
  split; [| split; [| split; [| split]]].
  - intros idx. unfold rollDice. rewrite decide_False by exact Hb.
    rewrite decide_True by (right; left; exact Hr). reflexivity.
  - intros die. unfold rollDiceForBoss.
    rewrite decide_True by exact Hb. reflexivity.
  - intros o. unfold playerMakesChoice.
    rewrite decide_True by (left; exact Hc). reflexivity.
  - intros index. unfold useReservedDie.
    destruct (reservedDice s !! index); [| reflexivity].
    destruct (decide (isGameOver s = true)); [reflexivity |].
    rewrite decide_False by exact Hb. rewrite decide_False by exact Hr.
    reflexivity.
  - reflexivity.
Qed.


End BossFight.

(** * What holds of every store a run reaches *)

(** ** The actions, case by case *)

Section Cases.

Variable rnd : nat -> Q.

Lemma rollDice_cases (reservedDieIndex : Z) (s : State) (c : nat) :
  let r := rollDice rnd reservedDieIndex s c in
  r = returned s c \/
  (gamePhase s = boss_encounter /\
   r = checkEndOfBossBattle rnd (afterFreeThrow rnd s c) (S c)) \/
  (exists (steps : Z) (s0 : State) (c0 : nat),
     r = movePlayer rnd steps s0 c0 /\ rolledWithBag s s0).
Proof.
  cbv zeta.
  destruct (decide (gamePhase s = boss_encounter)) as [Hboss | Hnb].
  { destruct (decide (remainingBossRolls s <= 0)) as [Hnone | Hleft].
    - left. unfold rollDice. rewrite !decide_True by assumption. reflexivity.
    - right. left. split; [exact Hboss |].
      apply rollDice_by_check; [exact Hboss | lia]. }
  destruct (decide (isGameOver s = true \/ gamePhase s <> rolling \/
                    isAnimating s = true)) as [Hbusy | Hfree].
  { left. unfold rollDice. rewrite decide_False by exact Hnb.
    rewrite decide_True by exact Hbusy. reflexivity. }
  right. right.
  assert (Hover : isGameOver s = false).
  { destruct (isGameOver s); [exfalso; apply Hfree; left |]; reflexivity. }
  assert (Hanim : isAnimating s = false).
  { destruct (isAnimating s); [exfalso; apply Hfree; right; right |];
      reflexivity. }
  assert (Hroll : gamePhase s = rolling).
  { destruct (decide (gamePhase s = rolling)); [assumption |].
    exfalso. apply Hfree. right. left. assumption. }
  destruct (decide (0 <= reservedDieIndex
                    < Z.of_nat (length (reservedDice s)))) as [Hin | Hout].
  - destruct (lookup_lt_is_Some_2 (reservedDice s) (Z.to_nat reservedDieIndex))
      as [d Hd]; [lia |].
    pose proof (rollDice_bag rnd _ d s c Hroll Hover Hanim Hd) as E.
    rewrite Z2Nat.id in E by lia. rewrite E.
    eexists _, _, _. split; [reflexivity |]. split.
    + unfold rolledFrom, bagRollState, showDieRoll. destruct s. reflexivity.
    + right. exists (Z.to_nat reservedDieIndex).
      split; [eexists; exact Hd | reflexivity].
  - rewrite (rollDice_normal rnd reservedDieIndex s c Hroll Hover Hanim)
      by lia.
    eexists _, _, _. split; [reflexivity |]. split.
    + unfold rolledFrom, normalRollState, showDieRoll. destruct s.
      reflexivity.
    + left. reflexivity.
Qed.

Lemma rollDiceForBoss_cases (die : DieRef) (s : State) (c : nat) :
  let r := rollDiceForBoss rnd die s c in
  r = returned s c \/ r = threw s c \/
  (gamePhase s = boss_encounter /\
   exists d : Die,
     dieOf die s = Some d /\
     r = checkEndOfBossBattle rnd (afterBagThrow rnd die d s c)
           (snd (bossRoll rnd d c))).
Proof.
  cbv zeta.
  destruct (decide (gamePhase s = boss_encounter)) as [Hboss | Hnb].
  - destruct (dieOf die s) as [d |] eqn:Hdie.
    + right. right. split; [exact Hboss |]. exists d.
      split; [reflexivity |]. apply rollDiceForBoss_by_check; assumption.
    + right. left.
      destruct (rollDiceForBoss_bag rnd die s c) as (_ & _ & _ & H & _).
      apply H; assumption.
  - left. unfold rollDiceForBoss. rewrite decide_True by exact Hnb.
    reflexivity.
Qed.

Lemma checkEndOfBossBattle_cases (s : State) (c : nat) :
  let r := checkEndOfBossBattle rnd s c in
  r = threw s c \/ r = returned s c \/ r = returned (failBossFight s) c \/
  r = defeatBoss rnd false s c.
Proof.
  cbv zeta. unfold checkEndOfBossBattle.
  destruct (currentBoss s) as [boss |]; [| left; reflexivity].
  repeat match goal with
         | |- context [decide ?P] => destruct (decide P)
         end; auto.
Qed.

(** [defeatBoss] counts the victory and then moves on as a bribe does. *)
Lemma defeatBoss_counted (wasBribed : bool) (s : State) (c : nat) :
  let r := defeatBoss rnd wasBribed s c in
  (wasBribed = false /\ currentBoss s = None /\
   r = threw (set_bossesDefeated (bossesDefeated s + 1) s) c) \/
  (wasBribed = true /\ r = defeatBoss rnd true s c) \/
  (exists boss : BossDefeatCondition,
     wasBribed = false /\ currentBoss s = Some boss /\
     r = defeatBoss rnd true (countVictory boss s) c).
Proof.
  cbv zeta. destruct wasBribed.
  - right. left. split; reflexivity.
  - destruct (currentBoss s) as [boss |] eqn:Hboss.
    + right. right. exists boss. repeat split.
      apply (defeatBoss_fought rnd s c boss Hboss).
    + left. repeat split. unfold defeatBoss. state_simpl. rewrite Hboss.
      reflexivity.
Qed.

Lemma defeatBoss_true_cases (s : State) (c : nat) :
  let r := defeatBoss rnd true s c in
  let s1 := set_playerStage (playerStage s + 1) s in
  r = returned (set_showSummaryModal true (set_isGameOver true s1)) c \/
  r = returned
        (set_gamePhase rolling
           (set_remainingBossRolls 0
              (set_currentDiceThrows [] (set_playerLap 0 s1)))) c \/
  exists config : StageConfig,
    STAGE_CONFIGS (playerStage s + 1) = Some config.
Proof.
  cbv zeta. unfold defeatBoss. state_simpl.
  destruct (decide (playerStage s + 1 > MAX_STAGES)); [left; reflexivity |].
  destruct (STAGE_CONFIGS (playerStage s + 1)) as [config |].
  - right. right. exists config. reflexivity.
  - right. left. reflexivity.
Qed.

Lemma countVictory_store (boss : BossDefeatCondition) (s : State) :
  countVictory boss s
  = set_perfectBossDefeats (perfectBossDefeats (countVictory boss s))
      (set_bossesDefeated (bossesDefeated s + 1) s) /\
  perfectBossDefeats s <= perfectBossDefeats (countVictory boss s)
  <= perfectBossDefeats s + 1.
Proof.
  unfold countVictory. state_simpl.
  destruct (decide (totalOf (currentDiceThrows s) = hp boss)); state_simpl.
  - split; [reflexivity | lia].
  - split; [destruct s; reflexivity | lia].
Qed.

Lemma afterFreeThrow_store (s : State) (c : nat) :
  afterFreeThrow rnd s c
  = set_currentBossHP (currentBossHP (afterFreeThrow rnd s c))
      (set_totalRolls (totalRolls s + 1)
         (set_remainingBossRolls (remainingBossRolls s - 1)
            (set_currentDiceThrows
               (currentDiceThrows s ++ [Qceiling (rnd c * 6)]) s))).
Proof.
  unfold afterFreeThrow, applyBossDamage. state_simpl.
  destruct (currentBossHP s); [reflexivity |]. destruct s. reflexivity.
Qed.

Lemma afterBagThrow_store (die : DieRef) (d : Die) (s : State) (c : nat) :
  afterBagThrow rnd die d s c
  = set_currentBossHP (currentBossHP (afterBagThrow rnd die d s c))
      (set_totalRolls (totalRolls s + 1)
         (set_currentDiceThrows
            (currentDiceThrows s ++ [fst (bossRoll rnd d c)])
            (set_reservedDice (bagWithout die s) s))).
Proof.
  unfold afterBagThrow, applyBossDamage. state_simpl.
  destruct (currentBossHP s); [reflexivity |]. destruct s. reflexivity.
Qed.

End Cases.

(** ** A scheme for invariants of a run

    A property of the store that the pieces of the actions keep is kept by
    every command, and so holds after any sequence of commands. *)

Section Preservation.

Variable rnd : nat -> Q.
Variable J : State -> Prop.

Hypothesis J_freeThrow :
  forall (s : State) (c : nat), J s -> J (afterFreeThrow rnd s c).
Hypothesis J_bagThrow :
  forall (die : DieRef) (d : Die) (s : State) (c : nat),
    J s -> dieOf die s = Some d -> J (afterBagThrow rnd die d s c).
Hypothesis J_fail : forall s : State, J s -> J (failBossFight s).
Hypothesis J_defeat :
  forall (s : State) (c : nat), J s -> J (store (defeatBoss rnd false s c)).
Hypothesis J_roll :
  forall (s s0 : State) (steps : Z) (c0 : nat),
    J s -> rolledWithBag s s0 -> J (store (movePlayer rnd steps s0 c0)).
Hypothesis J_choice :
  forall (chosenOption : ChoiceOption) (s : State),
    J s -> J (playerMakesChoice chosenOption s).
Hypothesis J_pay :
  forall (s : State) (c : nat) (boss : BossDefeatCondition),
    J s -> currentBoss s = Some boss -> bribeCost boss <= playerMoney s ->
    J (store
         (defeatBoss rnd true
            (set_bribesBosses (bribesBosses s + 1)
               (set_playerMoney (playerMoney s - bribeCost boss) s)) c)).
Hypothesis J_initialize :
  forall (s : State) (c : nat), J s -> J (fst (initializeGame rnd s c)).
Hypothesis J_reset :
  forall (s : State) (c : nat), J s -> J (fst (resetGame rnd s c)).

Lemma checkEndOfBossBattle_preserves (s : State) (c : nat) :
  J s -> J (store (checkEndOfBossBattle rnd s c)).
Proof.
  intros H.
  destruct (checkEndOfBossBattle_cases rnd s c) as [-> | [-> | [-> | ->]]].
  - exact H.
  - exact H.
  - exact (J_fail s H).
  - exact (J_defeat s c H).
Qed.

Lemma runCommand_preserves (cmd : Command) (s : State) (c : nat) :
  J s -> J (store (runCommand rnd cmd s c)).
Proof.
  intros H. destruct cmd as [| idx | die | o | |]; cbn [runCommand].
  - pose proof (J_initialize s c H) as Hi.
    destruct (initializeGame rnd s c). exact Hi.
  - destruct (rollDice_cases rnd idx s c)
      as [-> | [(_ & ->) | (steps & s0 & c0 & -> & R)]].
    + exact H.
    + apply checkEndOfBossBattle_preserves, J_freeThrow, H.
    + exact (J_roll s s0 steps c0 H R).
  - destruct (rollDiceForBoss_cases rnd die s c)
      as [-> | [-> | (_ & d & Hd & ->)]].
    + exact H.
    + exact H.
    + apply checkEndOfBossBattle_preserves, J_bagThrow; assumption.
  - apply J_choice, H.
  - unfold payToDefeatBoss.
    destruct (currentBoss s) as [boss |] eqn:Hboss; [| exact H].
    destruct (decide (playerMoney s >= bribeCost boss)); [| exact H].
    apply (J_pay s c boss H Hboss). lia.
  - pose proof (J_reset s c H) as Hi.
    destruct (resetGame rnd s c). exact Hi.
Qed.

Lemma runCommands_preserves (cmds : list Command) (s : State) (c : nat) :
  J s -> J (store (runCommands rnd cmds s c)).
Proof.
  revert s c. induction cmds as [| cmd cmds IH]; intros s c H.
  - exact H.
  - cbn [runCommands]. apply IH, runCommand_preserves, H.
Qed.

End Preservation.

Section Run.

Variable rnd : nat -> Q.

(** ** The bag *)

(** X23. [addReservedDie] fills the bag up to its capacity and no
    further.  When the dice of a list are added one after the other, the
    bag keeps what it held, in its order, and takes behind it the first
    dice of the list, in their order, as many as it has room for; the dice
    after those are dropped and the bag holds them nowhere.  Each die that
    went in is counted as obtained, the capacity is left as it was, and a
    bag that is full takes nothing. *)
Theorem addReservedDie_fills_to_capacity (dice : list Die) (s : State) :
  let s' := foldl (fun s dieData => addReservedDie dieData s) s dice in
  let room := (Z.to_nat (maxDiceInBag s) - length (reservedDice s))%nat in
  reservedDice s' = reservedDice s ++ take room dice /\
  diceObtained s' = diceObtained s + Z.of_nat (Nat.min room (length dice)) /\
  maxDiceInBag s' = maxDiceInBag s.
Proof.
  cbv zeta. revert s.
  induction dice as [| dieData dice IH]; intros s.
  - cbn [foldl]. rewrite take_nil, app_nil_r. cbn [length].
    rewrite Nat.min_0_r. repeat split; lia.
  - cbn [foldl]. specialize (IH (addReservedDie dieData s)).
    destruct IH as (Hbag & Hob & Hm). rewrite Hbag, Hob, Hm. clear Hbag Hob Hm.
    unfold addReservedDie.
    destruct (decide (Z.of_nat (length (reservedDice s)) < maxDiceInBag s))
      as [Hroom | Hfull]; state_simpl.
    + rewrite length_app. cbn [length].
      replace (Z.to_nat (maxDiceInBag s) - length (reservedDice s))%nat
        with (S (Z.to_nat (maxDiceInBag s)
                 - (length (reservedDice s) + 1)))%nat by lia.
      cbn [take]. rewrite <- app_assoc. cbn [app].
      split; [reflexivity |]. split; [lia | reflexivity].
    + replace (Z.to_nat (maxDiceInBag s) - length (reservedDice s))%nat
        with 0%nat by lia.
      cbn [take]. repeat split; reflexivity.
Qed.

Lemma length_delete_le {A} (l : list A) (i : nat) :
  (length (delete i l) <= length l)%nat.
Proof.
  revert i. induction l as [| x l IH]; intros [| i].
  - apply Nat.le_refl.
  - apply Nat.le_refl.
  - change (delete 0%nat (x :: l)) with l. cbn [length]. lia.
  - change (delete (S i) (x :: l)) with (x :: delete i l).
    cbn [length]. specialize (IH i). lia.
Qed.

Lemma setupStage_fields (s : State) (c : nat) :
  let s' := fst (setupStage rnd s c) in
  reservedDice s' = reservedDice s /\ maxDiceInBag s' = maxDiceInBag s /\
  diceObtained s' = diceObtained s /\ playerStage s' = playerStage s /\
  currentStageConfig s' = currentStageConfig s /\
  totalRolls s' = totalRolls s /\ bossesDefeated s' = bossesDefeated s /\
  perfectBossDefeats s' = perfectBossDefeats s /\
  bribesBosses s' = bribesBosses s /\ playerMoney s' = playerMoney s /\
  playerPosition s' = 0 /\ playerLap s' = 1 /\ gamePhase s' = rolling.
Proof.
  cbv zeta. rewrite (setupStage_store rnd s c). repeat split; reflexivity.
Qed.


Lemma bagInv_ext (s s' : State) :
  bagInv s ->
  maxDiceInBag s' = maxDiceInBag s ->
  diceObtained s <= diceObtained s' ->
  (length (reservedDice s') <= length (reservedDice s))%nat ->
  bagInv s'.
Proof. unfold bagInv. intros (H1 & H2 & H3) E1 E2 E3. lia. Qed.

Lemma defeatBoss_bagInv (wasBribed : bool) (s : State) (c : nat) :
  bagInv s -> bagInv (store (defeatBoss rnd wasBribed s c)).
Proof.
  intros H. destruct (defeatBoss_bag rnd wasBribed s c) as (B1 & B2 & B3).
  apply (bagInv_ext s); [exact H | exact B2 | lia | rewrite B1; lia].
Qed.

Lemma runCommands_bagInv (cmds : list Command) (s : State) (c : nat) :
  bagInv s -> bagInv (store (runCommands rnd cmds s c)).
Proof.
  apply runCommands_preserves.
  - intros s0 c0 H. apply (bagInv_ext s0); [exact H | | |];
      rewrite (afterFreeThrow_store rnd s0 c0); state_simpl; lia.
  - intros die d s0 c0 H Hd. apply (bagInv_ext s0); [exact H | | |];
      rewrite (afterBagThrow_store rnd die d s0 c0); state_simpl; try lia.
    destruct die; cbn [bagWithout]; [apply length_delete_le | lia].
  - intros s0 H. exact H.
  - apply (defeatBoss_bagInv false).
  - intros s0 s1 steps c0 H (R & Hbag).
    destruct (movePlayer_kept rnd steps s1 c0) as (K1 & K2 & _ & _ & _ & _ & _ & K8 & _).
    apply (bagInv_ext s0); [exact H | | |].
    + rewrite K2, R. reflexivity.
    + rewrite K8, R. state_simpl. lia.
    + rewrite K1. destruct Hbag as [-> | (index & _ & ->)];
        [lia | apply length_delete_le].
  - intros o s0 (H1 & H2 & H3). unfold playerMakesChoice, bagInv.
    destruct (decide (gamePhase s0 <> awaiting_choice \/
                      choiceDetails s0 = None)); [tauto |].
    cbn zeta. destruct (action o) as [v | d].
    + repeat match goal with
             | |- context [decide ?P] => destruct (decide P)
             end; state_simpl; tauto.
    + unfold addReservedDie. state_simpl.
      destruct (decide (Z.of_nat (length (reservedDice s0)) < maxDiceInBag s0));
        state_simpl;
        repeat match goal with
               | |- context [decide ?P] => destruct (decide P)
               end; state_simpl; rewrite ?length_app; cbn [length];
        repeat split; lia.
  - intros s0 c0 boss H _ _. apply defeatBoss_bagInv. exact H.
  - intros s0 c0 (H1 & H2 & H3). unfold initializeGame.
    match goal with
    | |- context [setupStage rnd ?s1 ?c1] =>
        pose proof (setupStage_fields s1 c1) as F;
        destruct (setupStage rnd s1 c1) as [s3 c3]
    end.
    cbv zeta in F. destruct F as (F1 & F2 & F3 & _). state_simpl.
    assert (B : bagInv s3).
    { unfold bagInv. rewrite F1, F2, F3. cbn [length]. lia. }
    destruct (decide (gamePhase s3 <> awaiting_choice)); exact B.
  - intros s0 c0 (H1 & H2 & H3). unfold resetGame.
    match goal with
    | |- context [setupStage rnd ?s1 ?c1] =>
        pose proof (setupStage_fields s1 c1) as F
    end.
    cbv zeta in F. destruct F as (F1 & F2 & F3 & _). state_simpl.
    unfold bagInv. rewrite F1, F2, F3. cbn [length]. lia.
Qed.

(** X24. Through any sequence of commands, from the store as it is
    created, the bag never holds more than fifteen dice, its capacity stays
    fifteen, and it never holds more dice than were counted as obtained. *)
Theorem bag_never_exceeds_capacity (cmds : list Command) (c : nat) :
  let s := store (runCommands rnd cmds initialState c) in
  maxDiceInBag s = MAX_RESERVED_DICE /\
  Z.of_nat (length (reservedDice s)) <= MAX_RESERVED_DICE /\
  Z.of_nat (length (reservedDice s)) <= diceObtained s.
Proof.
  cbv zeta.
  assert (H : bagInv (store (runCommands rnd cmds initialState c))).
  { apply runCommands_bagInv. unfold bagInv. cbn.
    unfold MAX_RESERVED_DICE. lia. }
  destruct H as (H1 & H2 & H3). rewrite H1 in H2.
  repeat split; assumption.
Qed.

(** ** The counters of the summary *)




End Run.

(** ** The player on the board *)

Section OnBoard.

Variable rnd : nat -> Q.

Lemma onBoard_ext (s s' : State) :
  onBoard s ->
  currentStageConfig s' = currentStageConfig s ->
  length (boardSquares s') = length (boardSquares s) ->
  0 <= playerPosition s' < totalBoardSquares s ->
  onBoard s'.
Proof.
  unfold onBoard. intros (Hc & Hl & Hp) E1 E2 E3.
  rewrite (totalBoardSquares_config s s' E1), E1, E2. tauto.
Qed.

Lemma onBoard_total (s : State) : onBoard s -> 4 <= totalBoardSquares s.
Proof. intros ([stage Hc] & _). exact (totalBoardSquares_known s stage Hc). Qed.

Lemma handleSquareLanding_length (s : State) (c : nat) :
  length (boardSquares (fst (handleSquareLanding rnd s c)))
  = length (boardSquares s).
Proof.
  unfold handleSquareLanding.
  repeat (match goal with
          | |- context [decide ?P] => destruct (decide P)
          | |- context [match ?x with _ => _ end] => destruct x
          end; state_simpl);
    cbn [fst]; rewrite ?length_insert; reflexivity.
Qed.

Lemma landAndFinish_onBoard (s : State) (c : nat) :
  onBoard s -> onBoard (store (landAndFinish rnd s c)).
Proof.
  intros H. destruct (landAndFinish_store rnd s c) as (_ & L & _).
  unfold landedFrom in L.
  assert (Hlen : length (boardSquares (store (landAndFinish rnd s c)))
                 = length (boardSquares s)).
  { unfold landAndFinish.
    pose proof (handleSquareLanding_length (set_gamePhase landed s) c) as Hl.
    destruct (handleSquareLanding rnd (set_gamePhase landed s) c) as [s1 c1].
    repeat match goal with
           | |- context [decide ?P] => destruct (decide P)
           end; state_simpl; exact Hl. }
  apply (onBoard_ext s); [exact H | | exact Hlen |].
  - rewrite L. reflexivity.
  - rewrite L. state_simpl. apply H.
Qed.

Lemma handleBossEncounter_onBoard (s : State) (c : nat) :
  onBoard s -> onBoard (store (handleBossEncounter s c)).
Proof.
  intros H. unfold handleBossEncounter.
  destruct (STAGE_CONFIGS (playerStage s)); [| exact H].
  apply (onBoard_ext s); [exact H | reflexivity | reflexivity | apply H].
Qed.

Lemma setupLapEffects_onBoard (s : State) (c : nat) :
  onBoard s -> onBoard (fst (setupLapEffects rnd s c)).
Proof.
  intros H. pose proof (setupLapEffects_store rnd s c) as E.
  apply (onBoard_ext s); [exact H | | apply setupLapEffects_length |].
  - rewrite E. reflexivity.
  - rewrite E. state_simpl. apply H.
Qed.

Lemma creditSquare_onBoard (s : State) : onBoard s -> onBoard (creditSquare s).
Proof.
  intros H. pose proof (creditSquare_store s) as E.
  apply (onBoard_ext s); [exact H | | |]; rewrite E; try reflexivity.
  state_simpl. apply H.
Qed.

Lemma walk_onBoard (n : nat) (direction : Z) (s : State) (c : nat) :
  onBoard s ->
  match walk rnd n direction s c with
  | walkDone s' _ _ => onBoard s'
  | walkBoss r => onBoard (store r)
  end.
Proof.
  revert s c. induction n as [| n IH]; intros s c H.
  - exact H.
  - cbn beta iota zeta delta [walk].
    destruct (decide (isGameOver s = true)); [exact H |].
    pose proof (onBoard_total s H) as Ht.
    pose proof H as (_ & _ & Hpos).
    assert (Hstep : forall p : Z,
               0 <= p < totalBoardSquares s ->
               onBoard (set_playerPosition p s)).
    { intros p Hp.
      apply (onBoard_ext s); [exact H | reflexivity | reflexivity | exact Hp]. }
    destruct (decide (direction > 0)).
    + pose proof (Hstep (Z.rem (playerPosition s + 1) (totalBoardSquares s))
                    ltac:(apply Z.rem_bound_pos; lia)) as H1.
      state_simpl.
      destruct (decide (Z.rem (playerPosition s + 1) (totalBoardSquares s) = 0)).
      * assert (H2 : onBoard
                       (set_playerLap (playerLap s + 1)
                          (set_playerPosition
                             (Z.rem (playerPosition s + 1)
                                (totalBoardSquares s)) s))).
        { apply (onBoard_ext _ _ H1); try reflexivity. apply H1. }
        destruct (decide (playerLap s + 1
                          = lapsToComplete (currentStageConfig s))).
        -- apply handleBossEncounter_onBoard.
           apply (onBoard_ext _ _ H2); try reflexivity. apply H2.
        -- pose proof (setupLapEffects_onBoard _ c H2) as H3.
           destruct (setupLapEffects rnd _ c) as [s3 c3]. exact H3.
      * apply IH, creditSquare_onBoard, H1.
    + apply IH, Hstep. apply Z.rem_bound_pos; lia.
Qed.

Lemma movePlayer_onBoard (steps : Z) (s : State) (c : nat) :
  onBoard s -> onBoard (store (movePlayer rnd steps s c)).
Proof.
  intros H. unfold movePlayer.
  match goal with
  | |- context [walk rnd ?n ?d ?s0 c] =>
      assert (H0 : onBoard s0)
        by (apply (onBoard_ext s); [exact H | reflexivity | reflexivity
                                   | apply H]);
      pose proof (walk_onBoard n d s0 c H0) as W;
      destruct (walk rnd n d s0 c) as [r | s1 c1 passed]
  end.
  - exact W.
  - destruct passed; [| apply landAndFinish_onBoard, W].
    destruct (decide (playerLap s1 = lapsToComplete (currentStageConfig s1))).
    + apply handleBossEncounter_onBoard.
      apply (onBoard_ext s1); [exact W | reflexivity | reflexivity | apply W].
    + pose proof (setupLapEffects_onBoard s1 c1 W) as H3.
      destruct (setupLapEffects rnd s1 c1) as [s3 c3].
      apply landAndFinish_onBoard, H3.
Qed.

Lemma setupStage_onBoard (s : State) (c : nat) :
  (exists stage : Z, STAGE_CONFIGS stage = Some (currentStageConfig s)) ->
  onBoard (fst (setupStage rnd s c)).
Proof.
  intros [stage Hc].
  pose proof (setupStage_store rnd s c) as E.
  pose proof (setupStage_length rnd s c) as L.
  pose proof (totalBoardSquares_known s stage Hc) as Ht.
  assert (Ec : currentStageConfig (fst (setupStage rnd s c))
               = currentStageConfig s) by (rewrite E; reflexivity).
  unfold onBoard. rewrite (totalBoardSquares_config _ _ Ec), Ec, L.
  split; [exists stage; exact Hc |]. split; [lia |].
  rewrite E. state_simpl. lia.
Qed.

Lemma initializeGame_onBoard (s : State) (c : nat) :
  (exists stage : Z, STAGE_CONFIGS stage = Some (currentStageConfig s)) ->
  onBoard (fst (initializeGame rnd s c)).
Proof.
  intros Hc. unfold initializeGame.
  match goal with
  | |- context [setupStage rnd ?s1 ?c1] =>
      pose proof (setupStage_onBoard s1 c1 Hc) as F;
      destruct (setupStage rnd s1 c1) as [s3 c3]
  end.
  cbn [fst] in *.
  destruct (decide (gamePhase s3 <> awaiting_choice)); [| exact F].
  apply (onBoard_ext s3); [exact F | reflexivity | reflexivity | apply F].
Qed.

Lemma defeatBoss_true_onBoard (s : State) (c : nat) :
  onBoard s -> onBoard (store (defeatBoss rnd true s c)).
Proof.
  intros H. pose proof (defeatBoss_true_cases rnd s c) as D. cbv zeta in D.
  destruct D as [-> | [-> | (config & Hcfg)]].
  - apply (onBoard_ext s); [exact H | reflexivity | reflexivity | apply H].
  - apply (onBoard_ext s); [exact H | reflexivity | reflexivity | apply H].
  - destruct (defeatBoss_next_stage rnd s c config Hcfg) as (_ & E & L).
    assert (Ec : currentStageConfig (store (defeatBoss rnd true s c)) = config)
      by (rewrite E; state_simpl; reflexivity).
    assert (Ep : playerPosition (store (defeatBoss rnd true s c)) = 0)
      by (rewrite E; state_simpl; reflexivity).
    unfold onBoard. rewrite Ec, Ep.
    split; [exists (playerStage s + 1); exact Hcfg |]. split; [exact L |].
    pose proof (totalBoardSquares_known
                  (store (defeatBoss rnd true s c)) (playerStage s + 1)) as Ht.
    rewrite Ec in Ht. specialize (Ht Hcfg). lia.
Qed.

Lemma defeatBoss_onBoard (wasBribed : bool) (s : State) (c : nat) :
  onBoard s -> onBoard (store (defeatBoss rnd wasBribed s c)).
Proof.
  intros H.
  destruct (defeatBoss_counted rnd wasBribed s c)
    as [(_ & _ & ->) | [(_ & ->) | (boss & _ & _ & ->)]].
  - apply (onBoard_ext s); [exact H | reflexivity | reflexivity | apply H].
  - apply defeatBoss_true_onBoard, H.
  - apply defeatBoss_true_onBoard.
    destruct (countVictory_store boss s) as (E & _).
    apply (onBoard_ext s); [exact H | | |]; rewrite E; try reflexivity.
    state_simpl. apply H.
Qed.

Lemma playerMakesChoice_board (chosenOption : ChoiceOption) (s : State) :
  let s' := playerMakesChoice chosenOption s in
  currentStageConfig s' = currentStageConfig s /\
  length (boardSquares s') = length (boardSquares s) /\
  playerPosition s' = playerPosition s.
Proof.
  cbv zeta. unfold playerMakesChoice, addReservedDie.
  repeat match goal with
         | |- context [decide ?P] => destruct (decide P)
         | |- context [match ?x with _ => _ end] => destruct x
         end; state_simpl; rewrite ?length_alter; repeat split; reflexivity.
Qed.

Lemma runCommands_onBoard (cmds : list Command) (s : State) (c : nat) :
  onBoard s -> onBoard (store (runCommands rnd cmds s c)).
Proof.
  apply runCommands_preserves.
  - intros s0 c0 H.
    apply (onBoard_ext s0); [exact H | | |];
      rewrite (afterFreeThrow_store rnd s0 c0); try reflexivity.
    state_simpl. apply H.
  - intros die d s0 c0 H Hd.
    apply (onBoard_ext s0); [exact H | | |];
      rewrite (afterBagThrow_store rnd die d s0 c0); try reflexivity.
    state_simpl. apply H.
  - intros s0 H.
    apply (onBoard_ext s0); [exact H | reflexivity | reflexivity | apply H].
  - intros s0 c0. apply defeatBoss_onBoard.
  - intros s0 s1 steps c0 H (R & _). apply movePlayer_onBoard.
    apply (onBoard_ext s0); [exact H | | |]; rewrite R; try reflexivity.
    state_simpl. apply H.
  - intros o s0 H.
    destruct (playerMakesChoice_board o s0) as (E1 & E2 & E3).
    apply (onBoard_ext s0); [exact H | exact E1 | exact E2 |].
    rewrite E3. apply H.
  - intros s0 c0 boss H _ _. apply defeatBoss_true_onBoard.
    apply (onBoard_ext s0); [exact H | reflexivity | reflexivity | apply H].
  - intros s0 c0 H. apply initializeGame_onBoard. apply H.
  - intros s0 c0 H. unfold resetGame. apply setupStage_onBoard.
    exists 1. reflexivity.
Qed.

Lemma runCommands_cons (cmd : Command) (cmds : list Command) (s : State)
    (c : nat) :
  runCommands rnd (cmd :: cmds) s c
  = runCommands rnd cmds (store (runCommand rnd cmd s c))
      (cursor (runCommand rnd cmd s c)).
Proof. reflexivity. Qed.

Lemma runCommands_initialized (cmds : list Command) (s : State) (c : nat) :
  store (runCommands rnd (cmdInitializeGame :: cmds) s c)
  = store (runCommands rnd cmds (fst (initializeGame rnd s c))
             (snd (initializeGame rnd s c))).
Proof.
  rewrite runCommands_cons. unfold runCommand.
  destruct (initializeGame rnd s c) as [s1 c1]. reflexivity.
Qed.

(** X26. Once the game is initialised the player always stands on a
    square of the board.  Through any further commands the board has
    exactly the squares its configuration counts, the configuration is one
    of the five of the table, the position is the index of a square of the
    board, and (for samples in [0,1)) that square carries the position as
    its id. *)
Theorem player_stands_on_a_square (cmds : list Command) (c : nat) :
  unitSamples rnd ->
  let s := store (runCommands rnd (cmdInitializeGame :: cmds) initialState c) in
  (exists stage : Z,
     1 <= stage <= MAX_STAGES /\
     STAGE_CONFIGS stage = Some (currentStageConfig s)) /\
  Z.of_nat (length (boardSquares s)) = totalBoardSquares s /\
  0 <= playerPosition s < totalBoardSquares s /\
  exists sq : Square,
    at_index (boardSquares s) (playerPosition s) = Some sq /\
    id sq = playerPosition s.
Proof.
  intros Hu. cbv zeta.
  pose proof (runCommands_boardReady rnd (cmdInitializeGame :: cmds)
                initialState c Hu initialState_boardReady) as (Hidx & _).
  rewrite runCommands_initialized in *.
  pose proof (runCommands_onBoard cmds _ (snd (initializeGame rnd initialState c))
                (initializeGame_onBoard initialState c
                   (ex_intro _ 1 eq_refl))) as H.
  set (s' := store (runCommands rnd cmds
                      (fst (initializeGame rnd initialState c))
                      (snd (initializeGame rnd initialState c)))) in *.
  clearbody s'.
  destruct H as ([stage Hc] & Hl & Hp).
  split.
  { exists stage. split; [| exact Hc].
    apply (STAGE_CONFIGS_board _ _ Hc). }
  split; [exact Hl |]. split; [exact Hp |].
  destruct (lookup_lt_is_Some_2 (boardSquares s')
              (Z.to_nat (playerPosition s'))) as [sq Hsq]; [lia |].
  exists sq. unfold at_index. rewrite decide_False by lia.
  split; [exact Hsq |]. rewrite (Hidx _ _ Hsq). lia.
Qed.

(** ** Starting over *)

Lemma setupLapEffects_ext (s s' : State) (c : nat) :
  boardSquares s = boardSquares s' ->
  currentStageConfig s = currentStageConfig s' ->
  playerStage s = playerStage s' ->
  boardSquares (fst (setupLapEffects rnd s c))
  = boardSquares (fst (setupLapEffects rnd s' c)) /\
  snd (setupLapEffects rnd s c) = snd (setupLapEffects rnd s' c).
Proof.
  intros Hb Hc Hs. unfold setupLapEffects. cbn [fst snd].
  apply setupLapEffects_run_ext; assumption.
Qed.

(** The state [setupStage] lays the board out from. *)
Lemma setupStage_unfold (s : State) (c : nat) :
  setupStage rnd s c
  = let s0 :=
      generateBoardLayout
        (set_choiceDetails None
           (set_lastDiceRoll None
              (set_lastPlayerPositionBeforeThisMove 0
                 (set_playerPosition 0
                    (set_playerLap 1
                       (set_boardCols (cols (currentStageConfig s))
                          (set_boardRows (rows (currentStageConfig s))
                             s))))))) in
    (set_isAnimating false
       (set_gamePhase rolling (fst (setupLapEffects rnd s0 c))),
     snd (setupLapEffects rnd s0 c)).
Proof.
  unfold setupStage. cbv zeta.
  destruct (setupLapEffects rnd _ c) as [s1 c1]. reflexivity.
Qed.

Lemma setupStage_ext (s s' : State) (c : nat) :
  currentStageConfig s = currentStageConfig s' ->
  playerStage s = playerStage s' ->
  boardSquares (fst (setupStage rnd s c))
  = boardSquares (fst (setupStage rnd s' c)) /\
  snd (setupStage rnd s c) = snd (setupStage rnd s' c).
Proof.
  intros Hc Hs. rewrite !setupStage_unfold. cbv zeta.
  match goal with
  | |- context [setupLapEffects rnd ?a c] =>
      match goal with
      | |- context [setupLapEffects rnd ?b c] =>
          lazymatch a with
          | b => fail
          | _ =>
              assert (Hb0 : boardSquares a = boardSquares b);
              [| assert (Hc0 : currentStageConfig a = currentStageConfig b);
                 [| assert (Hs0 : playerStage a = playerStage b);
                    [| destruct (setupLapEffects_ext a b c Hb0 Hc0 Hs0)
                         as [E1 E2];
                       destruct (setupLapEffects rnd a c) as [sa ca];
                       destruct (setupLapEffects rnd b c) as [sb cb]]]]
          end
      end
  end.
  - unfold generateBoardLayout, totalBoardSquares, cornerSquareIds,
      bottomRightCornerId. state_simpl. rewrite Hc. reflexivity.
  - unfold generateBoardLayout. state_simpl. exact Hc.
  - unfold generateBoardLayout. state_simpl. exact Hs.
  - cbn [fst snd] in *. split; [exact E1 | exact E2].
Qed.

(** X27. [resetGame] starts over from whatever store it is called on:
    the store it leaves is the one [initializeGame] makes of the store as
    it is created, with the same samples drawn, but for four fields that
    the reset does not touch and that keep the value they had: the capacity
    of the bag, the last general roll and the boss's hp and full hp. *)
Theorem resetGame_is_a_fresh_start (s : State) (c : nat) :
  resetGame rnd s c
  = (set_currentBossMaxHP (currentBossMaxHP s)
       (set_currentBossHP (currentBossHP s)
          (set_lastGeneralRoll (lastGeneralRoll s)
             (set_maxDiceInBag (maxDiceInBag s)
                (fst (initializeGame rnd initialState c))))),
     snd (initializeGame rnd initialState c)).
Proof.
  unfold resetGame, initializeGame.
  match goal with
  | |- setupStage rnd ?a c = _ =>
      match goal with
      | |- context [let '(_, _) := setupStage rnd ?b c in _] =>
          pose proof (setupStage_ext a b c) as X;
          pose proof (setupStage_store rnd a c) as Ea;
          pose proof (setupStage_store rnd b c) as Eb;
          destruct (setupStage rnd a c) as [sa ca];
          destruct (setupStage rnd b c) as [sb cb]
      end
  end.
  cbn [fst snd] in *.
  destruct X as [Xb Xc]; [state_simpl; reflexivity .. |].
  subst cb.
  rewrite decide_True by (rewrite Eb; discriminate).
  cbn [fst snd]. f_equal.
  rewrite Ea, Eb, Xb. unfold initialState. destruct s.
  state_unfold. reflexivity.
Qed.

End OnBoard.

(** * What the components show *)

(** X28. The ending of the summary.  Of the seven messages of
    [getEnding] two can never be shown, whatever the counters: the tests
    before them leave only the case of as many bosses beaten as bribed, and
    with all five beaten that is the case of all five bribed, which the
    first test has taken.  So a run that beats all five bosses without a
    bribe gets the message of the skilled warrior, or of the brave one when
    no victory was perfect, and the last message is shown exactly when as
    many bosses were beaten as bribed and not all five were bribed. *)
Theorem getEnding_never_legend (s : State) :
  getEnding s <> legend /\ getEnding s <> true_champion /\
  (getEnding s = journey_is_over <->
   bossesDefeated s = bribesBosses s /\ bribesBosses s <> MAX_STAGES) /\
  (bribesBosses s = 0 -> bossesDefeated s = MAX_STAGES ->
   getEnding s = if decide (perfectBossDefeats s > 0) then skilled_warrior
                 else brave_but_imprecise).
Proof.
  unfold getEnding, MAX_STAGES. cbn zeta.
  split; [| split; [| split; [split |]]].
  - repeat match goal with
           | |- context [decide ?P] => destruct (decide P)
           end; try discriminate; exfalso; lia.
  - repeat match goal with
           | |- context [decide ?P] => destruct (decide P)
           end; try discriminate; exfalso; lia.
  - repeat match goal with
           | |- context [decide ?P] => destruct (decide P)
           end; intros H; try discriminate H; lia.
  - intros [H1 H2].
    repeat match goal with
           | |- context [decide ?P] => destruct (decide P)
           end; try reflexivity; exfalso; lia.
  - intros H1 H2.
    repeat match goal with
           | |- context [decide ?P] => destruct (decide P)
           end; try reflexivity; exfalso; lia.
Qed.

(** X29. The cycle of the animation speed: a toggle always changes the
    speed, to normal (1), faster (2) or instant (0); from one of these three
    toggles come back to it; and the delay of an animation is nothing at
    instant speed, its base duration at normal speed and half of it at the
    faster speed. *)
Theorem animation_speed_cycle (animationSpeedMultiplier : Z)
    (baseDuration : Q) :
  let next := toggleAnimationSpeed animationSpeedMultiplier in
  next <> animationSpeedMultiplier /\
  (next = 0 \/ next = 1 \/ next = 2) /\
  (0 <= animationSpeedMultiplier <= 2 ->
   toggleAnimationSpeed (toggleAnimationSpeed next)
   = animationSpeedMultiplier) /\
  getAnimationDelay 0 baseDuration = 0%Q /\
  (getAnimationDelay 1 baseDuration == baseDuration)%Q /\
  (getAnimationDelay (toggleAnimationSpeed 1) baseDuration
   == baseDuration / 2)%Q.
Proof.
  cbv zeta.
  split; [| split; [| split; [| split; [| split]]]].
  - unfold toggleAnimationSpeed.
    repeat match goal with
           | |- context [decide ?P] => destruct (decide P)
           end; lia.
  - unfold toggleAnimationSpeed.
    repeat match goal with
           | |- context [decide ?P] => destruct (decide P)
           end; lia.
  - intros H.
    assert (Hm : animationSpeedMultiplier = 0 \/ animationSpeedMultiplier = 1
                 \/ animationSpeedMultiplier = 2) by lia.
    destruct Hm as [-> | [-> | ->]]; reflexivity.
  - reflexivity.
  - unfold getAnimationDelay. rewrite decide_False by lia.
    unfold Qdiv. change (/ inject_Z 1)%Q with 1%Q. apply Qmult_1_r.
  - change (toggleAnimationSpeed 1) with 2.
    unfold getAnimationDelay. rewrite decide_False by lia. reflexivity.
Qed.

Section Images.

Variable rnd : nat -> Q.

Lemma dieSteps_sign (d : Die) (c : nat) :
  unitSamples rnd ->
  (forall v : Z, die_value d = Some v -> 0 < v) ->
  match d with
  | DieNormal | DieD20 => 0 < fst (dieSteps rnd d c)
  | DieFixed v => fst (dieSteps rnd d c) = v /\ 0 < v
  | DieReverseFixed v => fst (dieSteps rnd d c) = - v /\ 0 < v
  | DieReverseRandom => fst (dieSteps rnd d c) < 0
  end.
Proof.
  intros Hu Hv. destruct d as [| v | | v |]; cbn [dieSteps].
  - pose proof (getRandomInt_range rnd 1 6 c Hu ltac:(lia)). lia.
  - specialize (Hv v eq_refl). rewrite decide_False by lia. cbn. lia.
  - pose proof (getRandomInt_range rnd 1 20 c Hu ltac:(lia)). lia.
  - specialize (Hv v eq_refl). rewrite decide_False by lia. cbn. lia.
  - pose proof (getRandomInt_range rnd 1 6 c Hu ltac:(lia)) as H.
    destruct (getRandomInt rnd 1 6 c) as [r c']. cbn in *. lia.
Qed.

(** X30. The image of the last roll is the image of the die that was
    rolled.  For a die of the bag rolled in the rolling phase, with samples
    in [0,1) and a positive value on a fixed die, [generateDieImageFilename]
    gives for the record of the last roll, read with its direction, the file
    it gives for the die itself as the dice panel shows it; the record keeps
    the type of the die as its original type. *)
Theorem last_roll_shows_the_die_rolled (index : nat) (d : Die) (s : State)
    (c : nat) :
  unitSamples rnd ->
  gamePhase s = rolling -> isGameOver s = false -> isAnimating s = false ->
  reservedDice s !! index = Some d ->
  (forall v : Z, die_value d = Some v -> 0 < v) ->
  let r := rollDice rnd (Z.of_nat index) s c in
  exists roll : DiceRoll,
    lastDiceRoll (store r) = Some roll /\
    originalType roll = die_type d /\
    is_Some (generateDieImageFilename (Some (ofDie d)) false) /\
    generateDieImageFilename (Some (ofLastDiceRoll roll)) true
    = generateDieImageFilename (Some (ofDie d)) false.
Proof.
  intros Hu Hphase Hover Hanim Hd Hv. cbv zeta.
  rewrite (rollDice_bag rnd index d s c Hphase Hover Hanim Hd).
  match goal with
  | |- context [movePlayer rnd ?st ?s0 ?c0] =>
      destruct (movePlayer_kept rnd st s0 c0) as (_ & _ & K & _)
  end.
  exists (rollRecord d (fst (dieSteps rnd d c))).
  split; [rewrite K; reflexivity |]. split; [reflexivity |].
  split; [destruct d; eexists; reflexivity |].
  pose proof (dieSteps_sign d c Hu Hv) as Hs.
  unfold rollRecord, generateDieImageFilename, ofLastDiceRoll, ofDie.
  destruct d as [| v | | v |]; cbn [die_type die_value] in *.
  - rewrite (decide_False (P := _ < 0)) by lia.
    rewrite (decide_True (P := _ >= 0)) by lia. reflexivity.
  - destruct Hs as [-> Hpos].
    rewrite (decide_False (P := _ < 0)) by lia.
    rewrite (decide_True (P := _ >= 0)) by lia.
    rewrite Z.abs_eq by lia. reflexivity.
  - rewrite (decide_False (P := _ < 0)) by lia.
    rewrite (decide_True (P := _ >= 0)) by lia. reflexivity.
  - destruct Hs as [-> Hpos].
    rewrite (decide_True (P := _ < 0)) by lia.
    rewrite (decide_False (P := _ >= 0)) by lia.
    rewrite Z.abs_neq, Z.opp_involutive by lia. reflexivity.
  - rewrite (decide_True (P := _ < 0)) by lia.
    rewrite (decide_False (P := _ >= 0)) by lia. reflexivity.
Qed.

End Images.


(** * The theorems on concrete inputs *)

Lemma demoRnd_unit : unitSamples demoRnd.
Proof.
  intros n. unfold demoRnd, Qle, Qlt. cbn.
  pose proof (Nat.mod_upper_bound n 7). lia.
Qed.

Lemma stage1_quotasOK : quotasOK (currentStageConfig stage1Board).
Proof. unfold quotasOK. cbn. lia. Qed.

(** The example of the specification: hp 15, throws 6, 6 and then 4 with
    the last unit of the budget and an empty bag; and a fixed die of 5 from
    the bag after a throw of 10, with no budget left. *)
Lemma boss_victory_at_throw_witness :
  wonByDamage (bossFight 1 [6; 6] [])
    (rollDice demoRnd (-1) (bossFight 1 [6; 6] []) 4) /\
  wonByDamage (bossFight 0 [10] [DieFixed 5])
    (rollDiceForBoss demoRnd (bagDie 0) (bossFight 0 [10] [DieFixed 5]) 4).
Proof.
  split.
  - apply (boss_victory_at_throw demoRnd (bossFight 1 [6; 6] []) 4
             (mkBoss 3 15 40) eq_refl eq_refl);
      vm_compute; [reflexivity | discriminate].
  - apply (proj2 (boss_victory_at_throw demoRnd
                    (bossFight 0 [10] [DieFixed 5]) 4
                    (mkBoss 3 15 40) eq_refl eq_refl) (bagDie 0) (DieFixed 5));
      vm_compute; [reflexivity | discriminate].
Defined.

Lemma boss_throw_budget_witness :
  rollDice demoRnd (-1) (bossFight 0 [3] [DieFixed 4]) 4
  = returned (bossFight 0 [3] [DieFixed 4]) 4 /\
  remainingBossRolls
    (store (rollDice demoRnd (-1) (bossFight 2 [3] [DieFixed 4]) 4)) = 1 /\
  remainingBossRolls
    (store (rollDiceForBoss demoRnd (bagDie 0)
              (bossFight 2 [3] [DieFixed 4]) 4)) = 2.
Proof.
  split; [| split].
  - apply (proj1 (boss_throw_budget demoRnd (bossFight 0 [3] [DieFixed 4]) 4
                    (mkBoss 3 15 40) eq_refl eq_refl) (-1)).
    vm_compute. discriminate.
  - apply (proj1 (proj2 (boss_throw_budget demoRnd
                           (bossFight 2 [3] [DieFixed 4]) 4
                           (mkBoss 3 15 40) eq_refl eq_refl)) (-1)).
    vm_compute. reflexivity.
  - apply (proj2 (proj2 (boss_throw_budget demoRnd
                           (bossFight 2 [3] [DieFixed 4]) 4
                           (mkBoss 3 15 40) eq_refl eq_refl))
             (bagDie 0) (DieFixed 4)).
    vm_compute. reflexivity.
Defined.

(** Against C2 as stated: with the budget at zero a die of the bag is still
    thrown and logged, and with budget left it takes none of it. *)
Lemma bag_die_ignores_budget :
  remainingBossRolls (bossFight 0 [] [DieFixed 3; DieFixed 4]) = 0 /\
  currentDiceThrows
    (store (rollDiceForBoss demoRnd (bagDie 0)
              (bossFight 0 [] [DieFixed 3; DieFixed 4]) 4)) = [3] /\
  reservedDice
    (store (rollDiceForBoss demoRnd (bagDie 0)
              (bossFight 0 [] [DieFixed 3; DieFixed 4]) 4)) = [DieFixed 4] /\
  remainingBossRolls (bossFight 2 [] [DieFixed 3; DieFixed 4]) = 2 /\
  remainingBossRolls
    (store (rollDiceForBoss demoRnd (bagDie 0)
              (bossFight 2 [] [DieFixed 3; DieFixed 4]) 4)) = 2.
Proof. vm_compute. repeat split; reflexivity. Qed.

Lemma lap_completed_stops_at_start_witness :
  playerLap (store (movePlayer demoRnd 3 beforeStart 0)) = 2 /\
  playerPosition (store (movePlayer demoRnd 3 beforeStart 0)) = 0.
Proof.
  apply (lap_completed_stops_at_start demoRnd 3 beforeStart 0);
    vm_compute; reflexivity || discriminate.
Defined.

(** Against C3 as stated: from square 19 of 20 on the first lap a fixed die
    of three leaves the player on the start square, not two squares past
    it, although the stage is not complete. *)
Lemma remaining_steps_dropped_at_start :
  playerPosition beforeStart = 19 /\
  totalBoardSquares beforeStart = 20 /\
  lapsToComplete (currentStageConfig beforeStart) = 3 /\
  playerLap (store (rollDice demoRnd 0 beforeStart 0)) = 2 /\
  gamePhase (store (rollDice demoRnd 0 beforeStart 0)) = rolling /\
  (value <$> lastDiceRoll (store (rollDice demoRnd 0 beforeStart 0))) = Some 3 /\
  playerPosition (store (rollDice demoRnd 0 beforeStart 0)) = 0 /\
  playerPosition (store (rollDice demoRnd 0 beforeStart 0)) <> 2.
Proof. vm_compute. repeat split; reflexivity || discriminate. Qed.

(** C4, on the code. After the boss of the last stage is bribed, or beaten
    by damage, the run is over and the summary is shown, and the phase is
    still the boss encounter: [defeatBoss] does not set it to [game_won],
    which [advanceStage] does at the same test. *)
Theorem last_boss_leaves_boss_phase :
  playerStage (lastBossFight [] [] 250) = MAX_STAGES /\
  (let r := payToDefeatBoss demoRnd (lastBossFight [] [] 250) 0 in
   isGameOver (store r) = true /\ showSummaryModal (store r) = true /\
   gamePhase (store r) = boss_encounter /\ gamePhase (store r) <> game_won) /\
  (let r := rollDiceForBoss demoRnd (bagDie 0)
              (lastBossFight [64] [DieFixed 6] 0) 0 in
   isGameOver (store r) = true /\ showSummaryModal (store r) = true /\
   gamePhase (store r) = boss_encounter /\ gamePhase (store r) <> game_won) /\
  gamePhase (fst (advanceStage demoRnd (lastBossFight [] [] 250) 0)) = game_won.
Proof. vm_compute. repeat split; reflexivity || discriminate. Qed.

Lemma rollDice_out_of_range_witness :
  rollDice demoRnd 99 stage1Board 4 = rollDice demoRnd (-1) stage1Board 4 /\
  reservedDice (store (rollDice demoRnd 99 stage1Board 4))
  = reservedDice stage1Board.
Proof.
  destruct (rollDice_out_of_range demoRnd 99 stage1Board 4) as (H1 & H2 & _).
  - vm_compute. reflexivity.
  - right. vm_compute. discriminate.
  - split; [exact H1 | exact H2].
Defined.

(** Against C5 as stated: with the index 99 and an empty bag the call is no
    no-op; the player moves four squares. *)
Lemma out_of_range_index_moves_player :
  gamePhase stage1Board = rolling /\
  reservedDice stage1Board = [] /\
  playerPosition stage1Board = 0 /\
  playerPosition (store (rollDice demoRnd 99 stage1Board 4)) = 4 /\
  store (rollDice demoRnd 99 stage1Board 4) <> stage1Board.
Proof.
  split; [reflexivity |]. split; [reflexivity |]. split; [reflexivity |].
  split; [vm_compute; reflexivity |].
  intros H. apply (f_equal playerPosition) in H. vm_compute in H.
  discriminate.
Qed.

Lemma normal_money_credited_per_step_witness :
  playerMoney (store (movePlayer demoRnd 3 moneyLane 0))
  = playerMoney moneyLane + creditsAlong (boardSquares moneyLane) 0 3 /\
  creditsAlong (boardSquares moneyLane) 0 3 = 6 /\
  (exists s', walk demoRnd 3 (-1) (set_playerPosition 4 moneyLane) 0
              = walkDone s' 0 false /\
              playerMoney s' = playerMoney (set_playerPosition 4 moneyLane)).
Proof.
  destruct (normal_money_credited_per_step demoRnd moneyLane 0)
    as (_ & _ & _ & _ & Hmove).
  destruct (normal_money_credited_per_step demoRnd
              (set_playerPosition 4 moneyLane) 0)
    as (_ & _ & Hback & _).
  split; [| split].
  - apply (Hmove 3 (mkSquare 3 normal normal_money false (Some (amount 3))));
      vm_compute; reflexivity || discriminate.
  - vm_compute. reflexivity.
  - apply (Hback 3%nat (-1)). vm_compute. discriminate.
Defined.

Lemma bribe_resolution_witness :
  playerMoney
    (store (payToDefeatBoss demoRnd
              (set_playerMoney 50 (bossFight 3 [] [])) 0)) = 10 /\
  payToDefeatBoss demoRnd (set_playerMoney 39 (bossFight 3 [] [])) 0
  = returned (set_playerMoney 39 (bossFight 3 [] [])) 0.
Proof.
  split.
  - pose proof (bribe_resolution demoRnd
                  (set_playerMoney 50 (bossFight 3 [] [])) 0) as H.
    cbv zeta in H.
    change (currentBoss (set_playerMoney 50 (bossFight 3 [] [])))
      with (Some (mkBoss 3 15 40)) in H.
    destruct H as [_ H]. destruct H as (_ & H & _).
    + vm_compute. discriminate.
    + exact H.
  - pose proof (bribe_resolution demoRnd
                  (set_playerMoney 39 (bossFight 3 [] [])) 0) as H.
    cbv zeta in H.
    change (currentBoss (set_playerMoney 39 (bossFight 3 [] [])))
      with (Some (mkBoss 3 15 40)) in H.
    destruct H as [H _]. apply H. vm_compute. reflexivity.
Defined.

(** The examples of the specification: hp 15 and throws 10 and 5 make a
    perfect defeat, throws 6, 6 and 4 a defeat that is not perfect. *)
Lemma damage_victory_counters_witness :
  perfectBossDefeats
    (store (rollDiceForBoss demoRnd (bagDie 0)
              (bossFight 0 [10] [DieFixed 5]) 4)) = 1 /\
  perfectBossDefeats
    (store (rollDice demoRnd (-1) (bossFight 1 [6; 6] []) 4)) = 0 /\
  bossesDefeated
    (store (rollDice demoRnd (-1) (bossFight 1 [6; 6] []) 4)) = 1.
Proof.
  destruct (damage_victory_counters demoRnd (bossFight 0 [10] [DieFixed 5]) 4
              (mkBoss 3 15 40) eq_refl) as (_ & _ & Hbag).
  destruct (damage_victory_counters demoRnd (bossFight 1 [6; 6] []) 4
              (mkBoss 3 15 40) eq_refl) as (_ & Hfree & _).
  destruct (Hbag eq_refl (bagDie 0) (DieFixed 5) eq_refl) as [_ Hp].
  { vm_compute. discriminate. }
  destruct (Hfree eq_refl (-1)) as [Hd Hq].
  { vm_compute. reflexivity. }
  { vm_compute. discriminate. }
  split; [exact Hp |]. split; [exact Hq | exact Hd].
Defined.

(** The first lap of stage 1: sixteen of the twenty squares can take an
    effect, so no quota runs out and each count is within its bounds, the
    lower one included; the squares left over all get money. *)
Lemma lap_effects_within_quotas_witness :
  let board := boardSquares (fst (setupLapEffects demoRnd stage1Board 0)) in
  length (boardSquares stage1Board) = 20%nat /\
  freeSquares stage1Board = 16%nat /\
  (forall sq : Square,
     sq ∈ board ->
     id sq ∈ cornerSquareIds stage1Board \/ baseType sq <> normal ->
     currentEffectType sq = none) /\
  1 <= Z.of_nat (countEffect temp_bad_lap board) <= 2 /\
  2 <= Z.of_nat (countEffect choice_dice_money board) <= 4 /\
  2 <= Z.of_nat (countEffect choice_pick_die board) <= 4 /\
  (countEffect temp_bad_lap board + countEffect choice_dice_money board
   + countEffect choice_pick_die board + countMoney board)%nat = 16%nat.
Proof.
  assert (Htotal : freeSquares stage1Board = 16%nat)
    by (vm_compute; reflexivity).
  destruct (lap_effects_within_quotas demoRnd stage1Board 0
              (proj1 (generateBoardLayout_ready initialState))
              (proj2 (generateBoardLayout_ready initialState))
              demoRnd_unit stage1_quotasOK)
    as (Hfixed & Hsum & (Hb & Lb) & (Hc & Lc) & (Hp & Lp) & _).
  rewrite Htotal in Hsum, Lb, Lc, Lp.
  change (maxBadSquares (currentStageConfig stage1Board)) with 2 in Hb.
  change (minBadSquares (currentStageConfig stage1Board)) with 1 in Lb.
  change (maxChoiceDiceMoneySquares (currentStageConfig stage1Board))
    with 4 in Hc.
  change (minChoiceDiceMoneySquares (currentStageConfig stage1Board))
    with 2 in Lc.
  change (maxChoicePickDieSquares (currentStageConfig stage1Board))
    with 4 in Hp.
  change (minChoicePickDieSquares (currentStageConfig stage1Board))
    with 2 in Lp.
  cbv zeta.
  split; [vm_compute; reflexivity |]. split; [exact Htotal |].
  split; [exact Hfixed |].
  split; [lia |]. split; [lia |]. split; [lia | exact Hsum].
Defined.

(** Initialisation and fourteen turns end in the first boss encounter, two
    free throws in. *)
Lemma boss_hp_in_sync_witness :
  exists m : Z,
    currentBossMaxHP
      (store (runCommands demoRnd (cmdInitializeGame :: turns 14)
                initialState 0)) = Some m /\
    currentBossHP
      (store (runCommands demoRnd (cmdInitializeGame :: turns 14)
                initialState 0))
    = Some (m - totalOf
                  (currentDiceThrows
                     (store (runCommands demoRnd
                               (cmdInitializeGame :: turns 14)
                               initialState 0)))).
Proof.
  apply (boss_hp_in_sync demoRnd (cmdInitializeGame :: turns 14) 0).
  vm_compute. reflexivity.
Defined.

(** ** The further properties on concrete inputs *)

(** Close a side condition of a concrete input by evaluating it. *)
Ltac computed := vm_compute; repeat split; first [reflexivity | discriminate].

Lemma landsOn_standingOn (sq : Square) : landsOn (standingOn sq) sq.
Proof. repeat split. intros H. discriminate H. Qed.

(** Stage 1: a board of 6 by 6 has 20 squares, and the layout has them. *)
Lemma generateBoardLayout_shape_witness :
  totalBoardSquares initialState = 20 /\
  Z.of_nat (length (boardSquares (generateBoardLayout initialState)))
  = totalBoardSquares initialState.
Proof.
  pose proof (generateBoardLayout_shape initialState) as H. cbv zeta in H.
  destruct H as (H1 & H2 & _); [computed | computed |].
  split; [exact H1 | exact H2].
Defined.

(** Square 7 of stage 1 is on the border of the 6 by 6 grid. *)
Lemma grid_position_on_border_witness :
  let p := GameBoard.getSquareGridPosition initialState 7 6 6 in
  GameBoard.r p = 1 \/ GameBoard.r p = 6 \/
  GameBoard.c p = 1 \/ GameBoard.c p = 6.
Proof.
  pose proof (grid_position_on_border initialState 7 7) as H. cbv zeta in H.
  destruct H as ((_ & _ & H) & _); [computed | computed | computed |].
  exact H.
Defined.

(** The last square of stage 1 and the start square are neighbours. *)
Lemma grid_path_is_a_loop_witness :
  let cell := fun k => GameBoard.getSquareGridPosition initialState k 6 6 in
  Z.abs (GameBoard.r (cell 0) - GameBoard.r (cell 19))
  + Z.abs (GameBoard.c (cell 0) - GameBoard.c (cell 19)) = 1.
Proof.
  pose proof (grid_path_is_a_loop initialState 19) as H. cbv zeta in H.
  destruct H as (H & _); [computed | computed | computed |].
  exact H.
Defined.

(** A trap of stage 2 costs 10 to 30. *)
Lemma lap_square_amounts_witness :
  exists p : Z,
    effectDetails (fst (assignBad demoRnd 2 trapSquare 0)) = Some (penalty p) /\
    5 * 2 <= p <= 15 * 2.
Proof.
  destruct (lap_square_amounts demoRnd 2 20 (3 # 2) trapSquare 0 demoRnd_unit)
    as ((_ & _ & H) & _); [lia | computed |].
  exact H.
Defined.

Lemma applySquareEffect_agrees_witness :
  fst (handleSquareLanding demoRnd (standingOn hugeSquare) 0)
  = store
      (applySquareEffect demoRnd
         (boardSquare (Z.to_nat (playerPosition (standingOn hugeSquare))))
         (cornerCharge hugeSquare (standingOn hugeSquare)) 0) /\
  fst (handleSquareLanding demoRnd (standingOn choiceSquare) 0)
  <> store
       (applySquareEffect demoRnd
          (boardSquare (Z.to_nat (playerPosition (standingOn choiceSquare))))
          (cornerCharge choiceSquare (standingOn choiceSquare)) 0).
Proof.
  destruct (applySquareEffect_agrees demoRnd (standingOn hugeSquare) 0
              hugeSquare (landsOn_standingOn hugeSquare))
    as (_ & _ & Hsame & _).
  destruct (applySquareEffect_agrees demoRnd (standingOn choiceSquare) 0
              choiceSquare (landsOn_standingOn choiceSquare))
    as (_ & _ & _ & Hdiffer).
  split.
  - apply Hsame. vm_compute. discriminate.
  - apply Hdiffer. vm_compute. reflexivity.
Defined.

(** A huge money square of 10: the second landing pays nothing. *)
Lemma huge_money_paid_once_witness :
  handleSquareLanding demoRnd
    (fst (handleSquareLanding demoRnd (standingOn hugeSquare) 0)) 0
  = (fst (handleSquareLanding demoRnd (standingOn hugeSquare) 0), 0%nat).
Proof.
  destruct (huge_money_paid_once demoRnd (standingOn hugeSquare) 0 hugeSquare
              (landsOn_standingOn hugeSquare)) as (_ & _ & _ & H);
    [computed | computed |].
  exact H.
Defined.

(** A trap of 7 takes 7 at each landing. *)
Lemma landing_charges_witness :
  handleSquareLanding demoRnd (standingOn trapSquare) 0
  = (set_playerMoney (playerMoney (standingOn trapSquare) - 7)
       (standingOn trapSquare), 0%nat) /\
  handleSquareLanding demoRnd
    (set_playerMoney (playerMoney (standingOn trapSquare) - 7)
       (standingOn trapSquare)) 0
  = (set_playerMoney (playerMoney (standingOn trapSquare) - 7 - 7)
       (standingOn trapSquare), 0%nat).
Proof.
  apply (proj1 (landing_charges demoRnd (standingOn trapSquare) 0 trapSquare
                  (landsOn_standingOn trapSquare)) 7); computed.
Defined.

Lemma dice_or_money_offer_witness :
  gamePhase (fst (handleSquareLanding demoRnd (standingOn choiceSquare) 0))
  = awaiting_choice /\
  exists d : Die,
    choiceDetails (fst (handleSquareLanding demoRnd (standingOn choiceSquare) 0))
    = Some (mkChoice dice_vs_money "Choose reward:"
              [mkOption "Get $10" (get_money_bonus 10) visual_money;
               mkOption ("Get " +:+ dieLabel d +:+ " Die")
                 (get_chosen_die d) (visual_die d)]).
Proof.
  destruct (dice_or_money_offer demoRnd (standingOn choiceSquare) 0
              choiceSquare demoRnd_unit (landsOn_standingOn choiceSquare)
              eq_refl) as (Hphase & _ & d & Hoffer & _).
  split; [exact Hphase |]. exists d. exact Hoffer.
Defined.

Lemma pick_a_die_offer_witness :
  gamePhase (fst (handleSquareLanding demoRnd (standingOn pickSquare) 0))
  = awaiting_choice.
Proof.
  exact (proj1 (pick_a_die_offer demoRnd (standingOn pickSquare) 0
                  pickSquare demoRnd_unit (landsOn_standingOn pickSquare)
                  eq_refl)).
Defined.

Lemma choice_closes_offer_witness :
  gamePhase
    (playerMakesChoice (mkOption "Get $10" (get_money_bonus 10) visual_money)
       awaitingChoice) = rolling /\
  choiceDetails
    (playerMakesChoice (mkOption "Get $10" (get_money_bonus 10) visual_money)
       awaitingChoice) = None.
Proof.
  destruct (choice_closes_offer
              (mkOption "Get $10" (get_money_bonus 10) visual_money)
              awaitingChoice choiceSquare) as (H1 & H2 & _).
  - computed.
  - vm_compute. eexists. reflexivity.
  - computed.
  - split; [exact H1 | exact H2].
Defined.

(** A fixed die of 3 from the start square of stage 1. *)
Lemma fixed_die_moves_exactly_witness :
  playerPosition (store (rollDice demoRnd (Z.of_nat 0) (withBag [DieFixed 3]) 0))
  = playerPosition (withBag [DieFixed 3]) + 3 /\
  highlightSquareForDie (Some (DieFixed 3)) (withBag [DieFixed 3])
  = Some (playerPosition
            (store (rollDice demoRnd (Z.of_nat 0) (withBag [DieFixed 3]) 0))).
Proof.
  destruct (fixed_die_moves_exactly demoRnd 0 3 (withBag [DieFixed 3]) 0)
    as (_ & H1 & _ & _ & _ & _ & H2); [computed .. |].
  split; [exact H1 | exact H2].
Defined.

(** A reverse fixed die of 2 from the start square of stage 1 ends on
    square 18. *)
Lemma reverse_fixed_die_moves_back_witness :
  playerPosition
    (store (rollDice demoRnd (Z.of_nat 0) (withBag [DieReverseFixed 2]) 0))
  = (playerPosition (withBag [DieReverseFixed 2]) - 2)
      mod totalBoardSquares (withBag [DieReverseFixed 2]) /\
  playerLap
    (store (rollDice demoRnd (Z.of_nat 0) (withBag [DieReverseFixed 2]) 0))
  = playerLap (withBag [DieReverseFixed 2]).
Proof.
  destruct (reverse_fixed_die_moves_back demoRnd 0 2
              (withBag [DieReverseFixed 2]) 0)
    as (_ & H1 & H2 & _); [computed .. |].
  split; [exact H1 | exact H2].
Defined.

(** Hp 15, a throw of 3 logged, one free throw left, an empty bag and a
    sample of 0: the fight is lost. *)
Lemma boss_fight_lost_exactly_when_witness :
  gamePhase (store (rollDice demoRnd (-1) (bossFight 1 [3] []) 0)) = game_lost.
Proof.
  apply (proj1 (proj1 (boss_fight_lost_exactly_when demoRnd
                         (bossFight 1 [3] []) 0 (mkBoss 3 15 40)
                         eq_refl eq_refl) (-1) eq_refl)).
  computed.
Defined.

Lemma boss_throw_values_witness :
  1 <= fst (bossRoll demoRnd DieD20 3) <= 20 /\
  snd (bossRoll demoRnd DieD20 3) = 4%nat.
Proof.
  exact (proj2 (boss_throw_values demoRnd DieD20 (bossFight 3 [] []) 3
                  demoRnd_unit)).
Defined.

Lemma throws_end_by_check_witness :
  rollDice demoRnd (-1) (bossFight 2 [3] [DieFixed 4]) 0
  = checkEndOfBossBattle demoRnd
      (afterFreeThrow demoRnd (bossFight 2 [3] [DieFixed 4]) 0) 1.
Proof.
  apply (proj1 (throws_end_by_check demoRnd (bossFight 2 [3] [DieFixed 4]) 0
                  eq_refl) (-1)).
  computed.
Defined.


(** In a lost game a roll is ignored. *)
Lemma play_is_ignored_outside_its_phases_witness :
  rollDice demoRnd (-1) (failBossFight (bossFight 0 [3] [])) 0
  = returned (failBossFight (bossFight 0 [3] [])) 0.
Proof.
  apply (proj1 (play_is_ignored_outside_its_phases demoRnd
                  (failBossFight (bossFight 0 [3] [])) 0
                  ltac:(discriminate) ltac:(discriminate)
                  ltac:(discriminate))).
Defined.


(** Seventeen dice added to the empty bag of fifteen. *)
(** Seventeen different dice into the empty bag of fifteen: the first
    fifteen are held, in the order they came. *)
Lemma addReservedDie_fills_to_capacity_witness :
  reservedDice
    (foldl (fun s dieData => addReservedDie dieData s) stage1Board
       (DieFixed <$> seqZ 1 17))
  = DieFixed <$> seqZ 1 15.
Proof.
  exact (proj1 (addReservedDie_fills_to_capacity (DieFixed <$> seqZ 1 17)
                  stage1Board)).
Defined.

Lemma player_stands_on_a_square_witness :
  0 <= playerPosition
         (store (runCommands demoRnd (cmdInitializeGame :: turns 2)
                   initialState 0))
  < totalBoardSquares
      (store (runCommands demoRnd (cmdInitializeGame :: turns 2)
                initialState 0)).
Proof.
  exact (proj1 (proj2 (proj2 (player_stands_on_a_square demoRnd (turns 2) 0
                                demoRnd_unit)))).
Defined.

Lemma last_roll_shows_the_die_rolled_witness :
  exists roll : DiceRoll,
    lastDiceRoll
      (store (rollDice demoRnd (Z.of_nat 0) (withBag [DieReverseFixed 2]) 0))
    = Some roll /\
    originalType roll = die_type (DieReverseFixed 2) /\
    is_Some (generateDieImageFilename (Some (ofDie (DieReverseFixed 2))) false) /\
    generateDieImageFilename (Some (ofLastDiceRoll roll)) true
    = generateDieImageFilename (Some (ofDie (DieReverseFixed 2))) false.
Proof.
  apply (last_roll_shows_the_die_rolled demoRnd 0 (DieReverseFixed 2)
           (withBag [DieReverseFixed 2]) 0 demoRnd_unit);
    try reflexivity.
  intros v H. injection H as <-. lia.
Defined.
